(** * Shift Scheduler: schedule validation, generation and comp-off ledger

    A shallow embedding of the scheduling core of [backend/app/main.py],
    [backend/app/holidays_jp.py] and the tables of [backend/app/models.py].

    Conventions of the embedding.
    - A [datetime.date] is its proleptic Gregorian ordinal
      ([date.toordinal()], day 1 = 0001-01-01, a Monday); adding a
      [timedelta(days=n)] is adding [n].
    - A [datetime.datetime] is a number of microseconds since the midnight
      that starts ordinal day 0.
    - A Python float is an exact rational ([Q]); [round(x, 2)] is rounding
      half to even on that rational.
    - A table is the list of its rows in insertion order; a request handler
      maps the committed database to its outcome and the database committed
      when it ends.  The SQLAlchemy session autoflushes (the library's
      default), so a query sees the rows added earlier in the same request.
    - [while current_date <= end_date: ...; current_date += timedelta(days=1)]
      is a left fold over [dates_between current_date end_date]. *)

From Stdlib Require Import ZArith List Bool Lia String Ascii QArith Qround.
From Stdlib Require Import Sorting.Sorted.
Import ListNotations.

Open Scope Z_scope.

(** ** Python values the handlers compute with *)

Module Py.

Definition date := Z.

(** [date.weekday()]: Monday is 0, Sunday is 6. *)
Definition weekday (d : date) : Z := (d + 6) mod 7.

(** PostgreSQL [extract(dow from d)]: Sunday is 0, Saturday is 6. *)
Definition pg_dow (d : date) : Z := d mod 7.

(** The dates visited by a [while cur <= stop] loop that steps one day. *)
Definition dates_between (cur stop : date) : list date :=
  map (fun k => cur + Z.of_nat k) (seq 0 (Z.to_nat (stop - cur + 1))).

(** [datetime._ord2ymd]: year, month and day of an ordinal. *)
Definition days_before_month (leap : bool) (month : Z) : Z :=
  let base :=
    match month with
    | 1 => 0 | 2 => 31 | 3 => 59 | 4 => 90 | 5 => 120 | 6 => 151
    | 7 => 181 | 8 => 212 | 9 => 243 | 10 => 273 | 11 => 304 | 12 => 334
    | _ => 365
    end in
  if (2 <? month) && leap then base + 1 else base.

Definition ord2ymd (ordinal : date) : Z * Z * Z :=
  let n0 := ordinal - 1 in
  let n400 := n0 / 146097 in
  let n1r := n0 mod 146097 in
  let n100 := n1r / 36524 in
  let n2r := n1r mod 36524 in
  let n4 := n2r / 1461 in
  let n3r := n2r mod 1461 in
  let n1 := n3r / 365 in
  let n := n3r mod 365 in
  let year := n400 * 400 + 1 + n100 * 100 + n4 * 4 + n1 in
  if (n1 =? 4) || (n100 =? 4) then (year - 1, 12, 31)
  else
    let leapyear := (n1 =? 3) && (negb (n4 =? 24) || (n100 =? 3)) in
    let month := Z.shiftr (n + 50) 5 in
    let month :=
      if n <? days_before_month leapyear month then month - 1 else month in
    (year, month, n - days_before_month leapyear month + 1).

Definition digit (n : Z) : ascii := ascii_of_nat (48 + Z.to_nat (n mod 10)).

Definition two_digits (n : Z) (rest : string) : string :=
  String (digit (n / 10)) (String (digit n) rest).

(** ["%Y-%m"] and ["%Y-%m-%d"], zero padded. *)
Definition strftime_Ym (d : date) : string :=
  let '(y, m, _) := ord2ymd d in
  two_digits (y / 100) (two_digits y (String "-"%char
    (two_digits m EmptyString))).

Definition strftime_Ymd (d : date) : string :=
  let '(y, m, dd) := ord2ymd d in
  two_digits (y / 100) (two_digits y (String "-"%char
    (two_digits m (String "-"%char (two_digits dd EmptyString))))).

(** [int(s)] on a run of decimal digits; anything else is a [ValueError]. *)
Definition digit_val (c : ascii) : option Z :=
  let n := Z.of_nat (nat_of_ascii c) in
  if (48 <=? n) && (n <=? 57) then Some (n - 48) else None.

Fixpoint int_digits (acc : Z) (s : string) : option Z :=
  match s with
  | EmptyString => Some acc
  | String c rest =>
      match digit_val c with
      | Some v => int_digits (acc * 10 + v) rest
      | None => None
      end
  end.

Definition int_of (s : string) : option Z :=
  match s with
  | EmptyString => None
  | _ => int_digits 0 s
  end.

(** [s.split(':')]. *)
Fixpoint split_colon (cur : string) (s : string) : list string :=
  match s with
  | EmptyString => [cur]
  | String c rest =>
      if Ascii.eqb c ":"%char then cur :: split_colon EmptyString rest
      else split_colon (cur ++ String c EmptyString)%string rest
  end.

(** [h, m = map(int, s.split(':'))]: two integers or an exception. *)
Definition parse_hm (s : string) : option (Z * Z) :=
  match split_colon EmptyString s with
  | [hs; ms] =>
      match int_of hs, int_of ms with
      | Some h, Some m => Some (h, m)
      | _, _ => None
      end
  | _ => None
  end.

(** [time.replace(hour=h, minute=m)] accepts only a valid time of day. *)
Definition valid_hm (h m : Z) : bool :=
  (0 <=? h) && (h <=? 23) && (0 <=? m) && (m <=? 59).

(** [datetime.strptime(s, '%H:%M')]: one or two digits for the hour and
    for the minute, in range; the result as minutes after midnight. *)
Definition strptime_HM (s : string) : option Z :=
  match split_colon EmptyString s with
  | [hs; ms] =>
      match int_of hs, int_of ms with
      | Some h, Some m =>
          if (String.length hs <=? 2)%nat && (String.length ms <=? 2)%nat
             && valid_hm h m
          then Some (h * 60 + m) else None
      | _, _ => None
      end
  | _ => None
  end.

(** Microseconds. *)
Definition datetime := Z.
Definition usec_per_minute : Z := 60000000.
Definition usec_per_day : Z := 86400000000.

(** [t.strftime("%H:%M")]. *)
Definition strftime_HM (t : datetime) : string :=
  let minute_of_day := (t mod usec_per_day) / usec_per_minute in
  let h := minute_of_day / 60 in
  let m := minute_of_day mod 60 in
  two_digits h (String ":"%char (two_digits m EmptyString)).

(** [datetime.combine(d, time(h, m))]. *)
Definition combine (d : date) (h m : Z) : datetime :=
  d * usec_per_day + (h * 60 + m) * usec_per_minute.

(** [(a - b).total_seconds() / 60], in minutes. *)
Definition minutes_between (a b : datetime) : Q := (a - b) # 60000000.

(** [round(x, 2)]: to the nearest hundredth, ties to the even one. *)
Definition round2 (x : Q) : Q :=
  let y := (x * (100 # 1))%Q in
  let n := Qfloor y in
  let frac := (y - (n # 1))%Q in
  let up :=
    match Qcompare frac (1 # 2) with
    | Lt => false
    | Gt => true
    | Eq => Z.odd n
    end in
  ((if up then n + 1 else n) # 100).

Definition Qmax (a b : Q) : Q := if Qle_bool a b then b else a.
Definition Qmin (a b : Q) : Q := if Qle_bool a b then a else b.
Definition Qlt_bool (a b : Q) : bool := negb (Qle_bool b a).

End Py.
Import Py.

(** ** backend/app/holidays_jp.py *)

(** [holidays_lib.Japan()]: the public-holiday table, date to holiday name. *)
Record JapaneseCalendar := { holidays_jp : date -> option string }.

Definition is_holiday (self : JapaneseCalendar) (target_date : date) : bool :=
  match holidays_jp self target_date with Some _ => true | None => false end.

Definition is_weekend (target_date : date) : bool := 5 <=? weekday target_date.

Definition get_holiday_name (self : JapaneseCalendar) (target_date : date)
  : option string := holidays_jp self target_date.

Definition get_shifts_required_for_week (self : JapaneseCalendar)
    (week_start : date) : Z :=
  let week_end := week_start + 6 in
  let weekday_holidays :=
    fold_left
      (fun weekday_holidays current_date =>
         if (weekday current_date <? 5) && is_holiday self current_date
         then weekday_holidays + 1 else weekday_holidays)
      (dates_between week_start week_end) 0 in
  Z.max 4 (5 - weekday_holidays).

(** The part of [get_week_info] the validators read. *)
Record week_info := {
  wi_holiday_names : list string;
  wi_weekday_holiday_count : Z;
  wi_required_shifts : Z
}.

Definition get_week_info (self : JapaneseCalendar) (week_start : date)
  : week_info :=
  let days := dates_between week_start (week_start + 6) in
  let count :=
    fold_left
      (fun c d => if is_holiday self d && negb (is_weekend d) then c + 1 else c)
      days 0 in
  {| wi_holiday_names :=
       flat_map (fun d => match get_holiday_name self d with
                          | Some n => if String.eqb n EmptyString then [] else [n]
                          | None => []
                          end) days;
     wi_weekday_holiday_count := count;
     wi_required_shifts := Z.max 4 (5 - count) |}.

(** ** backend/app/models.py

    One module per table, with the columns the scheduling core reads or
    writes.  A nullable column is an [option]. *)

Inductive UserType := ADMIN | MANAGER | EMPLOYEE.
Inductive LeaveStatus := PENDING | APPROVED | REJECTED.

Definition UserType_eqb (a b : UserType) : bool :=
  match a, b with
  | ADMIN, ADMIN | MANAGER, MANAGER | EMPLOYEE, EMPLOYEE => true
  | _, _ => false
  end.

Definition LeaveStatus_eqb (a b : LeaveStatus) : bool :=
  match a, b with
  | PENDING, PENDING | APPROVED, APPROVED | REJECTED, REJECTED => true
  | _, _ => false
  end.

Module User.
Record t := { id : Z; user_type : UserType }.
End User.

Module Manager.
Record t := { id : Z; user_id : Z; department_id : Z }.
End Manager.

Module Employee.
Record t := {
  id : Z;
  first_name : string;
  last_name : string;
  department_id : Z;
  role_id : option Z;
  user_id : option Z;
  weekly_hours : Q;
  daily_max_hours : Q;
  is_active : bool
}.
End Employee.

Module Role.
Record t := {
  id : Z;
  department_id : Z;
  break_minutes : option Z;
  is_active : bool
}.
End Role.

Module Schedule.
Record t := {
  id : Z;
  department_id : Z;
  employee_id : Z;
  role_id : Z;
  shift_id : option Z;
  date : Py.date;
  start_time : option string;
  end_time : option string;
  status : string;
  notes : option string
}.
End Schedule.

Module LeaveRequest.
Record t := {
  id : Z;
  employee_id : Z;
  start_date : date;
  end_date : date;
  leave_type : string;
  duration_type : option string;
  reason : option string;
  status : LeaveStatus;
  manager_id : option Z;
  reviewed_at : option datetime;
  review_notes : option string
}.
End LeaveRequest.

Module CheckInOut.
Record t := {
  id : Z;
  employee_id : Z;
  schedule_id : option Z;
  date : Py.date;
  check_in_time : option datetime;
  check_out_time : option datetime;
  check_in_status : option string;
  notes : option string
}.
End CheckInOut.

Module Attendance.
Record t := {
  id : Z;
  employee_id : Z;
  schedule_id : option Z;
  date : Py.date;
  in_time : option string;
  out_time : option string;
  status : option string;
  worked_hours : Q;
  overtime_hours : Q;
  break_minutes : Z
}.
End Attendance.

(** [Shift.schedule_config]: the JSON object, weekday name to its
    ['enabled'] flag; [None] for a day whose entry is not an object or has
    no such key. *)
Module Shift.
Record t := {
  id : Z;
  role_id : Z;
  name : string;
  start_time : string;
  end_time : string;
  min_emp : Z;
  max_emp : Z;
  schedule_config : option (list (string * option bool));
  is_active : bool
}.
End Shift.

Module OvertimeTracking.
Record t := {
  id : Z;
  employee_id : Z;
  month : Z;
  year : Z;
  allocated_hours : Q;
  used_hours : Q;
  remaining_hours : Q
}.
End OvertimeTracking.

Module OvertimeRequest.
Record t := {
  id : Z;
  employee_id : Z;
  request_date : date;
  from_time : option string;
  to_time : option string;
  request_hours : Q;
  status : LeaveStatus
}.
End OvertimeRequest.

Module CompOffRequest.
Record t := {
  id : Z;
  employee_id : Z;
  comp_off_date : date;
  reason : option string;
  status : LeaveStatus;
  manager_id : option Z;
  reviewed_at : option datetime;
  review_notes : option string;
  schedule_id : option Z
}.
End CompOffRequest.

Module CompOffTracking.
Record t := {
  id : Z;
  employee_id : Z;
  earned_days : Z;
  used_days : Z;
  available_days : Z;
  earned_date : option datetime;
  updated_at : option datetime
}.
End CompOffTracking.

Module CompOffDetail.
Record t := {
  id : Z;
  employee_id : Z;
  tracking_id : Z;
  type : string;
  date : Py.date;
  earned_month : string;
  notes : string
}.
End CompOffDetail.

(** The relational store: the tables, and the next value of the serial
    primary key of each table the handlers insert into. *)
Record Database := {
  managers : list Manager.t;
  employees : list Employee.t;
  roles : list Role.t;
  shifts : list Shift.t;
  schedules : list Schedule.t;
  leave_requests : list LeaveRequest.t;
  check_ins : list CheckInOut.t;
  attendance : list Attendance.t;
  overtime_tracking : list OvertimeTracking.t;
  overtime_requests : list OvertimeRequest.t;
  comp_off_requests : list CompOffRequest.t;
  comp_off_tracking : list CompOffTracking.t;
  comp_off_details : list CompOffDetail.t;
  schedules_id_seq : Z;
  attendance_id_seq : Z;
  overtime_tracking_id_seq : Z;
  comp_off_tracking_id_seq : Z;
  comp_off_details_id_seq : Z
}.

(** ** Exceptions and query results *)

Inductive exception :=
| HTTPException (status_code : Z) (detail : string)
| NameError (name : string)
| ValueError
| AttributeError
| IntegrityError (constraint : string)
| MultipleResultsFound.

Inductive result (A : Type) :=
| Ok (a : A)
| Raise (e : exception).
Arguments Ok {A} a.
Arguments Raise {A} e.

(** [Result.scalar_one_or_none()]. *)
Definition scalar_one_or_none {A : Type} (rows : list A) : result (option A) :=
  match rows with
  | [] => Ok None
  | [r] => Ok (Some r)
  | _ => Raise MultipleResultsFound
  end.

(** [Result.scalars().first()]. *)
Definition first {A : Type} (rows : list A) : option A := hd_error rows.

(** [column.in_([...])] on a text column. *)
Definition in_ (s : string) (values : list string) : bool :=
  existsb (String.eqb s) values.

(** [x or default] on an optional string: [None] and [""] are falsy. *)
Definition str_or (x : option string) (default : string) : string :=
  match x with
  | Some s => if String.eqb s EmptyString then default else s
  | None => default
  end.

(** Truthiness of an optional integer: [None] and [0] are falsy. *)
Definition truthy_id (x : option Z) : option Z :=
  match x with
  | Some i => if i =? 0 then None else Some i
  | None => None
  end.

(** [query.filter(Schedule.id != exclude_schedule_id)], added only under
    [if exclude_schedule_id:]. *)
Definition not_excluded (exclude_schedule_id : option Z) (s : Schedule.t) : bool :=
  match truthy_id exclude_schedule_id with
  | Some i => negb (Schedule.id s =? i)
  | None => true
  end.

(** ** Constraint validation helper functions of main.py *)

Definition count_rows {A : Type} (p : A -> bool) (rows : list A) : Z :=
  Z.of_nat (List.length (filter p rows)).

Definition weekday_coverage_statuses : list string :=
  ["scheduled"; "leave"; "comp_off_taken"; "comp_off_earned";
   "leave_half_morning"; "leave_half_afternoon"]%string.

Definition weekend_regular_statuses : list string :=
  ["scheduled"; "leave"; "leave_half_morning"; "leave_half_afternoon"]%string.

(** The reason returned with a rejection, with the numbers the message
    prints. *)
Inductive quota_error :=
| WeekdayRequirementMet (target : date) (weekday_coverage required : Z)
    (holidays : week_info)
| WeeklyTotalReached (required weekday_coverage weekend_regular total : Z)
    (holidays : week_info)
| WeekdayQuotaReached (required weekday_coverage : Z) (holidays : week_info)
    (week_start week_end : date).

Definition validate_5_shifts_per_week (jp_calendar : JapaneseCalendar)
    (db : Database) (employee_id : Z) (target_date : date)
    (exclude_schedule_id : option Z) : bool * option quota_error :=
  let week_start := target_date - weekday target_date in
  let week_end := week_start + 6 in
  let required_shifts := get_shifts_required_for_week jp_calendar week_start in
  let weekday_coverage :=
    count_rows
      (fun s =>
         (Schedule.employee_id s =? employee_id)
         && (week_start <=? Schedule.date s)
         && (Schedule.date s <=? week_end)
         && in_ (Schedule.status s) weekday_coverage_statuses
         && existsb (Z.eqb (pg_dow (Schedule.date s))) [1; 2; 3; 4; 5]
         && not_excluded exclude_schedule_id s)
      (schedules db) in
  let weekend_regular_shifts :=
    count_rows
      (fun s =>
         (Schedule.employee_id s =? employee_id)
         && (week_start <=? Schedule.date s)
         && (Schedule.date s <=? week_end)
         && in_ (Schedule.status s) weekend_regular_statuses
         && existsb (Z.eqb (pg_dow (Schedule.date s))) [6; 0]
         && not_excluded exclude_schedule_id s)
      (schedules db) in
  let week_info := get_week_info jp_calendar week_start in
  let target_weekday := weekday target_date in
  if 5 <=? target_weekday then
    if required_shifts <=? weekday_coverage then
      (false, Some (WeekdayRequirementMet target_date weekday_coverage
                      required_shifts week_info))
    else
      let total_shifts := weekday_coverage + weekend_regular_shifts in
      if required_shifts <=? total_shifts then
        (false, Some (WeeklyTotalReached required_shifts weekday_coverage
                        weekend_regular_shifts total_shifts week_info))
      else (true, None)
  else
    if required_shifts <=? weekday_coverage then
      (false, Some (WeekdayQuotaReached required_shifts weekday_coverage
                      week_info week_start week_end))
    else (true, None).

(** [sorted(dates)]. *)
Fixpoint insert_sorted (d : date) (l : list date) : list date :=
  match l with
  | [] => [d]
  | x :: rest => if d <=? x then d :: l else x :: insert_sorted d rest
  end.

Definition sorted (l : list date) : list date :=
  fold_right insert_sorted [] l.

(** [list(dict.fromkeys(dates))]: first occurrences, in order. *)
Fixpoint fromkeys (l : list date) : list date :=
  match l with
  | [] => []
  | x :: rest => x :: filter (fun y => negb (y =? x)) (fromkeys rest)
  end.

(** The loop over [range(1, len(all_dates))], entered after [prev]. *)
Fixpoint longest_run_from (prev : date) (rest : list date)
    (current_consecutive max_consecutive_found : Z) : Z :=
  match rest with
  | [] => max_consecutive_found
  | d :: rest' =>
      if d - prev =? 1 then
        longest_run_from d rest' (current_consecutive + 1)
          (Z.max max_consecutive_found (current_consecutive + 1))
      else longest_run_from d rest' 1 max_consecutive_found
  end.

Definition longest_run (all_dates : list date) : Z :=
  match all_dates with
  | [] => 1
  | d :: rest => longest_run_from d rest 1 1
  end.

Definition consecutive_statuses : list string :=
  ["scheduled"; "leave"; "comp_off_taken"; "leave_half_morning";
   "leave_half_afternoon"]%string.

Inductive consecutive_error :=
| TooManyConsecutive (max_consecutive_found max_consecutive : Z).

Definition validate_consecutive_shifts_limit (db : Database)
    (employee_id : Z) (target_date : date) (exclude_schedule_id : option Z)
    (max_consecutive : Z) : bool * option consecutive_error :=
  let week_start := target_date - weekday target_date in
  let week_end := week_start + 6 in
  let existing_schedules :=
    filter
      (fun s =>
         (Schedule.employee_id s =? employee_id)
         && (week_start <=? Schedule.date s)
         && (Schedule.date s <=? week_end)
         && in_ (Schedule.status s) consecutive_statuses
         && not_excluded exclude_schedule_id s)
      (schedules db) in
  let all_dates :=
    fromkeys (sorted (map Schedule.date existing_schedules ++ [target_date])) in
  let max_consecutive_found := longest_run all_dates in
  if max_consecutive <? max_consecutive_found then
    (false, Some (TooManyConsecutive max_consecutive_found max_consecutive))
  else (true, None).

(** ** Request handlers: plumbing

    A handler body computes on the session's view of the database and
    either returns its response with the database to commit, or raises. *)

Definition bind {A B : Type} (r : result A) (k : A -> result B) : result B :=
  match r with
  | Ok a => k a
  | Raise e => Raise e
  end.

Notation "x <- e ;; k" := (bind e (fun x => k))
  (at level 61, e at next level, right associativity).
Notation "' pat <- e ;; k" := (bind e (fun x => match x with pat => k end))
  (at level 61, pat pattern, e at next level, right associativity).

(** [await db.commit()] as the last statement: the body's database is
    committed; an exception before it leaves the committed rows as they
    were. *)
Definition transaction {A : Type} (db : Database)
    (body : result (A * Database)) : result A * Database :=
  match body with
  | Ok (a, db') => (Ok a, db')
  | Raise e => (Raise e, db)
  end.

(** A loop body that may raise, folded over the loop's items. *)
Fixpoint foldM {A S : Type} (f : S -> A -> result S) (s : S) (l : list A)
  : result S :=
  match l with
  | [] => Ok s
  | x :: rest => s' <- f s x ;; foldM f s' rest
  end.

Definition date_of (t : datetime) : date := t / usec_per_day.

Definition set_schedules (db : Database) (rows : list Schedule.t) : Database :=
  {| managers := managers db; employees := employees db; roles := roles db;
     shifts := shifts db; schedules := rows;
     leave_requests := leave_requests db; check_ins := check_ins db;
     attendance := attendance db; overtime_tracking := overtime_tracking db;
     overtime_requests := overtime_requests db;
     comp_off_requests := comp_off_requests db;
     comp_off_tracking := comp_off_tracking db;
     comp_off_details := comp_off_details db;
     schedules_id_seq := schedules_id_seq db;
     attendance_id_seq := attendance_id_seq db;
     overtime_tracking_id_seq := overtime_tracking_id_seq db;
     comp_off_tracking_id_seq := comp_off_tracking_id_seq db;
     comp_off_details_id_seq := comp_off_details_id_seq db |}.

(** [db.add(Schedule(...))] and the flush that assigns its id.  The
    constructor's [role_id] may be [None] (an employee without a role);
    the column is NOT NULL. *)
Definition add_schedule (db : Database) (department_id employee_id : Z)
    (role_id : option Z) (shift_id : option Z) (d : date)
    (start_time end_time : option string) (status : string)
    (notes : option string) : result (Schedule.t * Database) :=
  match role_id with
  | None => Raise (IntegrityError "schedules.role_id")
  | Some rid =>
      let row :=
        {| Schedule.id := schedules_id_seq db;
           Schedule.department_id := department_id;
           Schedule.employee_id := employee_id;
           Schedule.role_id := rid;
           Schedule.shift_id := shift_id;
           Schedule.date := d;
           Schedule.start_time := start_time;
           Schedule.end_time := end_time;
           Schedule.status := status;
           Schedule.notes := notes |} in
      Ok (row,
          {| managers := managers db; employees := employees db;
             roles := roles db; shifts := shifts db;
             schedules := schedules db ++ [row];
             leave_requests := leave_requests db; check_ins := check_ins db;
             attendance := attendance db;
             overtime_tracking := overtime_tracking db;
             overtime_requests := overtime_requests db;
             comp_off_requests := comp_off_requests db;
             comp_off_tracking := comp_off_tracking db;
             comp_off_details := comp_off_details db;
             schedules_id_seq := schedules_id_seq db + 1;
             attendance_id_seq := attendance_id_seq db;
             overtime_tracking_id_seq := overtime_tracking_id_seq db;
             comp_off_tracking_id_seq := comp_off_tracking_id_seq db;
             comp_off_details_id_seq := comp_off_details_id_seq db |})
  end.

(** [await db.delete(sched)] on a mapped Schedule.  The relationships
    [check_in] and [attendance] cascade the delete; a comp-off request
    that still references the row violates [fk_compoff_schedule]. *)
Definition delete_schedule (db : Database) (sched : Schedule.t)
  : result Database :=
  let sid := Schedule.id sched in
  let refers (x : option Z) :=
    match x with Some i => i =? sid | None => false end in
  if existsb (fun c => refers (CompOffRequest.schedule_id c))
       (comp_off_requests db)
  then Raise (IntegrityError "fk_compoff_schedule")
  else
    Ok {| managers := managers db; employees := employees db;
          roles := roles db; shifts := shifts db;
          schedules :=
            filter (fun s => negb (Schedule.id s =? sid)) (schedules db);
          leave_requests := leave_requests db;
          check_ins :=
            filter (fun c => negb (refers (CheckInOut.schedule_id c)))
              (check_ins db);
          attendance :=
            filter (fun a => negb (refers (Attendance.schedule_id a)))
              (attendance db);
          overtime_tracking := overtime_tracking db;
          overtime_requests := overtime_requests db;
          comp_off_requests := comp_off_requests db;
          comp_off_tracking := comp_off_tracking db;
          comp_off_details := comp_off_details db;
          schedules_id_seq := schedules_id_seq db;
          attendance_id_seq := attendance_id_seq db;
          overtime_tracking_id_seq := overtime_tracking_id_seq db;
          comp_off_tracking_id_seq := comp_off_tracking_id_seq db;
          comp_off_details_id_seq := comp_off_details_id_seq db |}.

Definition set_leave_requests (db : Database) (rows : list LeaveRequest.t)
  : Database :=
  {| managers := managers db; employees := employees db; roles := roles db;
     shifts := shifts db; schedules := schedules db;
     leave_requests := rows; check_ins := check_ins db;
     attendance := attendance db; overtime_tracking := overtime_tracking db;
     overtime_requests := overtime_requests db;
     comp_off_requests := comp_off_requests db;
     comp_off_tracking := comp_off_tracking db;
     comp_off_details := comp_off_details db;
     schedules_id_seq := schedules_id_seq db;
     attendance_id_seq := attendance_id_seq db;
     overtime_tracking_id_seq := overtime_tracking_id_seq db;
     comp_off_tracking_id_seq := comp_off_tracking_id_seq db;
     comp_off_details_id_seq := comp_off_details_id_seq db |}.

Definition set_comp_off_requests (db : Database)
    (rows : list CompOffRequest.t) : Database :=
  {| managers := managers db; employees := employees db; roles := roles db;
     shifts := shifts db; schedules := schedules db;
     leave_requests := leave_requests db; check_ins := check_ins db;
     attendance := attendance db; overtime_tracking := overtime_tracking db;
     overtime_requests := overtime_requests db;
     comp_off_requests := rows;
     comp_off_tracking := comp_off_tracking db;
     comp_off_details := comp_off_details db;
     schedules_id_seq := schedules_id_seq db;
     attendance_id_seq := attendance_id_seq db;
     overtime_tracking_id_seq := overtime_tracking_id_seq db;
     comp_off_tracking_id_seq := comp_off_tracking_id_seq db;
     comp_off_details_id_seq := comp_off_details_id_seq db |}.

Definition set_comp_off_tracking (db : Database)
    (rows : list CompOffTracking.t) (next_id : Z) : Database :=
  {| managers := managers db; employees := employees db; roles := roles db;
     shifts := shifts db; schedules := schedules db;
     leave_requests := leave_requests db; check_ins := check_ins db;
     attendance := attendance db; overtime_tracking := overtime_tracking db;
     overtime_requests := overtime_requests db;
     comp_off_requests := comp_off_requests db;
     comp_off_tracking := rows;
     comp_off_details := comp_off_details db;
     schedules_id_seq := schedules_id_seq db;
     attendance_id_seq := attendance_id_seq db;
     overtime_tracking_id_seq := overtime_tracking_id_seq db;
     comp_off_tracking_id_seq := next_id;
     comp_off_details_id_seq := comp_off_details_id_seq db |}.

(** [db.add(CompOffDetail(...))]. *)
Definition add_comp_off_detail (db : Database) (employee_id tracking_id : Z)
    (type : string) (d : date) (earned_month notes : string) : Database :=
  let row :=
    {| CompOffDetail.id := comp_off_details_id_seq db;
       CompOffDetail.employee_id := employee_id;
       CompOffDetail.tracking_id := tracking_id;
       CompOffDetail.type := type;
       CompOffDetail.date := d;
       CompOffDetail.earned_month := earned_month;
       CompOffDetail.notes := notes |} in
  {| managers := managers db; employees := employees db; roles := roles db;
     shifts := shifts db; schedules := schedules db;
     leave_requests := leave_requests db; check_ins := check_ins db;
     attendance := attendance db; overtime_tracking := overtime_tracking db;
     overtime_requests := overtime_requests db;
     comp_off_requests := comp_off_requests db;
     comp_off_tracking := comp_off_tracking db;
     comp_off_details := comp_off_details db ++ [row];
     schedules_id_seq := schedules_id_seq db;
     attendance_id_seq := attendance_id_seq db;
     overtime_tracking_id_seq := overtime_tracking_id_seq db;
     comp_off_tracking_id_seq := comp_off_tracking_id_seq db;
     comp_off_details_id_seq := comp_off_details_id_seq db + 1 |}.

(** An attribute assignment on a loaded row, written back by its id. *)
Definition update_row {A : Type} (key : A -> Z) (row : A) (rows : list A)
  : list A :=
  map (fun r => if key r =? key row then row else r) rows.

(** ** POST /manager/approve-comp-off/{comp_off_id} *)

(** The clock is read once per request: [utcnow]. *)
Definition approve_comp_off_body (db : Database) (utcnow : datetime)
    (comp_off_id : Z) (review_notes : option string) (current_user : User.t)
  : result (string * Database) :=
  comp_off <- scalar_one_or_none
    (filter (fun c => CompOffRequest.id c =? comp_off_id)
       (comp_off_requests db)) ;;
  match comp_off with
  | None => Raise (HTTPException 404 "Comp-off request not found")
  | Some comp_off =>
  manager <- scalar_one_or_none
    (filter (fun m => Manager.user_id m =? User.id current_user)
       (managers db)) ;;
  match manager with
  | None => Raise (HTTPException 403 "User is not a manager")
  | Some manager =>
  employee <- scalar_one_or_none
    (filter (fun e => Employee.id e =? CompOffRequest.employee_id comp_off)
       (employees db)) ;;
  match employee with
  | None => Raise (HTTPException 404 "Employee not found")
  | Some employee =>
  '(new_schedule, db) <- add_schedule db
      (Employee.department_id employee) (Employee.id employee)
      (Employee.role_id employee) None
      (CompOffRequest.comp_off_date comp_off)
      None None "comp_off_taken"
      (Some ("Comp-Off Earned: " ++
             str_or (CompOffRequest.reason comp_off)
               "Worked on non-shift day")%string) ;;
  let comp_off :=
    {| CompOffRequest.id := CompOffRequest.id comp_off;
       CompOffRequest.employee_id := CompOffRequest.employee_id comp_off;
       CompOffRequest.comp_off_date := CompOffRequest.comp_off_date comp_off;
       CompOffRequest.reason := CompOffRequest.reason comp_off;
       CompOffRequest.status := APPROVED;
       CompOffRequest.manager_id := Some (Manager.id manager);
       CompOffRequest.reviewed_at := Some utcnow;
       CompOffRequest.review_notes := review_notes;
       CompOffRequest.schedule_id := Some (Schedule.id new_schedule) |} in
  let db :=
    set_comp_off_requests db
      (update_row CompOffRequest.id comp_off (comp_off_requests db)) in
  tracking <- scalar_one_or_none
    (filter (fun t => CompOffTracking.employee_id t =? Employee.id employee)
       (comp_off_tracking db)) ;;
  let '(tracking, db) :=
    match tracking with
    | Some tracking =>
        let earned_days := CompOffTracking.earned_days tracking + 1 in
        let tracking :=
          {| CompOffTracking.id := CompOffTracking.id tracking;
             CompOffTracking.employee_id :=
               CompOffTracking.employee_id tracking;
             CompOffTracking.earned_days := earned_days;
             CompOffTracking.used_days := CompOffTracking.used_days tracking;
             CompOffTracking.available_days :=
               earned_days - CompOffTracking.used_days tracking;
             CompOffTracking.earned_date := Some utcnow;
             CompOffTracking.updated_at := Some utcnow |} in
        (tracking,
         set_comp_off_tracking db
           (update_row CompOffTracking.id tracking (comp_off_tracking db))
           (comp_off_tracking_id_seq db))
    | None =>
        let tracking :=
          {| CompOffTracking.id := comp_off_tracking_id_seq db;
             CompOffTracking.employee_id := Employee.id employee;
             CompOffTracking.earned_days := 1;
             CompOffTracking.used_days := 0;
             CompOffTracking.available_days := 1;
             CompOffTracking.earned_date := Some utcnow;
             CompOffTracking.updated_at := Some utcnow |} in
        (tracking,
         set_comp_off_tracking db (comp_off_tracking db ++ [tracking])
           (comp_off_tracking_id_seq db + 1))
    end in
  let db :=
    add_comp_off_detail db (Employee.id employee)
      (CompOffTracking.id tracking) "earned"
      (CompOffRequest.comp_off_date comp_off)
      (strftime_Ym (CompOffRequest.comp_off_date comp_off))
      ("Earned by working on " ++
       strftime_Ymd (CompOffRequest.comp_off_date comp_off))%string in
  Ok ("Comp-off approved successfully"%string, db)
  end end end.

Definition approve_comp_off (db : Database) (utcnow : datetime)
    (comp_off_id : Z) (review_notes : option string) (current_user : User.t)
  : result string * Database :=
  transaction db
    (approve_comp_off_body db utcnow comp_off_id review_notes current_user).

(** ** POST /manager/approve-leave/{leave_id} *)

(** The status, times and note of the row a paid or unpaid leave day
    becomes. *)
Definition leave_row_of (duration_type : option string) (leave_type : string)
  : string * string * string * string :=
  let dt := str_or duration_type EmptyString in
  if prefix "half_day" dt then
    if (dt =? "half_day_morning")%string then
      ("leave_half_morning", "00:00", "12:00",
       "Half Day Leave (Morning) - " ++ leave_type)%string
    else
      ("leave_half_afternoon", "12:00", "23:59",
       "Half Day Leave (Afternoon) - " ++ leave_type)%string
  else
    ("leave", "00:00", "23:59", "Full Day Leave - " ++ leave_type)%string.

(** Rows the comp-off branch deletes for one date. *)
Definition blocks_comp_off_usage (employee_id : Z) (current_date : date)
    (s : Schedule.t) : bool :=
  (Schedule.employee_id s =? employee_id)
  && (Schedule.date s =? current_date)
  && negb (Schedule.status s =? "comp_off_taken")%string
  && negb (Schedule.status s =? "cancelled")%string.

(** One round of the loop that creates the comp-off usage rows: the rows
    in the way on [current_date] are deleted, the [comp_off_taken] row is
    added, the day is counted. *)
Definition use_comp_off_day (employee : Employee.t)
    (leave_request : LeaveRequest.t) (st : Database * Z) (current_date : date)
  : result (Database * Z) :=
  let '(db, comp_off_days) := st in
  let existing_schedules :=
    filter (blocks_comp_off_usage (Employee.id employee) current_date)
      (schedules db) in
  db <- foldM delete_schedule db existing_schedules ;;
  '(_, db) <- add_schedule db
      (Employee.department_id employee) (Employee.id employee)
      (Employee.role_id employee) None current_date
      None None "comp_off_taken"
      (Some ("Comp-Off Taken: " ++
             str_or (LeaveRequest.reason leave_request)
               "Using earned comp-off")%string) ;;
  Ok (db, comp_off_days + 1).

Definition approve_leave_body (db : Database) (utcnow : datetime)
    (leave_id : Z) (review_notes : option string) (current_user : User.t)
  : result (string * Database) :=
  leave_request <- scalar_one_or_none
    (filter (fun l => LeaveRequest.id l =? leave_id) (leave_requests db)) ;;
  match leave_request with
  | None => Raise (HTTPException 404 "Leave request not found")
  | Some leave_request =>
  manager <- scalar_one_or_none
    (filter (fun m => Manager.user_id m =? User.id current_user)
       (managers db)) ;;
  match manager with
  | None => Raise (HTTPException 403 "User is not a manager")
  | Some manager =>
  let leave_request :=
    {| LeaveRequest.id := LeaveRequest.id leave_request;
       LeaveRequest.employee_id := LeaveRequest.employee_id leave_request;
       LeaveRequest.start_date := LeaveRequest.start_date leave_request;
       LeaveRequest.end_date := LeaveRequest.end_date leave_request;
       LeaveRequest.leave_type := LeaveRequest.leave_type leave_request;
       LeaveRequest.duration_type := LeaveRequest.duration_type leave_request;
       LeaveRequest.reason := LeaveRequest.reason leave_request;
       LeaveRequest.status := APPROVED;
       LeaveRequest.manager_id := Some (Manager.id manager);
       LeaveRequest.reviewed_at := Some utcnow;
       LeaveRequest.review_notes := review_notes |} in
  let db :=
    set_leave_requests db
      (update_row LeaveRequest.id leave_request (leave_requests db)) in
  employee <- scalar_one_or_none
    (filter (fun e => Employee.id e =? LeaveRequest.employee_id leave_request)
       (employees db)) ;;
  let days :=
    dates_between (LeaveRequest.start_date leave_request)
      (LeaveRequest.end_date leave_request) in
  db <-
    match employee with
    | Some employee =>
        if in_ (LeaveRequest.leave_type leave_request) ["paid"; "unpaid"]%string
        then
          foldM
            (fun db current_date =>
               existing <- scalar_one_or_none
                 (filter
                    (fun s =>
                       (Schedule.employee_id s =? Employee.id employee)
                       && (Schedule.date s =? current_date)
                       && negb (Schedule.status s =? "cancelled")%string)
                    (schedules db)) ;;
               match existing with
               | Some _ => Ok db
               | None =>
                   let '(status, start_time, end_time, notes) :=
                     leave_row_of (LeaveRequest.duration_type leave_request)
                       (LeaveRequest.leave_type leave_request) in
                   '(_, db) <- add_schedule db
                       (Employee.department_id employee) (Employee.id employee)
                       (Employee.role_id employee) None current_date
                       (Some start_time) (Some end_time) status (Some notes) ;;
                   Ok db
               end)
            db days
        else Ok db
    | None => Ok db
    end ;;
  db <-
    match employee with
    | Some employee =>
        if (LeaveRequest.leave_type leave_request =? "comp_off")%string then
          let current_month_str := strftime_Ym (date_of utcnow) in
          _ <- foldM
            (fun (_ : unit) current_check_date =>
               let month_str := strftime_Ym current_check_date in
               if String.ltb month_str current_month_str then
                 Raise (HTTPException 400
                   ("Cannot use comp-off from " ++ month_str ++
                    ". Comp-off expires at end of the month earned."))
               else Ok tt)
            tt days ;;
          '(db, comp_off_days) <-
            foldM (use_comp_off_day employee leave_request) (db, 0) days ;;
          tracking <- scalar_one_or_none
            (filter
               (fun t => CompOffTracking.employee_id t =? Employee.id employee)
               (comp_off_tracking db)) ;;
          match tracking with
          | Some tracking =>
              let used_days :=
                CompOffTracking.used_days tracking + comp_off_days in
              let tracking :=
                {| CompOffTracking.id := CompOffTracking.id tracking;
                   CompOffTracking.employee_id :=
                     CompOffTracking.employee_id tracking;
                   CompOffTracking.earned_days :=
                     CompOffTracking.earned_days tracking;
                   CompOffTracking.used_days := used_days;
                   CompOffTracking.available_days :=
                     CompOffTracking.earned_days tracking - used_days;
                   CompOffTracking.earned_date :=
                     CompOffTracking.earned_date tracking;
                   CompOffTracking.updated_at := Some utcnow |} in
              let db :=
                set_comp_off_tracking db
                  (update_row CompOffTracking.id tracking
                     (comp_off_tracking db))
                  (comp_off_tracking_id_seq db) in
              Ok (fold_left
                    (fun db current_date =>
                       add_comp_off_detail db (Employee.id employee)
                         (CompOffTracking.id tracking) "used" current_date
                         (strftime_Ym current_date)
                         ("Used on " ++ strftime_Ymd current_date)%string)
                    days db)
          | None => Ok db
          end
        else Ok db
    | None => Ok db
    end ;;
  Ok ("Leave approved successfully"%string, db)
  end end.

Definition approve_leave (db : Database) (utcnow : datetime) (leave_id : Z)
    (review_notes : option string) (current_user : User.t)
  : result string * Database :=
  transaction db
    (approve_leave_body db utcnow leave_id review_notes current_user).

(** ** POST /employee/check-out *)

Definition set_check_ins (db : Database) (rows : list CheckInOut.t)
  : Database :=
  {| managers := managers db; employees := employees db; roles := roles db;
     shifts := shifts db; schedules := schedules db;
     leave_requests := leave_requests db; check_ins := rows;
     attendance := attendance db; overtime_tracking := overtime_tracking db;
     overtime_requests := overtime_requests db;
     comp_off_requests := comp_off_requests db;
     comp_off_tracking := comp_off_tracking db;
     comp_off_details := comp_off_details db;
     schedules_id_seq := schedules_id_seq db;
     attendance_id_seq := attendance_id_seq db;
     overtime_tracking_id_seq := overtime_tracking_id_seq db;
     comp_off_tracking_id_seq := comp_off_tracking_id_seq db;
     comp_off_details_id_seq := comp_off_details_id_seq db |}.

Definition set_attendance (db : Database) (rows : list Attendance.t)
    (next_id : Z) : Database :=
  {| managers := managers db; employees := employees db; roles := roles db;
     shifts := shifts db; schedules := schedules db;
     leave_requests := leave_requests db; check_ins := check_ins db;
     attendance := rows; overtime_tracking := overtime_tracking db;
     overtime_requests := overtime_requests db;
     comp_off_requests := comp_off_requests db;
     comp_off_tracking := comp_off_tracking db;
     comp_off_details := comp_off_details db;
     schedules_id_seq := schedules_id_seq db;
     attendance_id_seq := next_id;
     overtime_tracking_id_seq := overtime_tracking_id_seq db;
     comp_off_tracking_id_seq := comp_off_tracking_id_seq db;
     comp_off_details_id_seq := comp_off_details_id_seq db |}.

(** A non-empty string is truthy. *)
Definition truthy_str (x : option string) : option string :=
  match x with
  | Some s => if String.eqb s EmptyString then None else Some s
  | None => None
  end.

(** [datetime.combine(today, datetime.min.time().replace(hour=h, minute=m))]
    after [h, m = map(int, s.split(':'))]; [None] when either step raises. *)
Definition time_on (today : date) (s : string) : option datetime :=
  match parse_hm s with
  | Some (h, m) => if valid_hm h m then Some (combine today h m) else None
  | None => None
  end.

(** The fallback of the overtime block: hours over the daily cap, capped at
    the approved hours. *)
Definition overtime_over_cap (worked_hours daily_max_hours request_hours : Q)
  : Q :=
  let actual_overtime := (worked_hours - daily_max_hours)%Q in
  if Qlt_bool 0 actual_overtime
  then round2 (Qmin actual_overtime request_hours)
  else 0%Q.

(** The body of the [try] that clips overtime to the approved window;
    [None] when it raises. *)
Definition overtime_in_window (today : date) (check_out_time : datetime)
    (shift_end_str : option string) (overtime_request : OvertimeRequest.t)
    (worked_hours daily_max_hours : Q) : option Q :=
  match shift_end_str with
  | None => None
  | Some shift_end_str =>
  match time_on today shift_end_str with
  | None => None
  | Some shift_end_time =>
      match truthy_str (OvertimeRequest.from_time overtime_request),
            truthy_str (OvertimeRequest.to_time overtime_request) with
      | Some ot_start_str, Some ot_end_str =>
          match time_on today ot_start_str, time_on today ot_end_str with
          | Some ot_window_start, Some ot_window_end =>
              let ot_period_start := shift_end_time in
              let ot_period_end := check_out_time in
              let actual_ot_start := Z.max ot_period_start ot_window_start in
              let actual_ot_end := Z.min ot_period_end ot_window_end in
              if actual_ot_start <? actual_ot_end then
                let actual_ot_minutes :=
                  minutes_between actual_ot_end actual_ot_start in
                let actual_ot_hours := (actual_ot_minutes / (60 # 1))%Q in
                let overtime_hours :=
                  Qmin actual_ot_hours
                    (OvertimeRequest.request_hours overtime_request) in
                Some (round2 overtime_hours)
              else Some 0%Q
          | _, _ => None
          end
      | _, _ =>
          Some (overtime_over_cap worked_hours daily_max_hours
                  (OvertimeRequest.request_hours overtime_request))
      end
  end end.

(** The hours written on the attendance row:
    (worked_hours, break_minutes, overtime_hours). *)
Definition calculate_hours (today : date)
    (check_in_time check_out_time : datetime)
    (schedule : option Schedule.t) (role : option Role.t)
    (overtime_request : option OvertimeRequest.t) (employee : Employee.t)
  : Q * Z * Q :=
  let total_minutes := minutes_between check_out_time check_in_time in
  let break_minutes :=
    match schedule, role with
    | Some _, Some role =>
        let role_break :=
          match Role.break_minutes role with Some b => b | None => 0 end in
        if Qle_bool (role_break # 1) total_minutes then role_break else 0
    | _, _ => 0
    end in
  let worked_minutes := Qmax 0 (total_minutes - (break_minutes # 1))%Q in
  let worked_hours := round2 (worked_minutes / (60 # 1))%Q in
  let overtime_hours :=
    match overtime_request, schedule with
    | Some overtime_request, Some schedule =>
        match overtime_in_window today check_out_time
                (Schedule.end_time schedule) overtime_request worked_hours
                (Employee.daily_max_hours employee) with
        | Some h => h
        | None =>
            overtime_over_cap worked_hours
              (Employee.daily_max_hours employee)
              (OvertimeRequest.request_hours overtime_request)
        end
    | _, _ =>
        if Qlt_bool (Employee.daily_max_hours employee) worked_hours
        then round2 (worked_hours - Employee.daily_max_hours employee)%Q
        else 0%Q
    end in
  (worked_hours, break_minutes, overtime_hours).

(** The attendance block of check-out, inside its own [try]. *)
Definition record_attendance_on_check_out (db : Database) (today : date)
    (employee : Employee.t) (check_in : CheckInOut.t) : result Database :=
  attendance_row <- scalar_one_or_none
    (filter (fun a => (Attendance.employee_id a =? Employee.id employee)
                      && (Attendance.date a =? today)) (attendance db)) ;;
  let in_time := option_map strftime_HM (CheckInOut.check_in_time check_in) in
  let out_time := option_map strftime_HM (CheckInOut.check_out_time check_in) in
  let '(is_new, att_id, att_status, hours0) :=
    match attendance_row with
    | None =>
        (true, attendance_id_seq db,
         Some (str_or (CheckInOut.check_in_status check_in) "onTime"),
         (0%Q, 0, 0%Q))
    | Some a =>
        (false, Attendance.id a, Attendance.status a,
         (Attendance.worked_hours a, Attendance.break_minutes a,
          Attendance.overtime_hours a))
    end in
  hours <-
    match CheckInOut.check_in_time check_in,
          CheckInOut.check_out_time check_in with
    | Some check_in_time, Some check_out_time =>
        let schedule :=
          match CheckInOut.schedule_id check_in with
          | Some sid =>
              first (filter (fun s => Schedule.id s =? sid) (schedules db))
          | None => None
          end in
        let role :=
          match schedule with
          | Some s =>
              first (filter (fun r => Role.id r =? Schedule.role_id s)
                       (roles db))
          | None => None
          end in
        overtime_request <- scalar_one_or_none
          (filter
             (fun o =>
                (OvertimeRequest.employee_id o =? Employee.id employee)
                && (OvertimeRequest.request_date o =? today)
                && LeaveStatus_eqb (OvertimeRequest.status o) APPROVED)
             (overtime_requests db)) ;;
        Ok (calculate_hours today check_in_time check_out_time schedule role
              overtime_request employee)
    | _, _ => Ok hours0
    end ;;
  let '(worked_hours, break_minutes, overtime_hours) := hours in
  let row :=
    {| Attendance.id := att_id;
       Attendance.employee_id := Employee.id employee;
       Attendance.schedule_id := CheckInOut.schedule_id check_in;
       Attendance.date := today;
       Attendance.in_time := in_time;
       Attendance.out_time := out_time;
       Attendance.status := att_status;
       Attendance.worked_hours := worked_hours;
       Attendance.overtime_hours := overtime_hours;
       Attendance.break_minutes := break_minutes |} in
  if is_new
  then Ok (set_attendance db (attendance db ++ [row]) (attendance_id_seq db + 1))
  else Ok (set_attendance db (update_row Attendance.id row (attendance db))
             (attendance_id_seq db)).

(** [today] is [date.today()] and [now] is [datetime.now()]. *)
Definition check_out (db : Database) (today : date) (now : datetime)
    (notes : option string) (current_user : User.t)
  : result CheckInOut.t * Database :=
  let escalate {A} (r : result A) : result A :=
    match r with
    | Raise (HTTPException c d) => Raise (HTTPException c d)
    | Raise _ => Raise (HTTPException 500 "Check-out failed")
    | Ok a => Ok a
    end in
  let found :=
    employee <- scalar_one_or_none
      (filter (fun e => match Employee.user_id e with
                        | Some u => u =? User.id current_user
                        | None => false
                        end) (employees db)) ;;
    match employee with
    | None => Raise (HTTPException 400 "Employee record not found")
    | Some employee =>
        check_in <- scalar_one_or_none
          (filter
             (fun c =>
                (CheckInOut.employee_id c =? Employee.id employee)
                && (CheckInOut.date c =? today)
                && match CheckInOut.check_out_time c with
                   | None => true
                   | Some _ => false
                   end) (check_ins db)) ;;
        match check_in with
        | None => Raise (HTTPException 400 "No active check-in found")
        | Some check_in => Ok (employee, check_in)
        end
    end in
  match escalate found with
  | Raise e => (Raise e, db)
  | Ok (employee, check_in) =>
      let check_in :=
        {| CheckInOut.id := CheckInOut.id check_in;
           CheckInOut.employee_id := CheckInOut.employee_id check_in;
           CheckInOut.schedule_id := CheckInOut.schedule_id check_in;
           CheckInOut.date := CheckInOut.date check_in;
           CheckInOut.check_in_time := CheckInOut.check_in_time check_in;
           CheckInOut.check_out_time := Some now;
           CheckInOut.check_in_status := CheckInOut.check_in_status check_in;
           CheckInOut.notes := notes |} in
      let db :=
        set_check_ins db (update_row CheckInOut.id check_in (check_ins db)) in
      match record_attendance_on_check_out db today employee check_in with
      | Ok db' => (Ok check_in, db')
      | Raise _ => (Ok check_in, db)
      end
  end.

(** ** POST /schedules *)

Module ScheduleCreate.
Record t := {
  employee_id : Z;
  role_id : Z;
  shift_id : option Z;
  date : Py.date;
  start_time : string;
  end_time : string;
  notes : option string
}.
End ScheduleCreate.

(** A name that a function reads without ever assigning it is looked up in
    the module namespace; [globals] is that namespace, restricted to names
    bound to a date.  An unbound name raises [NameError]. *)
Definition namespace := string -> option date.

Definition lookup_name (globals : namespace) (name : string) : result date :=
  match globals name with
  | Some v => Ok v
  | None => Raise (NameError name)
  end.

(** main.py binds no date at module level: its top-level statements are
    imports, [app = FastAPI(...)], the middleware call and the handlers. *)
Definition main_globals : namespace := fun _ => None.

Definition get_user_department (db : Database) (user : User.t)
  : result (option Z) :=
  match User.user_type user with
  | MANAGER =>
      manager <- scalar_one_or_none
        (filter (fun m => Manager.user_id m =? User.id user) (managers db)) ;;
      Ok (option_map Manager.department_id manager)
  | EMPLOYEE =>
      employee <- scalar_one_or_none
        (filter (fun e => match Employee.user_id e with
                          | Some u => u =? User.id user
                          | None => false
                          end) (employees db)) ;;
      Ok (option_map Employee.department_id employee)
  | ADMIN => Ok None
  end.

Definition get_manager_department (db : Database) (user : User.t)
  : result (option Z) :=
  if negb (UserType_eqb (User.user_type user) MANAGER) then Ok None
  else get_user_department db user.

(** Hours between two "HH:MM" texts, a shift that ends at or before its
    start running past midnight; [None] when the parse raises. *)
Definition hours_between (start_time end_time : option string) : option Q :=
  match start_time, end_time with
  | Some st, Some en =>
      match parse_hm st, parse_hm en with
      | Some (start_h, start_m), Some (end_h, end_m) =>
          let start_decimal := ((start_h # 1) + (start_m # 60))%Q in
          let end_decimal := ((end_h # 1) + (end_m # 60))%Q in
          Some (if Qlt_bool start_decimal end_decimal
                then (end_decimal - start_decimal)%Q
                else ((24 # 1) - start_decimal + end_decimal)%Q)
      | _, _ => None
      end
  | _, _ => None
  end.

(** The [for sched in ...: try: ... except: pass] sum of hours. *)
Definition sum_hours (rows : list Schedule.t) : Q :=
  fold_left
    (fun acc sched =>
       match hours_between (Schedule.start_time sched)
               (Schedule.end_time sched) with
       | Some hours => (acc + hours)%Q
       | None => acc
       end)
    rows 0%Q.

Record overtime_payload := {
  op_status : string;
  op_shift_hours : Q;
  op_overtime_hours : Q;
  op_total_daily_hours : Q;
  op_total_weekly_hours : Q;
  op_allocated_ot_hours : Q;
  op_used_ot_hours : Q;
  op_remaining_ot_hours : Q;
  op_has_sufficient_ot : bool;
  op_daily_overtime : bool;
  op_weekly_overtime : bool;
  op_weekly_overtime_hours : Q
}.

Inductive create_schedule_response :=
| RequiresOvertimeApproval (payload : overtime_payload)
| ScheduleCreated (row : Schedule.t).

Definition set_overtime_tracking (db : Database)
    (rows : list OvertimeTracking.t) (next_id : Z) : Database :=
  {| managers := managers db; employees := employees db; roles := roles db;
     shifts := shifts db; schedules := schedules db;
     leave_requests := leave_requests db; check_ins := check_ins db;
     attendance := attendance db; overtime_tracking := rows;
     overtime_requests := overtime_requests db;
     comp_off_requests := comp_off_requests db;
     comp_off_tracking := comp_off_tracking db;
     comp_off_details := comp_off_details db;
     schedules_id_seq := schedules_id_seq db;
     attendance_id_seq := attendance_id_seq db;
     overtime_tracking_id_seq := next_id;
     comp_off_tracking_id_seq := comp_off_tracking_id_seq db;
     comp_off_details_id_seq := comp_off_details_id_seq db |}.

Definition create_schedule_body (globals : namespace)
    (jp_calendar : JapaneseCalendar) (db : Database)
    (schedule_data : ScheduleCreate.t) (current_user : User.t)
  : result (create_schedule_response * Database) :=
  employee <- scalar_one_or_none
    (filter (fun e => Employee.id e =? ScheduleCreate.employee_id schedule_data)
       (employees db)) ;;
  match employee with
  | None => Raise (HTTPException 404 "Employee not found")
  | Some employee =>
  _ <- (if UserType_eqb (User.user_type current_user) MANAGER then
          manager_dept <- get_manager_department db current_user ;;
          match truthy_id manager_dept with
          | Some dept =>
              if Employee.department_id employee =? dept then Ok tt
              else Raise (HTTPException 403
                     "Can only schedule employees in your department")
          | None => Raise (HTTPException 403
                     "Can only schedule employees in your department")
          end
        else Ok tt) ;;
  let shift_hours :=
    match hours_between (Some (ScheduleCreate.start_time schedule_data))
            (Some (ScheduleCreate.end_time schedule_data)) with
    | Some h => h
    | None => 0%Q
    end in
  let employee_id := ScheduleCreate.employee_id schedule_data in
  let target := ScheduleCreate.date schedule_data in
  match validate_5_shifts_per_week jp_calendar db employee_id target None with
  | (false, _) => Raise (HTTPException 400 "weekly shift limit")
  | (true, _) =>
  match validate_consecutive_shifts_limit db employee_id target None 5 with
  | (false, _) => Raise (HTTPException 400 "consecutive shift limit")
  | (true, _) =>
  let '(overtime_required, daily_overtime, overtime_hours) :=
    if Qlt_bool (8 # 1) shift_hours
    then (true, true, (shift_hours - (8 # 1))%Q)
    else (false, false, 0%Q) in
  let existing_schedules :=
    filter (fun s => (Schedule.employee_id s =? employee_id)
                     && (Schedule.date s =? target)) (schedules db) in
  let existing_hours := sum_hours existing_schedules in
  let total_daily_hours := (existing_hours + shift_hours)%Q in
  let '(overtime_required, daily_overtime, overtime_hours) :=
    if Qlt_bool (8 # 1) total_daily_hours then
      (true, true,
       if Qle_bool shift_hours (8 # 1)
       then (total_daily_hours - (8 # 1))%Q else overtime_hours)
    else (overtime_required, daily_overtime, overtime_hours) in
  week_start <- lookup_name globals "week_start" ;;
  week_end <- lookup_name globals "week_end" ;;
  let week_schedules :=
    filter (fun s => (Schedule.employee_id s =? employee_id)
                     && (week_start <=? Schedule.date s)
                     && (Schedule.date s <=? week_end)) (schedules db) in
  let existing_weekly_hours := sum_hours week_schedules in
  let total_weekly_hours := (existing_weekly_hours + shift_hours)%Q in
  let '(overtime_required, weekly_overtime, weekly_overtime_hours) :=
    if Qlt_bool (40 # 1) total_weekly_hours
    then (true, true, (total_weekly_hours - (40 # 1))%Q)
    else (overtime_required, false, 0%Q) in
  if overtime_required then
    let '(year, month, _) := ord2ymd target in
    tracking <- scalar_one_or_none
      (filter (fun t => (OvertimeTracking.employee_id t =? employee_id)
                        && (OvertimeTracking.year t =? year)
                        && (OvertimeTracking.month t =? month))
         (overtime_tracking db)) ;;
    let '(tracking, db) :=
      match tracking with
      | Some tracking => (tracking, db)
      | None =>
          let tracking :=
            {| OvertimeTracking.id := overtime_tracking_id_seq db;
               OvertimeTracking.employee_id := employee_id;
               OvertimeTracking.month := month;
               OvertimeTracking.year := year;
               OvertimeTracking.allocated_hours := 8 # 1;
               OvertimeTracking.used_hours := 0;
               OvertimeTracking.remaining_hours := 8 # 1 |} in
          (tracking,
           set_overtime_tracking db (overtime_tracking db ++ [tracking])
             (overtime_tracking_id_seq db + 1))
      end in
    let total_overtime_hours := Qmax overtime_hours weekly_overtime_hours in
    Ok (RequiresOvertimeApproval
          {| op_status := "requires_overtime_approval";
             op_shift_hours := shift_hours;
             op_overtime_hours := total_overtime_hours;
             op_total_daily_hours :=
               if Qlt_bool (8 # 1) total_daily_hours
               then total_daily_hours else shift_hours;
             op_total_weekly_hours := total_weekly_hours;
             op_allocated_ot_hours := OvertimeTracking.allocated_hours tracking;
             op_used_ot_hours := OvertimeTracking.used_hours tracking;
             op_remaining_ot_hours := OvertimeTracking.remaining_hours tracking;
             op_has_sufficient_ot :=
               Qle_bool total_overtime_hours
                 (OvertimeTracking.remaining_hours tracking);
             op_daily_overtime := daily_overtime;
             op_weekly_overtime := weekly_overtime;
             op_weekly_overtime_hours := weekly_overtime_hours |},
        db)
  else
    '(schedule, db) <- add_schedule db (Employee.department_id employee)
        employee_id (Some (ScheduleCreate.role_id schedule_data))
        (ScheduleCreate.shift_id schedule_data) target
        (Some (ScheduleCreate.start_time schedule_data))
        (Some (ScheduleCreate.end_time schedule_data))
        "scheduled" (ScheduleCreate.notes schedule_data) ;;
    Ok (ScheduleCreated schedule, db)
  end end end.

Definition create_schedule (globals : namespace)
    (jp_calendar : JapaneseCalendar) (db : Database)
    (schedule_data : ScheduleCreate.t) (current_user : User.t)
  : result create_schedule_response * Database :=
  transaction db
    (create_schedule_body globals jp_calendar db schedule_data current_user).

(** ** POST /schedules/generate *)

Definition weekday_names : list string :=
  ["Monday"; "Tuesday"; "Wednesday"; "Thursday"; "Friday"; "Saturday";
   "Sunday"]%string.

(** [current_date.strftime('%A')]. *)
Definition strftime_A (d : date) : string :=
  nth (Z.to_nat (weekday d)) weekday_names "Sunday"%string.

Definition config_get (day : string) (config : list (string * option bool))
  : option (option bool) :=
  option_map snd (find (fun kv => String.eqb (fst kv) day) config).

Definition config_set (day : string) (v : option bool)
    (config : list (string * option bool)) : list (string * option bool) :=
  match config_get day config with
  | Some _ =>
      map (fun kv => if String.eqb (fst kv) day then (day, v) else kv) config
  | None => config ++ [(day, v)]
  end.

Definition all_days_enabled : list (string * option bool) :=
  map (fun day => (day, Some true)) weekday_names.

(** The loop that gives every shift a complete [schedule_config]: an
    absent or empty one enables all days; in a present one a day that is
    missing, malformed or has no ['enabled'] key is disabled. *)
Definition ensure_schedule_config (shift : Shift.t) : Shift.t :=
  let config :=
    match Shift.schedule_config shift with
    | None | Some [] => all_days_enabled
    | Some config =>
        fold_left
          (fun config day =>
             match config_get day config with
             | Some (Some _) => config
             | _ => config_set day (Some false) config
             end)
          weekday_names config
    end in
  {| Shift.id := Shift.id shift; Shift.role_id := Shift.role_id shift;
     Shift.name := Shift.name shift; Shift.start_time := Shift.start_time shift;
     Shift.end_time := Shift.end_time shift; Shift.min_emp := Shift.min_emp shift;
     Shift.max_emp := Shift.max_emp shift; Shift.schedule_config := Some config;
     Shift.is_active := Shift.is_active shift |}.

(** Whether the shift is skipped on [day_name]. *)
Definition should_skip (shift : Shift.t) (day_name : string) : bool :=
  match Shift.schedule_config shift with
  | None | Some [] => true
  | Some config =>
      match config_get day_name config with
      | Some (Some is_day_enabled) => negb is_day_enabled
      | _ => true
      end
  end.

(** [.order_by(Schedule.date).limit(1)] and
    [.order_by(Schedule.date.desc()).limit(1)]; among rows of one date the
    first in table order. *)
Definition earliest (rows : list Schedule.t) : option Schedule.t :=
  fold_left
    (fun best s =>
       match best with
       | Some b => if Schedule.date s <? Schedule.date b then Some s else best
       | None => Some s
       end) rows None.

Definition latest (rows : list Schedule.t) : option Schedule.t :=
  fold_left
    (fun best s =>
       match best with
       | Some b => if Schedule.date b <? Schedule.date s then Some s else best
       | None => Some s
       end) rows None.

Definition worked_statuses : list string :=
  ["scheduled"; "completed"; "comp_off_earned"]%string.

(** Both times of a row, when both are set and non-empty. *)
Definition shift_times (s : option Schedule.t) : option (string * string) :=
  match s with
  | Some s =>
      match truthy_str (Schedule.start_time s),
            truthy_str (Schedule.end_time s) with
      | Some a, Some b => Some (a, b)
      | _, _ => None
      end
  | None => None
  end.

(** Times of the row that marks a comp-off earned day: the employee's
    shift in the same week, else the latest shift on the same weekday, else
    the whole day. *)
Definition comp_off_earned_times (db : Database) (emp_id : Z)
    (current_date : date) : string * string :=
  let week_start := current_date - weekday current_date in
  let week_end := week_start + 6 in
  let week_sched :=
    earliest
      (filter (fun s => (Schedule.employee_id s =? emp_id)
                        && (week_start <=? Schedule.date s)
                        && (Schedule.date s <=? week_end)
                        && negb (Schedule.date s =? current_date)
                        && in_ (Schedule.status s) worked_statuses)
         (schedules db)) in
  match shift_times week_sched with
  | Some times => times
  | None =>
      let day_name := strftime_A current_date in
      let same_day_sched :=
        latest
          (filter (fun s => (Schedule.employee_id s =? emp_id)
                            && String.eqb (strftime_A (Schedule.date s)) day_name
                            && in_ (Schedule.status s) worked_statuses)
             (schedules db)) in
      match shift_times same_day_sched with
      | Some times => times
      | None => ("00:00", "23:59")%string
      end
  end.

(** Status, times and note of the row created for an employee on approved
    leave or comp-off. *)
Definition leave_schedule_of (db : Database) (emp_id : Z) (current_date : date)
    (leave_request : option LeaveRequest.t)
    (comp_off_request : option CompOffRequest.t)
  : string * option string * option string * string :=
  match comp_off_request, leave_request with
  | Some comp_off_request, _ =>
      let '(start_time, end_time) :=
        comp_off_earned_times db emp_id current_date in
      ("comp_off_earned", Some start_time, Some end_time,
       "Comp-Off Earned: " ++
       str_or (CompOffRequest.reason comp_off_request)
         "Worked on non-shift day")%string
  | None, Some leave_request =>
      let leave_type := LeaveRequest.leave_type leave_request in
      let duration_type := LeaveRequest.duration_type leave_request in
      if (leave_type =? "comp_off")%string then
        ("comp_off_taken", None, None,
         "Comp-Off Taken: " ++
         str_or (LeaveRequest.reason leave_request) "Using earned comp-off")%string
      else if (str_or duration_type "" =? "half_day_morning")%string then
        ("leave_half_morning", Some "00:00", Some "12:00",
         "Half Day Leave (Morning) - " ++ leave_type)%string
      else if (str_or duration_type "" =? "half_day_afternoon")%string then
        ("leave_half_afternoon", Some "12:00", Some "23:59",
         "Half Day Leave (Afternoon) - " ++ leave_type)%string
      else
        ("leave", Some "00:00", Some "23:59",
         "Full Day Leave - " ++ leave_type)%string
  | None, None => ("leave", Some "00:00", Some "23:59", "Full Day Leave - ")%string
  end.

Record overtime_warning := {
  ow_employee_id : Z;
  ow_date : date;
  ow_shift_hours : Q;
  ow_existing_daily_hours : Q;
  ow_total_daily_hours : Q;
  ow_total_weekly_hours : Q
}.

Inductive feedback_line :=
| FoundExisting (count : Z)
| AskRegenerate
| NoActiveRoles
| NoActiveShifts
| NoActiveEmployees
| UnderStaffed (shift_name : string) (d : date) (assigned_count min_emp : Z)
| Generated (schedules_created : Z)
| OvertimeAlerts (count : Z).

(** The variables the nested loops of the generator update. *)
Record generation := {
  g_db : Database;
  g_schedules_created : Z;
  g_feedback : list feedback_line;
  g_overtime_warnings : list overtime_warning
}.

(** Work hours of the employee's existing rows of the week, breaks
    subtracted: (existing_hours, existing_hours_today). *)
Definition existing_work_hours (db : Database) (current_date : date)
    (existing_schedules : list Schedule.t) : Q * Q :=
  fold_left
    (fun '(existing_hours, existing_hours_today) sched =>
       match shift_times (Some sched) with
       | Some (st, en) =>
           match strptime_HM st, strptime_HM en with
           | Some start, Some stop =>
               let total_hours := ((stop - start) # 60) in
               let break_hours :=
                 match first (filter (fun r => Role.id r =? Schedule.role_id sched)
                                (roles db)) with
                 | Some role =>
                     match Role.break_minutes role with
                     | Some b => (b # 60)
                     | None => 0%Q
                     end
                 | None => 0%Q
                 end in
               let work_hours := (total_hours - break_hours)%Q in
               ((existing_hours + work_hours)%Q,
                if Schedule.date sched =? current_date
                then (existing_hours_today + work_hours)%Q
                else existing_hours_today)
           | _, _ => (existing_hours, existing_hours_today)
           end
       | None => (existing_hours, existing_hours_today)
       end)
    existing_schedules (0%Q, 0%Q).

(** The employee's rows of the week of [current_date] that count as work
    ([scheduled], [completed], [comp_off_earned]); the generator runs this
    query for its consecutive-days check and again for the hour totals. *)
Definition worked_rows_of_week (db : Database) (emp_id : Z)
    (current_date : date) : list Schedule.t :=
  let week_start := current_date - weekday current_date in
  let week_end := week_start + 6 in
  filter (fun s => (Schedule.employee_id s =? emp_id)
                   && (week_start <=? Schedule.date s)
                   && (Schedule.date s <=? week_end)
                   && in_ (Schedule.status s) worked_statuses)
    (schedules db).

(** The inline consecutive-days check of the generator: the longest run
    among the employee's worked days of the week, the candidate included. *)
Definition generator_run_length (db : Database) (emp_id : Z)
    (current_date : date) : Z :=
  let week_schedules := worked_rows_of_week db emp_id current_date in
  let week_dates := map Schedule.date week_schedules in
  let week_dates :=
    if existsb (Z.eqb current_date) week_dates then week_dates
    else week_dates ++ [current_date] in
  longest_run (sorted week_dates).

(** What the body of [for emp in eligible_for_shift[shift.id]] does to the
    loop variables; the flag is set by [break]. *)
Definition assign_employee (jp_calendar : JapaneseCalendar)
    (department_id : Z) (current_date : date) (shift : Shift.t)
    (role : option Role.t) (st : generation * Z * bool) (emp : Employee.t)
  : result (generation * Z * bool) :=
  let '(g, assigned_count, stopped) := st in
  if stopped then Ok st else
  let db := g_db g in
  let emp_id := Employee.id emp in
  let leave_request :=
    first (filter (fun l => (LeaveRequest.employee_id l =? emp_id)
                            && (LeaveRequest.start_date l <=? current_date)
                            && (current_date <=? LeaveRequest.end_date l)
                            && LeaveStatus_eqb (LeaveRequest.status l) APPROVED)
             (leave_requests db)) in
  let comp_off_request :=
    first (filter (fun c => (CompOffRequest.employee_id c =? emp_id)
                            && (CompOffRequest.comp_off_date c =? current_date)
                            && LeaveStatus_eqb (CompOffRequest.status c) APPROVED)
             (comp_off_requests db)) in
  let existing_today :=
    first (filter (fun s => (Schedule.employee_id s =? emp_id)
                            && (Schedule.date s =? current_date))
             (schedules db)) in
  let on_leave :=
    match leave_request, comp_off_request with
    | None, None => false
    | _, _ => true
    end in
  if on_leave then
    match existing_today with
    | Some _ => Ok st
    | None =>
        let '(leave_status, start_time, end_time, leave_notes) :=
          leave_schedule_of db emp_id current_date leave_request
            comp_off_request in
        '(_, db) <- add_schedule db department_id emp_id
            (Some (Shift.role_id shift)) (Some (Shift.id shift)) current_date
            start_time end_time leave_status (Some leave_notes) ;;
        Ok ({| g_db := db;
               g_schedules_created := g_schedules_created g + 1;
               g_feedback := g_feedback g;
               g_overtime_warnings := g_overtime_warnings g |},
            assigned_count, false)
    end
  else
  match existing_today with
  | Some _ => Ok st
  | None =>
  if 5 <? generator_run_length db emp_id current_date then Ok st else
  let existing_schedules := worked_rows_of_week db emp_id current_date in
  let '(existing_hours, existing_hours_today) :=
    existing_work_hours db current_date existing_schedules in
  match strptime_HM (Shift.start_time shift),
        strptime_HM (Shift.end_time shift) with
  | Some shift_start, Some shift_end =>
  let total_shift_hours := ((shift_end - shift_start) # 60) in
  match role with
  | None => Raise AttributeError
  | Some role =>
  let break_hours :=
    match Role.break_minutes role with Some b => (b # 60) | None => 0%Q end in
  let work_hours := (total_shift_hours - break_hours)%Q in
  let daily_max :=
    if Qeq_bool (Employee.daily_max_hours emp) 0 then (8 # 1)
    else Employee.daily_max_hours emp in
  let daily_total_with_shift := (existing_hours_today + total_shift_hours)%Q in
  let overtime_warnings :=
    if Qlt_bool (9 # 1) daily_total_with_shift then
      g_overtime_warnings g ++
      [{| ow_employee_id := emp_id; ow_date := current_date;
          ow_shift_hours := total_shift_hours;
          ow_existing_daily_hours := existing_hours_today;
          ow_total_daily_hours := daily_total_with_shift;
          ow_total_weekly_hours := (existing_hours + work_hours)%Q |}]
    else g_overtime_warnings g in
  let g :=
    {| g_db := db; g_schedules_created := g_schedules_created g;
       g_feedback := g_feedback g;
       g_overtime_warnings := overtime_warnings |} in
  if Qle_bool (existing_hours + work_hours) (Employee.weekly_hours emp)
     && Qle_bool (existing_hours_today + work_hours) daily_max
  then
    match validate_5_shifts_per_week jp_calendar db emp_id current_date None with
    | (false, _) => Ok (g, assigned_count, false)
    | (true, _) =>
        '(_, db) <- add_schedule db department_id emp_id
            (Some (Shift.role_id shift)) (Some (Shift.id shift)) current_date
            (Some (Shift.start_time shift)) (Some (Shift.end_time shift))
            "scheduled" None ;;
        let assigned_count := assigned_count + 1 in
        Ok ({| g_db := db;
               g_schedules_created := g_schedules_created g + 1;
               g_feedback := g_feedback g;
               g_overtime_warnings := overtime_warnings |},
            assigned_count, Shift.max_emp shift <=? assigned_count)
    end
  else Ok (g, assigned_count, false)
  end
  | _, _ => Raise ValueError
  end end.

(** The body of [for shift in shifts] on one date. *)
Definition assign_shift (jp_calendar : JapaneseCalendar) (department_id : Z)
    (current_date : date) (active_roles : list Role.t)
    (employees : list Employee.t) (g : generation) (shift : Shift.t)
  : result generation :=
  let role :=
    first (filter (fun r => Role.id r =? Shift.role_id shift) active_roles) in
  if should_skip shift (strftime_A current_date) then Ok g else
  let eligible :=
    filter (fun emp => match Employee.role_id emp with
                       | None => true
                       | Some r => r =? Shift.role_id shift
                       end) employees in
  '(g, assigned_count, _) <-
    foldM (assign_employee jp_calendar department_id current_date shift role)
      (g, 0, false) eligible ;;
  if assigned_count <? Shift.min_emp shift then
    Ok {| g_db := g_db g; g_schedules_created := g_schedules_created g;
          g_feedback :=
            g_feedback g ++
            [UnderStaffed (Shift.name shift) current_date assigned_count
               (Shift.min_emp shift)];
          g_overtime_warnings := g_overtime_warnings g |}
  else Ok g.

(** The body of [while current_date <= end_date]. *)
Definition assign_day (jp_calendar : JapaneseCalendar) (department_id : Z)
    (active_roles : list Role.t) (shifts : list Shift.t)
    (employees : list Employee.t) (g : generation) (current_date : date)
  : result generation :=
  if is_holiday jp_calendar current_date then Ok g
  else
    foldM (assign_shift jp_calendar department_id current_date active_roles
             employees) g shifts.

Record generate_response := {
  success : bool;
  schedules_created : Z;
  requires_confirmation : bool;
  existing_count : option Z;
  feedback : list feedback_line;
  overtime_warnings : list overtime_warning
}.

Definition in_department_range (department_id : Z) (start_date end_date : date)
    (s : Schedule.t) : bool :=
  (Schedule.department_id s =? department_id)
  && (start_date <=? Schedule.date s)
  && (Schedule.date s <=? end_date).

(** Rows the regeneration deletes. *)
Definition regenerated (department_id : Z) (start_date end_date : date)
    (s : Schedule.t) : bool :=
  in_department_range department_id start_date end_date s
  && in_ (Schedule.status s) ["scheduled"; "comp_off_taken"]%string.

Definition references (ids : list Z) (schedule_id : option Z) : bool :=
  match schedule_id with
  | Some i => existsb (Z.eqb i) ids
  | None => false
  end.

(** [update(CheckInOut).where(schedule_id.in_(ids)).values(schedule_id=None)]
    on one row. *)
Definition detach_check_in (ids : list Z) (c : CheckInOut.t) : CheckInOut.t :=
  if references ids (CheckInOut.schedule_id c)
  then {| CheckInOut.id := CheckInOut.id c;
          CheckInOut.employee_id := CheckInOut.employee_id c;
          CheckInOut.schedule_id := None;
          CheckInOut.date := CheckInOut.date c;
          CheckInOut.check_in_time := CheckInOut.check_in_time c;
          CheckInOut.check_out_time := CheckInOut.check_out_time c;
          CheckInOut.check_in_status := CheckInOut.check_in_status c;
          CheckInOut.notes := CheckInOut.notes c |}
  else c.

(** The same update on one CompOffRequest row. *)
Definition detach_comp_off_request (ids : list Z) (c : CompOffRequest.t)
  : CompOffRequest.t :=
  if references ids (CompOffRequest.schedule_id c)
  then {| CompOffRequest.id := CompOffRequest.id c;
          CompOffRequest.employee_id := CompOffRequest.employee_id c;
          CompOffRequest.comp_off_date := CompOffRequest.comp_off_date c;
          CompOffRequest.reason := CompOffRequest.reason c;
          CompOffRequest.status := CompOffRequest.status c;
          CompOffRequest.manager_id := CompOffRequest.manager_id c;
          CompOffRequest.reviewed_at := CompOffRequest.reviewed_at c;
          CompOffRequest.review_notes := CompOffRequest.review_notes c;
          CompOffRequest.schedule_id := None |}
  else c.

(** The deletes and updates issued when [regenerate] is true, up to their
    commit: attendance rows of the doomed schedules go first, references
    from check-ins and comp-off requests are nulled, then the schedules
    are deleted. *)
Definition clear_generated (db : Database) (department_id : Z)
    (start_date end_date : date) : Database :=
  let schedules_to_delete_ids :=
    map Schedule.id
      (filter (regenerated department_id start_date end_date) (schedules db)) in
  {| managers := managers db; employees := employees db; roles := roles db;
     shifts := shifts db;
     schedules :=
       filter (fun s => negb (regenerated department_id start_date end_date s))
         (schedules db);
     leave_requests := leave_requests db;
     check_ins := map (detach_check_in schedules_to_delete_ids) (check_ins db);
     attendance :=
       filter (fun a => negb (references schedules_to_delete_ids
                                (Attendance.schedule_id a))) (attendance db);
     overtime_tracking := overtime_tracking db;
     overtime_requests := overtime_requests db;
     comp_off_requests :=
       map (detach_comp_off_request schedules_to_delete_ids)
         (comp_off_requests db);
     comp_off_tracking := comp_off_tracking db;
     comp_off_details := comp_off_details db;
     schedules_id_seq := schedules_id_seq db;
     attendance_id_seq := attendance_id_seq db;
     overtime_tracking_id_seq := overtime_tracking_id_seq db;
     comp_off_tracking_id_seq := comp_off_tracking_id_seq db;
     comp_off_details_id_seq := comp_off_details_id_seq db |}.

Definition set_shifts (db : Database) (rows : list Shift.t) : Database :=
  {| managers := managers db; employees := employees db; roles := roles db;
     shifts := rows; schedules := schedules db;
     leave_requests := leave_requests db; check_ins := check_ins db;
     attendance := attendance db; overtime_tracking := overtime_tracking db;
     overtime_requests := overtime_requests db;
     comp_off_requests := comp_off_requests db;
     comp_off_tracking := comp_off_tracking db;
     comp_off_details := comp_off_details db;
     schedules_id_seq := schedules_id_seq db;
     attendance_id_seq := attendance_id_seq db;
     overtime_tracking_id_seq := overtime_tracking_id_seq db;
     comp_off_tracking_id_seq := comp_off_tracking_id_seq db;
     comp_off_details_id_seq := comp_off_details_id_seq db |}.

Definition empty_response (lines : list feedback_line) : generate_response :=
  {| success := true; schedules_created := 0; requires_confirmation := false;
     existing_count := None; feedback := lines; overtime_warnings := [] |}.

(** Everything after the regeneration commit, on the database [db]
    committed so far. *)
Definition generate_body (jp_calendar : JapaneseCalendar) (db : Database)
    (department_id : Z) (start_date end_date : date)
  : result (generate_response * Database) :=
  let active_roles :=
    filter (fun r => (Role.department_id r =? department_id)
                     && Role.is_active r) (roles db) in
  match active_roles with
  | [] => Ok (empty_response [NoActiveRoles], db)
  | _ =>
  let role_ids := map Role.id active_roles in
  let is_selected (s : Shift.t) :=
    existsb (Z.eqb (Shift.role_id s)) role_ids && Shift.is_active s in
  let selected_shifts :=
    map ensure_schedule_config (filter is_selected (shifts db)) in
  (* a whole-attribute assignment is written back by the final commit; an
     item assignment inside the JSON value is not tracked *)
  let pending :=
    set_shifts db
      (map (fun s =>
              if is_selected s then
                match Shift.schedule_config s with
                | None | Some [] => ensure_schedule_config s
                | Some _ => s
                end
              else s) (shifts db)) in
  match selected_shifts with
  | [] => Ok (empty_response [NoActiveShifts], db)
  | _ =>
  let active_employees :=
    filter (fun e => (Employee.department_id e =? department_id)
                     && Employee.is_active e) (employees db) in
  match active_employees with
  | [] => Ok (empty_response [NoActiveEmployees], db)
  | _ =>
  g <- foldM (assign_day jp_calendar department_id active_roles
                selected_shifts active_employees)
         {| g_db := pending; g_schedules_created := 0; g_feedback := [];
            g_overtime_warnings := [] |}
         (dates_between start_date end_date) ;;
  let lines := Generated (g_schedules_created g) :: g_feedback g in
  let lines :=
    match g_overtime_warnings g with
    | [] => lines
    | ws => lines ++ [OvertimeAlerts (Z.of_nat (List.length ws))]
    end in
  Ok ({| success := true; schedules_created := g_schedules_created g;
         requires_confirmation := false; existing_count := None;
         feedback := lines;
         overtime_warnings := g_overtime_warnings g |},
      g_db g)
  end end end.

Definition generate_schedules (jp_calendar : JapaneseCalendar) (db : Database)
    (start_date end_date : date) (regenerate : bool) (current_user : User.t)
  : result generate_response * Database :=
  match get_manager_department db current_user with
  | Raise _ => (Raise (HTTPException 500 "Schedule generation error"), db)
  | Ok department_id =>
  match truthy_id department_id with
  | None => (Raise (HTTPException 400 "Manager department not found"), db)
  | Some department_id =>
  let existing_schedules :=
    filter (in_department_range department_id start_date end_date)
      (schedules db) in
  match existing_schedules, regenerate with
  | _ :: _, false =>
      let n := Z.of_nat (List.length existing_schedules) in
      (Ok {| success := false; schedules_created := 0;
             requires_confirmation := true; existing_count := Some n;
             feedback := [FoundExisting n; AskRegenerate];
             overtime_warnings := [] |},
       db)
  | _, _ =>
      let db :=
        match existing_schedules with
        | _ :: _ => clear_generated db department_id start_date end_date
        | [] => db
        end in
      match generate_body jp_calendar db department_id start_date end_date with
      | Ok (response, db') => (Ok response, db')
      | Raise (HTTPException c d) => (Raise (HTTPException c d), db)
      | Raise _ => (Raise (HTTPException 500 "Schedule generation error"), db)
      end
  end end end.

(** ** A small department, used to run the handlers

    Department 1 with manager user 10, employee 7 (user 70) in role 3 with
    a 60 minute break, and one shift 09:00-18:00.  Monday 2025-11-03 is
    ordinal 739558. *)

Module Example.

Definition no_holidays : JapaneseCalendar := {| holidays_jp := fun _ => None |}.

Definition monday : date := 739558.

Definition manager_user : User.t := {| User.id := 10; User.user_type := MANAGER |}.
Definition employee_user : User.t := {| User.id := 70; User.user_type := EMPLOYEE |}.

Definition manager : Manager.t :=
  {| Manager.id := 1; Manager.user_id := 10; Manager.department_id := 1 |}.

Definition employee : Employee.t :=
  {| Employee.id := 7; Employee.first_name := "Aiko";
     Employee.last_name := "Sato"; Employee.department_id := 1;
     Employee.role_id := Some 3; Employee.user_id := Some 70;
     Employee.weekly_hours := 40 # 1; Employee.daily_max_hours := 8 # 1;
     Employee.is_active := true |}.

Definition role : Role.t :=
  {| Role.id := 3; Role.department_id := 1; Role.break_minutes := Some 60;
     Role.is_active := true |}.

Definition shift : Shift.t :=
  {| Shift.id := 5; Shift.role_id := 3; Shift.name := "Day";
     Shift.start_time := "09:00"; Shift.end_time := "18:00";
     Shift.min_emp := 1; Shift.max_emp := 2;
     Shift.schedule_config := None; Shift.is_active := true |}.

Definition row (id : Z) (d : date) (status : string) : Schedule.t :=
  {| Schedule.id := id; Schedule.department_id := 1;
     Schedule.employee_id := 7; Schedule.role_id := 3;
     Schedule.shift_id := Some 5; Schedule.date := d;
     Schedule.start_time := Some "09:00"%string;
     Schedule.end_time := Some "18:00"%string;
     Schedule.status := status; Schedule.notes := None |}.

Definition empty_db : Database :=
  {| managers := [manager]; employees := [employee]; roles := [role];
     shifts := [shift]; schedules := []; leave_requests := [];
     check_ins := []; attendance := []; overtime_tracking := [];
     overtime_requests := []; comp_off_requests := [];
     comp_off_tracking := []; comp_off_details := [];
     schedules_id_seq := 100; attendance_id_seq := 1;
     overtime_tracking_id_seq := 1; comp_off_tracking_id_seq := 1;
     comp_off_details_id_seq := 1 |}.

Definition with_schedules (rows : list Schedule.t) : Database :=
  set_schedules empty_db rows.

(** 2025-11-03, Culture Day, is the Monday of the example week. *)
Definition culture_day_week : JapaneseCalendar :=
  {| holidays_jp :=
       fun d => if d =? monday then Some "Culture Day"%string else None |}.

(** A pending comp-off request of employee 7 for [d]. *)
Definition comp_off_request (d : date) : CompOffRequest.t :=
  {| CompOffRequest.id := 1; CompOffRequest.employee_id := 7;
     CompOffRequest.comp_off_date := d; CompOffRequest.reason := None;
     CompOffRequest.status := PENDING; CompOffRequest.manager_id := None;
     CompOffRequest.reviewed_at := None; CompOffRequest.review_notes := None;
     CompOffRequest.schedule_id := None |}.


(** Noon of the Monday, as a timestamp. *)
Definition monday_noon : datetime := combine monday 12 0.

Definition nine_to_five (d : date) : ScheduleCreate.t :=
  {| ScheduleCreate.employee_id := 7; ScheduleCreate.role_id := 3;
     ScheduleCreate.shift_id := None; ScheduleCreate.date := d;
     ScheduleCreate.start_time := "09:00"; ScheduleCreate.end_time := "17:00";
     ScheduleCreate.notes := None |}.

(** Monday to Thursday of the example week are worked. *)
Definition four_days : list Schedule.t :=
  [row 11 monday "scheduled"; row 12 (monday + 1) "scheduled";
   row 13 (monday + 2) "scheduled"; row 14 (monday + 3) "scheduled"].

(** Employee 7 asks to use comp-off on the Tuesday and the Wednesday;
    the week already holds a shift on Monday and on Tuesday and a leave on
    Wednesday. *)
Definition comp_off_leave : LeaveRequest.t :=
  {| LeaveRequest.id := 1; LeaveRequest.employee_id := 7;
     LeaveRequest.start_date := monday + 1;
     LeaveRequest.end_date := monday + 2;
     LeaveRequest.leave_type := "comp_off";
     LeaveRequest.duration_type := Some "full_day"%string;
     LeaveRequest.reason := None; LeaveRequest.status := PENDING;
     LeaveRequest.manager_id := None; LeaveRequest.reviewed_at := None;
     LeaveRequest.review_notes := None |}.

Definition before_comp_off_leave : Database :=
  set_leave_requests
    (with_schedules [row 11 monday "scheduled"; row 12 (monday + 1) "scheduled";
                     row 13 (monday + 2) "leave"])
    [comp_off_leave].

(** Employee 7 checked in at 09:00 on the Monday for shift row 11
    (09:00-18:00); overtime from 18:00 to 20:00 is approved for
    [request_hours] hours. *)
Definition overtime_request (request_hours : Q) : OvertimeRequest.t :=
  {| OvertimeRequest.id := 1; OvertimeRequest.employee_id := 7;
     OvertimeRequest.request_date := monday;
     OvertimeRequest.from_time := Some "18:00"%string;
     OvertimeRequest.to_time := Some "20:00"%string;
     OvertimeRequest.request_hours := request_hours;
     OvertimeRequest.status := APPROVED |}.

Definition open_check_in : CheckInOut.t :=
  {| CheckInOut.id := 1; CheckInOut.employee_id := 7;
     CheckInOut.schedule_id := Some 11; CheckInOut.date := monday;
     CheckInOut.check_in_time := Some (combine monday 9 0);
     CheckInOut.check_out_time := None;
     CheckInOut.check_in_status := Some "onTime"%string;
     CheckInOut.notes := None |}.

Definition checked_in (request_hours : Q) : Database :=
  {| managers := [manager]; employees := [employee]; roles := [role];
     shifts := [shift]; schedules := [row 11 monday "scheduled"];
     leave_requests := []; check_ins := [open_check_in]; attendance := [];
     overtime_tracking := [];
     overtime_requests := [overtime_request request_hours];
     comp_off_requests := []; comp_off_tracking := [];
     comp_off_details := [];
     schedules_id_seq := 100; attendance_id_seq := 1;
     overtime_tracking_id_seq := 1; comp_off_tracking_id_seq := 1;
     comp_off_details_id_seq := 1 |}.


End Example.

(** * Properties *)

(** ** Weekdays *)

Lemma weekday_range (d : date) : 0 <= weekday d < 7.
Proof. unfold weekday. apply Z.mod_pos_bound. lia. Qed.

Lemma weekday_after_monday (week_start k : Z) :
  weekday week_start = 0 -> 0 <= k < 7 -> weekday (week_start + k) = k.
Proof.
  unfold weekday. intros Hmon Hk.
  replace (week_start + k + 6) with (k + (week_start + 6)) by lia.
  rewrite Z.add_mod by lia. rewrite Hmon, Z.add_0_r, Z.mod_mod by lia.
  apply Z.mod_small. lia.
Qed.

Lemma weekday_week_start (d : date) : weekday (d - weekday d) = 0.
Proof.
  unfold weekday.
  replace (d - (d + 6) mod 7 + 6) with ((d + 6) - (d + 6) mod 7) by lia.
  rewrite Zminus_mod, Z.mod_mod, Z.sub_diag by lia. reflexivity.
Qed.

(** PostgreSQL's day-of-week numbers 1 to 5 are Python's weekdays 0 to 4. *)
Lemma pg_dow_weekday (d : date) :
  existsb (Z.eqb (pg_dow d)) [1; 2; 3; 4; 5] = (weekday d <? 5).
Proof.
  unfold pg_dow, weekday.
  rewrite <- (Zplus_mod_idemp_l d 6 7).
  pose proof (Z.mod_pos_bound d 7 ltac:(lia)) as Hb.
  assert (Hc : d mod 7 = 0 \/ d mod 7 = 1 \/ d mod 7 = 2 \/ d mod 7 = 3
               \/ d mod 7 = 4 \/ d mod 7 = 5 \/ d mod 7 = 6) by lia.
  destruct Hc as [H | [H | [H | [H | [H | [H | H]]]]]]; rewrite H; reflexivity.
Qed.

(** Day-of-week numbers 6 and 0 are Saturday and Sunday. *)
Lemma pg_dow_weekend (d : date) :
  existsb (Z.eqb (pg_dow d)) [6; 0] = (5 <=? weekday d).
Proof.
  unfold pg_dow, weekday.
  rewrite <- (Zplus_mod_idemp_l d 6 7).
  pose proof (Z.mod_pos_bound d 7 ltac:(lia)) as Hb.
  assert (Hc : d mod 7 = 0 \/ d mod 7 = 1 \/ d mod 7 = 2 \/ d mod 7 = 3
               \/ d mod 7 = 4 \/ d mod 7 = 5 \/ d mod 7 = 6) by lia.
  destruct Hc as [H | [H | [H | [H | [H | [H | H]]]]]]; rewrite H; reflexivity.
Qed.

Lemma dates_between_week (week_start : date) :
  dates_between week_start (week_start + 6) =
  [week_start + 0; week_start + 1; week_start + 2; week_start + 3;
   week_start + 4; week_start + 5; week_start + 6].
Proof.
  unfold dates_between.
  replace (week_start + 6 - week_start + 1) with 7 by lia. reflexivity.
Qed.

(** ** The weekly quota *)

Section WeeklyQuota.

Variable jp_calendar : JapaneseCalendar.

(** The Monday-to-Friday public holidays of the week that starts on
    [week_start]. *)
Definition weekday_holidays (week_start : date) : Z :=
  count_rows (is_holiday jp_calendar)
    [week_start; week_start + 1; week_start + 2; week_start + 3;
     week_start + 4].

(** C8. For every Monday [week_start], the number of shifts required in
    that week is [max(4, 5 - h)], where [h] counts the public holidays
    that fall on the Monday to Friday of the week. *)
Theorem required_shifts_for_week_is_max_4_5_minus_h (week_start : date) :
  weekday week_start = 0 ->
  get_shifts_required_for_week jp_calendar week_start =
  Z.max 4 (5 - weekday_holidays week_start).
Proof.
  intros Hmon.
  unfold get_shifts_required_for_week, weekday_holidays, count_rows.
  rewrite dates_between_week. cbn [fold_left filter].
  rewrite !(weekday_after_monday week_start) by (assumption || lia).
  rewrite Z.add_0_r.
  cbn [Z.ltb Z.compare andb Pos.compare Pos.compare_cont].
  destruct (is_holiday jp_calendar week_start),
           (is_holiday jp_calendar (week_start + 1)),
           (is_holiday jp_calendar (week_start + 2)),
           (is_holiday jp_calendar (week_start + 3)),
           (is_holiday jp_calendar (week_start + 4)); reflexivity.
Qed.

(** The quota as the specification words it. *)
Definition monday_of (d : date) : date := d - weekday d.

Definition in_week_of (target d : date) : bool :=
  (monday_of target <=? d) && (d <=? monday_of target + 6).

Definition is_excluded (exclude_schedule_id : option Z) (s : Schedule.t)
  : bool :=
  match exclude_schedule_id with
  | Some i => Schedule.id s =? i
  | None => false
  end.

Definition weekday_coverage (rows : list Schedule.t) (employee_id : Z)
    (target : date) (exclude_schedule_id : option Z) : Z :=
  count_rows
    (fun s =>
       (Schedule.employee_id s =? employee_id)
       && in_week_of target (Schedule.date s)
       && (weekday (Schedule.date s) <? 5)
       && in_ (Schedule.status s)
            ["scheduled"; "leave"; "comp_off_taken"; "comp_off_earned";
             "leave_half_morning"; "leave_half_afternoon"]%string
       && negb (is_excluded exclude_schedule_id s))
    rows.

Definition weekend_regular_shifts (rows : list Schedule.t) (employee_id : Z)
    (target : date) (exclude_schedule_id : option Z) : Z :=
  count_rows
    (fun s =>
       (Schedule.employee_id s =? employee_id)
       && in_week_of target (Schedule.date s)
       && (5 <=? weekday (Schedule.date s))
       && in_ (Schedule.status s)
            ["scheduled"; "leave"; "leave_half_morning";
             "leave_half_afternoon"]%string
       && negb (is_excluded exclude_schedule_id s))
    rows.

Definition quota_rejects (rows : list Schedule.t) (employee_id : Z)
    (target : date) (exclude_schedule_id : option Z) : bool :=
  let required :=
    get_shifts_required_for_week jp_calendar (monday_of target) in
  let coverage :=
    weekday_coverage rows employee_id target exclude_schedule_id in
  let weekend :=
    weekend_regular_shifts rows employee_id target exclude_schedule_id in
  if is_weekend target
  then (required <=? coverage) || (required <=? coverage + weekend)
  else required <=? coverage.

Lemma not_excluded_spec (exclude_schedule_id : option Z) (s : Schedule.t) :
  Schedule.id s <> 0 ->
  not_excluded exclude_schedule_id s = negb (is_excluded exclude_schedule_id s).
Proof.
  intros Hid. unfold not_excluded, is_excluded, truthy_id.
  destruct exclude_schedule_id as [i |]; [| reflexivity].
  destruct (Z.eqb_spec i 0) as [-> | _]; [| reflexivity].
  destruct (Z.eqb_spec (Schedule.id s) 0); [contradiction | reflexivity].
Qed.

Lemma count_rows_ext {A : Type} (p q : A -> bool) (rows : list A) :
  (forall r, In r rows -> p r = q r) -> count_rows p rows = count_rows q rows.
Proof.
  intros H. unfold count_rows. now rewrite (filter_ext_in p q rows H).
Qed.

(** C3. The weekly-shift-quota validator takes the requirement of the
    target's Monday-to-Sunday week, counts the employee's Monday-to-Friday
    rows with a coverage status and the Saturday/Sunday rows with a
    regular status, leaves the row named by [exclude_schedule_id] out of
    both counts, and rejects exactly when a weekend target meets
    coverage >= required or coverage + weekend >= required, or a weekday
    target meets coverage >= required.  Schedule ids are serial keys,
    never 0. *)
Theorem weekly_quota_validator_decision (db : Database) (employee_id : Z)
    (target_date : date) (exclude_schedule_id : option Z) :
  (forall s, In s (schedules db) -> Schedule.id s <> 0) ->
  fst (validate_5_shifts_per_week jp_calendar db employee_id target_date
         exclude_schedule_id) =
  negb (quota_rejects (schedules db) employee_id target_date
          exclude_schedule_id).
Proof.
  intros Hids.
  unfold validate_5_shifts_per_week, quota_rejects, is_weekend,
    weekday_coverage, weekend_regular_shifts, monday_of.
  set (cov_code := count_rows _ (schedules db)).
  set (wend_code := count_rows _ (schedules db)).
  set (cov := count_rows _ (schedules db)).
  set (wend := count_rows _ (schedules db)).
  assert (Hcov : cov_code = cov).
  { apply count_rows_ext. intros s Hs. unfold in_week_of, monday_of.
    rewrite pg_dow_weekday, (not_excluded_spec _ _ (Hids s Hs)).
    unfold weekday_coverage_statuses.
    destruct (Schedule.employee_id s =? employee_id),
             (target_date - weekday target_date <=? Schedule.date s),
             (Schedule.date s <=? target_date - weekday target_date + 6),
             (weekday (Schedule.date s) <? 5),
             (in_ (Schedule.status s) _); reflexivity. }
  assert (Hwend : wend_code = wend).
  { apply count_rows_ext. intros s Hs. unfold in_week_of, monday_of.
    rewrite pg_dow_weekend, (not_excluded_spec _ _ (Hids s Hs)).
    unfold weekend_regular_statuses.
    destruct (Schedule.employee_id s =? employee_id),
             (target_date - weekday target_date <=? Schedule.date s),
             (Schedule.date s <=? target_date - weekday target_date + 6),
             (5 <=? weekday (Schedule.date s)),
             (in_ (Schedule.status s) _); reflexivity. }
  rewrite Hcov, Hwend.
  destruct (5 <=? weekday target_date);
    destruct (get_shifts_required_for_week jp_calendar
                (target_date - weekday target_date) <=? cov); cbn;
    try reflexivity.
  destruct (get_shifts_required_for_week jp_calendar
              (target_date - weekday target_date) <=? cov + wend);
    reflexivity.
Qed.

End WeeklyQuota.

Lemma required_shifts_for_week_witness :
  weekday Example.monday = 0
  /\ get_shifts_required_for_week Example.culture_day_week Example.monday = 4.
Proof.
  split; [reflexivity |].
  rewrite (required_shifts_for_week_is_max_4_5_minus_h
             Example.culture_day_week Example.monday); reflexivity.
Defined.

Lemma weekly_quota_validator_witness :
  let db :=
    Example.with_schedules
      [Example.row 11 (Example.monday + 1) "scheduled";
       Example.row 12 (Example.monday + 2) "leave";
       Example.row 13 (Example.monday + 3) "comp_off_taken";
       Example.row 14 (Example.monday + 4) "scheduled"] in
  fst (validate_5_shifts_per_week Example.culture_day_week db 7
         (Example.monday + 5) None) = false
  /\ fst (validate_5_shifts_per_week Example.culture_day_week db 7
            (Example.monday + 5) (Some 12)) = true.
Proof.
  cbv zeta.
  assert (Hids : forall s,
             In s (schedules
                     (Example.with_schedules
                        [Example.row 11 (Example.monday + 1) "scheduled";
                         Example.row 12 (Example.monday + 2) "leave";
                         Example.row 13 (Example.monday + 3) "comp_off_taken";
                         Example.row 14 (Example.monday + 4) "scheduled"])) ->
             Schedule.id s <> 0).
  { intros s [<- | [<- | [<- | [<- | []]]]]; discriminate. }
  split.
  - rewrite (weekly_quota_validator_decision Example.culture_day_week _ 7
               (Example.monday + 5) None Hids). reflexivity.
  - rewrite (weekly_quota_validator_decision Example.culture_day_week _ 7
               (Example.monday + 5) (Some 12) Hids). reflexivity.
Defined.

(** ** The generator's pre-check *)

(** C9. With [regenerate] false and at least one Schedule row of the
    manager's department in [start_date, end_date], generation answers with
    [requires_confirmation] set and [existing_count] the number of those
    rows, and the database, every table of it, stays as it was. *)
Theorem generate_without_regenerate_requires_confirmation
    (jp_calendar : JapaneseCalendar) (db : Database)
    (start_date end_date : date) (current_user : User.t) (department_id : Z) :
  get_manager_department db current_user = Ok (Some department_id) ->
  department_id <> 0 ->
  filter (in_department_range department_id start_date end_date)
    (schedules db) <> [] ->
  exists response,
    generate_schedules jp_calendar db start_date end_date false current_user
    = (Ok response, db)
    /\ requires_confirmation response = true
    /\ existing_count response =
       Some (count_rows (in_department_range department_id start_date end_date)
               (schedules db))
    /\ success response = false
    /\ schedules_created response = 0.
Proof.
  intros Hdept Hnz Hrows.
  unfold generate_schedules. rewrite Hdept. unfold truthy_id.
  destruct (Z.eqb_spec department_id 0) as [? | _]; [contradiction |].
  unfold count_rows.
  destruct (filter (in_department_range department_id start_date end_date)
              (schedules db)) as [| s rest]; [contradiction |].
  eexists. repeat split.
Qed.

Lemma generate_without_regenerate_witness :
  exists response,
    generate_schedules Example.no_holidays
      (Example.with_schedules
         [Example.row 11 Example.monday "scheduled";
          Example.row 12 (Example.monday + 1) "leave"])
      Example.monday (Example.monday + 6) false Example.manager_user
    = (Ok response,
       Example.with_schedules
         [Example.row 11 Example.monday "scheduled";
          Example.row 12 (Example.monday + 1) "leave"])
    /\ requires_confirmation response = true
    /\ existing_count response = Some 2.
Proof.
  destruct (generate_without_regenerate_requires_confirmation
              Example.no_holidays
              (Example.with_schedules
                 [Example.row 11 Example.monday "scheduled";
                  Example.row 12 (Example.monday + 1) "leave"])
              Example.monday (Example.monday + 6) Example.manager_user 1
              eq_refl ltac:(discriminate) ltac:(discriminate))
    as [response [Hrun [Hconf [Hcount _]]]].
  exists response. repeat split; assumption.
Defined.

(** ** Manual schedule creation *)

(** Under the namespace of main.py the handler never answers: whatever
    passes the look-ups and both validators stops at the weekly-hours
    query, which reads [week_start] before anything assigns it. *)
Lemma create_schedule_never_returns (jp_calendar : JapaneseCalendar)
    (db : Database) (schedule_data : ScheduleCreate.t) (current_user : User.t)
    (response : create_schedule_response) (db' : Database) :
  create_schedule main_globals jp_calendar db schedule_data current_user
  <> (Ok response, db').
Proof.
  unfold create_schedule, transaction, create_schedule_body.
  destruct (scalar_one_or_none _) as [[employee |] | e]; cbn [bind];
    try discriminate.
  destruct (if UserType_eqb (User.user_type current_user) MANAGER
            then _ else _) as [[] | e]; cbn [bind]; try discriminate.
  destruct (validate_5_shifts_per_week _ _ _ _ _) as [[|] ?];
    try discriminate.
  destruct (validate_consecutive_shifts_limit _ _ _ _ _) as [[|] ?];
    try discriminate.
  destruct (if Qlt_bool (8 # 1) _ then _ else _) as [[? ?] ?].
  destruct (if Qlt_bool (8 # 1) _ then _ else _) as [[? ?] ?].
  cbn. discriminate.
Qed.

(** C6. A nine-to-five shift on a free Monday for an employee with no
    other row passes both validators and needs no overtime, yet the handler
    raises [NameError] for [week_start]: no row is created and no
    overtime payload is returned. *)
Theorem create_schedule_raises_name_error :
  fst (validate_5_shifts_per_week Example.no_holidays Example.empty_db 7
         Example.monday None) = true
  /\ fst (validate_consecutive_shifts_limit Example.empty_db 7 Example.monday
            None 5) = true
  /\ create_schedule main_globals Example.no_holidays Example.empty_db
       (Example.nine_to_five Example.monday) Example.manager_user
     = (Raise (NameError "week_start"), Example.empty_db).
Proof. repeat split. Qed.

(** ** Comp-off approval *)

Lemma scalar_one_or_none_In {A : Type} (rows : list A) (r : A) :
  scalar_one_or_none rows = Ok (Some r) -> rows = [r].
Proof.
  destruct rows as [| a [| b rest]]; cbn; intros H; try discriminate.
  now inversion H.
Qed.

Lemma update_row_In {A : Type} (key : A -> Z) (old new : A) (rows : list A) :
  In old rows -> key old = key new -> In new (update_row key new rows).
Proof.
  intros Hin Hkey. unfold update_row. apply in_map_iff.
  exists old. split; [| assumption]. rewrite Hkey, Z.eqb_refl. reflexivity.
Qed.






(** ** Overtime at check-out *)








(** ** Regeneration *)











Lemma regenerated_none (department_id : Z) (start_date end_date : date)
    (rows : list Schedule.t) :
  filter (in_department_range department_id start_date end_date) rows = [] ->
  forall s, In s rows -> regenerated department_id start_date end_date s = false.
Proof.
  intros Hnone s Hs. unfold regenerated.
  destruct (in_department_range department_id start_date end_date s) eqn:Hr;
    [| reflexivity].
  assert (Hin : In s (filter (in_department_range department_id start_date
                                end_date) rows))
    by (apply filter_In; now split).
  rewrite Hnone in Hin. contradiction.
Qed.

Lemma filter_all {A : Type} (p : A -> bool) (l : list A) :
  (forall x, In x l -> p x = true) -> filter p l = l.
Proof.
  induction l as [| a rest IH]; cbn; intros H; [reflexivity |].
  rewrite (H a (or_introl eq_refl)). f_equal. apply IH. intros x Hx.
  apply H. now right.
Qed.







(** ** Using comp-off through a leave request *)

Lemma delete_schedule_rows (db db' : Database) (sched : Schedule.t) :
  delete_schedule db sched = Ok db' ->
  schedules db' =
  filter (fun s => negb (Schedule.id s =? Schedule.id sched)) (schedules db)
  /\ schedules_id_seq db' = schedules_id_seq db.
Proof.
  unfold delete_schedule.
  destruct (existsb _ (comp_off_requests db)); [discriminate |].
  intros H. injection H as <-. split; reflexivity.
Qed.

Lemma filter_filter {A : Type} (p q : A -> bool) (l : list A) :
  filter p (filter q l) = filter (fun x => q x && p x) l.
Proof.
  induction l as [| a rest IH]; cbn; [reflexivity |].
  destruct (q a); cbn; [destruct (p a) |]; now rewrite IH.
Qed.

Lemma delete_all_rows (doomed : list Schedule.t) :
  forall db db',
    foldM delete_schedule db doomed = Ok db' ->
    schedules db' =
    filter (fun s => negb (existsb (Z.eqb (Schedule.id s))
                             (map Schedule.id doomed))) (schedules db)
    /\ schedules_id_seq db' = schedules_id_seq db.
Proof.
  induction doomed as [| d rest IH]; cbn [foldM]; intros db db' H.
  - injection H as <-. split; [| reflexivity].
    symmetry. apply filter_all. reflexivity.
  - destruct (delete_schedule db d) as [db1 |] eqn:Hdel; cbn [bind] in H;
      [| discriminate].
    apply delete_schedule_rows in Hdel. destruct Hdel as [Hrows Hseq].
    apply IH in H. destruct H as [Hrows' Hseq'].
    split; [| congruence].
    rewrite Hrows', Hrows, filter_filter. apply filter_ext. intros s. cbn.
    rewrite negb_orb. reflexivity.
Qed.

Lemma NoDup_map_injective {A : Type} (f : A -> Z) (l : list A) (a b : A) :
  NoDup (map f l) -> In a l -> In b l -> f a = f b -> a = b.
Proof.
  induction l as [| x rest IH]; cbn; intros Hnd Ha Hb Hf; [contradiction |].
  inversion Hnd as [| ? ? Hnotin Hnd']; subst.
  destruct Ha as [-> | Ha], Hb as [-> | Hb]; try reflexivity.
  - exfalso. apply Hnotin. rewrite Hf. now apply in_map.
  - exfalso. apply Hnotin. rewrite <- Hf. now apply in_map.
  - now apply IH.
Qed.

(** With unique ids, deleting by id the rows selected by [p] leaves the
    rows that [p] rejects. *)
Lemma delete_selected (p : Schedule.t -> bool) (rows : list Schedule.t) :
  NoDup (map Schedule.id rows) ->
  filter (fun s => negb (existsb (Z.eqb (Schedule.id s))
                           (map Schedule.id (filter p rows)))) rows
  = filter (fun s => negb (p s)) rows.
Proof.
  intros Hnd. apply filter_ext_in. intros s Hs. f_equal.
  destruct (p s) eqn:Hp.
  - apply existsb_exists. exists (Schedule.id s). split; [| apply Z.eqb_refl].
    apply in_map. apply filter_In. now split.
  - destruct (existsb _ _) eqn:Hex; [| reflexivity].
    apply existsb_exists in Hex. destruct Hex as [i [Hi Heq]].
    apply Z.eqb_eq in Heq. apply in_map_iff in Hi.
    destruct Hi as [s' [Hid Hs']]. apply filter_In in Hs'.
    destruct Hs' as [Hin' Hp'].
    assert (s = s') by (eapply NoDup_map_injective; eauto; congruence).
    subst. congruence.
Qed.

(** Primary-key discipline of the schedules table. *)
Definition schedule_keys_ok (db : Database) : Prop :=
  NoDup (map Schedule.id (schedules db))
  /\ forall s, In s (schedules db) -> Schedule.id s < schedules_id_seq db.

(** The row a comp-off usage day leaves behind. *)
Definition is_comp_off_usage_row (employee_id : Z) (r : Schedule.t) : Prop :=
  Schedule.employee_id r = employee_id
  /\ Schedule.status r = "comp_off_taken"%string
  /\ Schedule.start_time r = None
  /\ Schedule.end_time r = None.

Lemma use_comp_off_day_rows (employee : Employee.t)
    (leave_request : LeaveRequest.t) (db db' : Database) (n n' : Z)
    (current_date : date) :
  schedule_keys_ok db ->
  use_comp_off_day employee leave_request (db, n) current_date = Ok (db', n') ->
  exists row,
    schedules db' =
    filter (fun s => negb (blocks_comp_off_usage (Employee.id employee)
                             current_date s)) (schedules db) ++ [row]
    /\ Schedule.date row = current_date
    /\ is_comp_off_usage_row (Employee.id employee) row
    /\ schedule_keys_ok db'.
Proof.
  intros [Hnd Hfresh]. unfold use_comp_off_day.
  destruct (foldM delete_schedule db _) as [db1 |] eqn:Hdel; cbn [bind];
    [| discriminate].
  apply delete_all_rows in Hdel. destruct Hdel as [Hrows Hseq].
  rewrite (delete_selected _ _ Hnd) in Hrows.
  unfold add_schedule.
  destruct (Employee.role_id employee) as [rid |]; [| discriminate].
  cbn [bind]. intros H. injection H as <- _.
  eexists. cbn [schedules]. rewrite Hrows.
  split; [reflexivity |]. split; [reflexivity |].
  split; [repeat split |].
  split; cbn [schedules schedules_id_seq].
  - rewrite map_app. cbn. rewrite Hseq.
    assert (Hsub : forall i,
               In i (map Schedule.id
                       (filter (fun s => negb (blocks_comp_off_usage
                                                 (Employee.id employee)
                                                 current_date s))
                          (schedules db))) ->
               i < schedules_id_seq db).
    { intros i Hi. apply in_map_iff in Hi. destruct Hi as [s [<- Hs]].
      apply filter_In in Hs. apply Hfresh, Hs. }
    assert (Hnd' : NoDup (map Schedule.id
                            (filter (fun s => negb (blocks_comp_off_usage
                                                      (Employee.id employee)
                                                      current_date s))
                               (schedules db)))).
    { clear Hsub Hrows. induction (schedules db) as [| a rest IH]; cbn;
        [constructor |].
      cbn in Hnd. inversion Hnd as [| ? ? Hnotin Hnd'']; subst.
      destruct (negb _); cbn; [constructor |]; try (apply IH; auto).
      - intros Hin. apply Hnotin. apply in_map_iff in Hin.
        destruct Hin as [s [Hid Hs]]. apply filter_In in Hs.
        rewrite <- Hid. apply in_map, Hs.
      - intros s Hs. apply Hfresh. now right.
      - intros s Hs. apply Hfresh. now right. }
    apply NoDup_app; [exact Hnd' | repeat constructor; intros [] |].
    intros i Hi [<- | []]. specialize (Hsub _ Hi). lia.
  - intros s Hs. apply in_app_or in Hs. destruct Hs as [Hs | [<- | []]].
    + apply filter_In in Hs. rewrite Hseq.
      pose proof (Hfresh s (proj1 Hs)). lia.
    + cbn. lia.
Qed.

Lemma comp_off_usage_row_not_blocking (employee_id : Z) (d : date)
    (r : Schedule.t) :
  Schedule.status r = "comp_off_taken"%string ->
  blocks_comp_off_usage employee_id d r = false.
Proof.
  intros H. unfold blocks_comp_off_usage. rewrite H. cbn.
  now rewrite andb_false_r.
Qed.

Lemma use_comp_off_days_rows (employee : Employee.t)
    (leave_request : LeaveRequest.t) (days : list date) :
  forall db n db' n',
    schedule_keys_ok db ->
    foldM (use_comp_off_day employee leave_request) (db, n) days
    = Ok (db', n') ->
    exists new_rows,
      schedules db' =
      filter (fun s => negb (existsb
                               (fun d => blocks_comp_off_usage
                                           (Employee.id employee) d s) days))
        (schedules db) ++ new_rows
      /\ map Schedule.date new_rows = days
      /\ Forall (is_comp_off_usage_row (Employee.id employee)) new_rows.
Proof.
  induction days as [| d rest IH]; cbn [foldM]; intros db n db' n' Hok H.
  - injection H as <- _. exists []. cbn. rewrite app_nil_r.
    split; [| split; [reflexivity | constructor]].
    symmetry. apply filter_all. reflexivity.
  - destruct (use_comp_off_day employee leave_request (db, n) d)
      as [[db1 n1] |] eqn:Hstep; cbn [bind] in H; [| discriminate].
    apply use_comp_off_day_rows in Hstep; [| exact Hok].
    destruct Hstep as [row [Hrows [Hdate [Hrow Hok1]]]].
    apply IH in H; [| exact Hok1].
    destruct H as [new_rows [Hrows' [Hdates Hall]]].
    exists (row :: new_rows). split; [| split].
    + rewrite Hrows', Hrows, filter_app, filter_filter. cbn [filter].
      assert (Hkeep : existsb
                        (fun d0 => blocks_comp_off_usage (Employee.id employee)
                                     d0 row) rest = false).
      { destruct (existsb _ rest) eqn:Hex; [| reflexivity].
        apply existsb_exists in Hex. destruct Hex as [d0 [_ Hb]].
        rewrite comp_off_usage_row_not_blocking in Hb by apply Hrow.
        discriminate. }
      rewrite Hkeep. cbn. rewrite <- app_assoc. cbn. f_equal.
      apply filter_ext. intros s. rewrite negb_orb. reflexivity.
    + cbn. now rewrite Hdate, Hdates.
    + constructor; assumption.
Qed.

Lemma existsb_dates_between (a b x : date) :
  existsb (Z.eqb x) (dates_between a b) = (a <=? x) && (x <=? b).
Proof.
  unfold dates_between.
  destruct ((a <=? x) && (x <=? b)) eqn:Hin.
  - apply andb_true_iff in Hin. destruct Hin as [Ha Hb].
    apply Z.leb_le in Ha, Hb. apply existsb_exists. exists x.
    split; [| apply Z.eqb_refl]. apply in_map_iff.
    exists (Z.to_nat (x - a)). split; [lia |]. apply in_seq. lia.
  - destruct (existsb _ _) eqn:Hex; [| reflexivity].
    apply existsb_exists in Hex. destruct Hex as [y [Hy Heq]].
    apply Z.eqb_eq in Heq. subst y. apply in_map_iff in Hy.
    destruct Hy as [k [Hk Hseq]]. apply in_seq in Hseq.
    apply andb_false_iff in Hin.
    destruct Hin as [H | H]; [apply Z.leb_gt in H | apply Z.leb_gt in H]; lia.
Qed.

(** The rows that are removed: the employee's rows on a date of
    the leave whose status is neither [comp_off_taken] nor [cancelled]. *)
Definition removed_by_comp_off_leave (leave_request : LeaveRequest.t)
    (s : Schedule.t) : bool :=
  (Schedule.employee_id s =? LeaveRequest.employee_id leave_request)
  && (LeaveRequest.start_date leave_request <=? Schedule.date s)
  && (Schedule.date s <=? LeaveRequest.end_date leave_request)
  && negb (Schedule.status s =? "comp_off_taken")%string
  && negb (Schedule.status s =? "cancelled")%string.

Lemma blocks_some_day (employee_id a b : Z) (s : Schedule.t) :
  existsb (fun d => blocks_comp_off_usage employee_id d s) (dates_between a b)
  = (Schedule.employee_id s =? employee_id)
    && (a <=? Schedule.date s) && (Schedule.date s <=? b)
    && negb (Schedule.status s =? "comp_off_taken")%string
    && negb (Schedule.status s =? "cancelled")%string.
Proof.
  rewrite <- !andb_assoc. rewrite (andb_assoc (a <=? Schedule.date s)).
  rewrite <- existsb_dates_between. unfold blocks_comp_off_usage.
  induction (dates_between a b) as [| d rest IH]; cbn.
  - now rewrite andb_false_r.
  - rewrite IH.
    destruct (Schedule.employee_id s =? employee_id),
             (Schedule.date s =? d),
             (negb (Schedule.status s =? "comp_off_taken")%string),
             (negb (Schedule.status s =? "cancelled")%string); cbn;
      rewrite ?andb_false_r; reflexivity.
Qed.

Lemma add_comp_off_details_keep_schedules (employee_id tracking_id : Z)
    (days : list date) :
  forall db,
    schedules
      (fold_left
         (fun db current_date =>
            add_comp_off_detail db employee_id tracking_id "used" current_date
              (strftime_Ym current_date)
              ("Used on " ++ strftime_Ymd current_date)%string)
         days db)
    = schedules db.
Proof.
  induction days as [| d rest IH]; cbn; intros db; [reflexivity |].
  now rewrite IH.
Qed.

(** C10. A successful approval of a leave request of type [comp_off], on a
    schedules table with unique ids below the sequence, leaves the table
    with: the rows it had, minus every row of that employee on a date of
    the request whose status is neither [comp_off_taken] nor [cancelled]
    (so [scheduled], [completed] and [leave] rows are removed), followed by
    one [comp_off_taken] row without times for each date of the request,
    in date order. *)
Theorem approve_comp_off_leave_deletes_existing_rows
    (db : Database) (utcnow : datetime) (leave_id : Z)
    (review_notes : option string) (current_user : User.t)
    (leave_request : LeaveRequest.t) (employee : Employee.t)
    (message : string) (db' : Database) :
  scalar_one_or_none
    (filter (fun l => LeaveRequest.id l =? leave_id) (leave_requests db))
  = Ok (Some leave_request) ->
  LeaveRequest.leave_type leave_request = "comp_off"%string ->
  scalar_one_or_none
    (filter (fun e => Employee.id e =? LeaveRequest.employee_id leave_request)
       (employees db)) = Ok (Some employee) ->
  schedule_keys_ok db ->
  approve_leave db utcnow leave_id review_notes current_user
  = (Ok message, db') ->
  exists new_rows,
    schedules db' =
    filter (fun s => negb (removed_by_comp_off_leave leave_request s))
      (schedules db) ++ new_rows
    /\ map Schedule.date new_rows =
       dates_between (LeaveRequest.start_date leave_request)
         (LeaveRequest.end_date leave_request)
    /\ Forall (is_comp_off_usage_row (LeaveRequest.employee_id leave_request))
         new_rows
    /\ forall s, In s (schedules db) ->
                 Schedule.employee_id s = LeaveRequest.employee_id leave_request ->
                 LeaveRequest.start_date leave_request <= Schedule.date s
                 <= LeaveRequest.end_date leave_request ->
                 In (Schedule.status s) ["scheduled"; "completed"; "leave"]%string ->
                 ~ In s (schedules db').
Proof.
  intros Hreq Htype Hemp Hok Hrun.
  assert (Hid : Employee.id employee = LeaveRequest.employee_id leave_request).
  { apply scalar_one_or_none_In in Hemp.
    assert (Hin : In employee
                    (filter (fun e => Employee.id e
                                      =? LeaveRequest.employee_id leave_request)
                       (employees db))) by (rewrite Hemp; now left).
    apply filter_In in Hin. now apply Z.eqb_eq. }
  assert (Hcore : exists new_rows,
    schedules db' =
    filter (fun s => negb (removed_by_comp_off_leave leave_request s))
      (schedules db) ++ new_rows
    /\ map Schedule.date new_rows =
       dates_between (LeaveRequest.start_date leave_request)
         (LeaveRequest.end_date leave_request)
    /\ Forall (is_comp_off_usage_row (LeaveRequest.employee_id leave_request))
         new_rows).
  { unfold approve_leave, approve_leave_body in Hrun.
    rewrite Hreq in Hrun. cbn [bind] in Hrun.
    destruct (scalar_one_or_none
                (filter (fun m => Manager.user_id m =? User.id current_user)
                   (managers db))) as [[manager |] | e];
      cbn [bind transaction] in Hrun; try discriminate.
    cbn [LeaveRequest.employee_id LeaveRequest.leave_type
         LeaveRequest.start_date LeaveRequest.end_date LeaveRequest.reason
         LeaveRequest.duration_type employees set_leave_requests] in Hrun.
    rewrite Hemp in Hrun. cbn [bind] in Hrun.
    rewrite Htype in Hrun.
    change (in_ "comp_off" ["paid"; "unpaid"]%string) with false in Hrun.
    change ("comp_off" =? "comp_off")%string with true in Hrun.
    cbn [bind] in Hrun.
    destruct (foldM _ tt _) as [[] |]; cbn [bind] in Hrun;
      [| discriminate].
    destruct (foldM (use_comp_off_day employee _) _ _)
      as [[db1 comp_off_days] |] eqn:Hloop; cbn [bind] in Hrun;
      [| discriminate].
    apply use_comp_off_days_rows in Hloop; [| exact Hok].
    destruct Hloop as [new_rows [Hrows [Hdates Hall]]].
    cbn [schedules set_leave_requests] in Hrows.
    exists new_rows. rewrite <- Hid.
    split; [| split; assumption].
    assert (Hfilter :
      filter (fun s => negb (removed_by_comp_off_leave leave_request s))
        (schedules db)
      = filter
          (fun s => negb (existsb
                            (fun d => blocks_comp_off_usage
                                        (Employee.id employee) d s)
                            (dates_between
                               (LeaveRequest.start_date leave_request)
                               (LeaveRequest.end_date leave_request))))
          (schedules db)).
    { apply filter_ext. intros s. rewrite blocks_some_day, Hid. reflexivity. }
    rewrite Hfilter, <- Hrows.
    destruct (scalar_one_or_none
                (filter _ (comp_off_tracking db1))) as [[tracking |] | e];
      cbn [bind] in Hrun; try discriminate;
      injection Hrun as _ <-; [| reflexivity].
    rewrite add_comp_off_details_keep_schedules. reflexivity. }
  destruct Hcore as [new_rows [Hrows [Hdates Hall]]].
  exists new_rows. repeat split; try assumption.
  intros s Hin Hemp_s [Hlo Hhi] Hstatus Hin'.
  rewrite Hrows in Hin'. apply in_app_or in Hin'.
  assert (Hneq : (Schedule.status s =? "comp_off_taken")%string = false
                 /\ (Schedule.status s =? "cancelled")%string = false).
  { cbn in Hstatus.
    destruct Hstatus as [<- | [<- | [<- | []]]]; split; reflexivity. }
  destruct Hneq as [Hn1 Hn2].
  destruct Hin' as [Hold | Hnew].
  - apply filter_In in Hold. destruct Hold as [_ Hkeep].
    unfold removed_by_comp_off_leave in Hkeep.
    rewrite Hemp_s, Z.eqb_refl, Hn1, Hn2 in Hkeep.
    apply Z.leb_le in Hlo, Hhi. rewrite Hlo, Hhi in Hkeep. discriminate.
  - rewrite Forall_forall in Hall. destruct (Hall s Hnew) as [_ [Hst _]].
    rewrite Hst in Hn1. discriminate.
Qed.

Lemma approve_comp_off_leave_witness :
  exists new_rows,
    schedules
      (snd (approve_leave Example.before_comp_off_leave Example.monday_noon 1
              None Example.manager_user))
    = [Example.row 11 Example.monday "scheduled"] ++ new_rows
    /\ map Schedule.date new_rows = [Example.monday + 1; Example.monday + 2].
Proof.
  assert (Hok : schedule_keys_ok Example.before_comp_off_leave).
  { split.
    - cbn. repeat constructor; cbn; intuition discriminate.
    - intros s [<- | [<- | [<- | []]]]; reflexivity. }
  destruct (approve_comp_off_leave_deletes_existing_rows
              Example.before_comp_off_leave Example.monday_noon 1 None
              Example.manager_user Example.comp_off_leave Example.employee
              "Leave approved successfully"
              (snd (approve_leave Example.before_comp_off_leave
                      Example.monday_noon 1 None Example.manager_user))
              eq_refl eq_refl eq_refl Hok eq_refl)
    as [new_rows [Hrows [Hdates _]]].
  exists new_rows. split; [exact Hrows | exact Hdates].
Defined.

(** ** Consecutive days *)

Lemma insert_sorted_In (x d : date) (l : list date) :
  In x (insert_sorted d l) <-> x = d \/ In x l.
Proof.
  induction l as [| a rest IH]; cbn.
  - intuition.
  - destruct (d <=? a); cbn; [intuition | rewrite IH; intuition].
Qed.

Lemma sorted_In (x : date) (l : list date) : In x (sorted l) <-> In x l.
Proof.
  unfold sorted. induction l as [| a rest IH]; cbn; [reflexivity |].
  rewrite insert_sorted_In, IH. intuition.
Qed.

Lemma insert_sorted_ordered (d : date) (l : list date) :
  StronglySorted Z.le l -> StronglySorted Z.le (insert_sorted d l).
Proof.
  induction l as [| a rest IH]; cbn; intros Hs.
  - repeat constructor.
  - apply StronglySorted_inv in Hs. destruct Hs as [Hrest Hall].
    destruct (Z.leb_spec d a).
    + constructor; [now constructor |].
      constructor; [assumption |].
      eapply Forall_impl; [| exact Hall]. cbn. intros; lia.
    + constructor; [now apply IH |].
      apply Forall_forall. intros x Hx. apply insert_sorted_In in Hx.
      destruct Hx as [-> | Hx]; [lia |].
      rewrite Forall_forall in Hall. now apply Hall.
Qed.

Lemma sorted_ordered (l : list date) : StronglySorted Z.le (sorted l).
Proof.
  unfold sorted. induction l as [| a rest IH]; cbn; [constructor |].
  now apply insert_sorted_ordered.
Qed.

Lemma fromkeys_In (x : date) (l : list date) : In x (fromkeys l) <-> In x l.
Proof.
  induction l as [| a rest IH]; cbn; [reflexivity |].
  rewrite filter_In, IH. destruct (Z.eqb_spec x a); cbn; intuition.
Qed.

Lemma filter_strictly_ordered (p : date -> bool) (l : list date) :
  StronglySorted Z.lt l -> StronglySorted Z.lt (filter p l).
Proof.
  induction l as [| a rest IH]; cbn; intros Hs; [constructor |].
  apply StronglySorted_inv in Hs. destruct Hs as [Hrest Hall].
  destruct (p a); [| now apply IH].
  constructor; [now apply IH |].
  apply Forall_forall. intros x Hx. apply filter_In in Hx.
  rewrite Forall_forall in Hall. now apply Hall.
Qed.

(** Dropping repeats from an ordered list leaves a strictly increasing
    one. *)
Lemma fromkeys_strictly_ordered (l : list date) :
  StronglySorted Z.le l -> StronglySorted Z.lt (fromkeys l).
Proof.
  induction l as [| a rest IH]; cbn; intros Hs; [constructor |].
  apply StronglySorted_inv in Hs. destruct Hs as [Hrest Hall].
  constructor; [apply filter_strictly_ordered; now apply IH |].
  apply Forall_forall. intros x Hx. apply filter_In in Hx.
  destruct Hx as [Hx Hne]. apply (proj1 (fromkeys_In x rest)) in Hx.
  rewrite Forall_forall in Hall. specialize (Hall x Hx).
  destruct (Z.eqb_spec x a); [discriminate | lia].
Qed.














(** ** No double shifts in the generator *)

(** The generator adds a row for an employee on a date only when the
    employee has no row at all on that date. *)
Lemma assign_employee_checks_the_day (jp_calendar : JapaneseCalendar)
    (department_id : Z) (current_date : date) (shift : Shift.t)
    (role : option Role.t) (g g' : generation) (assigned_count assigned_count' : Z)
    (stopped' : bool) (emp : Employee.t) :
  assign_employee jp_calendar department_id current_date shift role
    (g, assigned_count, false) emp = Ok (g', assigned_count', stopped') ->
  schedules (g_db g') <> schedules (g_db g) ->
  filter (fun s => (Schedule.employee_id s =? Employee.id emp)
                   && (Schedule.date s =? current_date))
    (schedules (g_db g)) = [].
Proof.
  unfold assign_employee.
  destruct (first (filter (fun s => (Schedule.employee_id s =? Employee.id emp)
                                    && (Schedule.date s =? current_date))
                     (schedules (g_db g)))) as [today |] eqn:Htoday.
  - repeat
      match goal with
      | |- (match ?x with _ => _ end) = _ -> _ => destruct x eqn:?
      | |- (if ?x then _ else _) = _ -> _ => destruct x eqn:?
      end;
      intros H Hchanged; try discriminate; injection H as <- <- <-;
      contradiction.
  - intros _ _. unfold first in Htoday.
    destruct (filter _ (schedules (g_db g))); [reflexivity | discriminate].
Qed.

(** * The rest of the calendar module *)

Definition is_weekend_or_holiday (self : JapaneseCalendar) (target_date : date)
  : bool := is_weekend target_date || is_holiday self target_date.

(** [d[k] = v] on a dict kept in insertion order. *)
Definition dict_set (k : date) (v : string) (d : list (date * string))
  : list (date * string) :=
  if existsb (fun kv => fst kv =? k) d
  then map (fun kv => if fst kv =? k then (k, v) else kv) d
  else d ++ [(k, v)].

Definition get_holidays_in_range (self : JapaneseCalendar)
    (start_date end_date : date) : list (date * string) :=
  fold_left
    (fun holidays_in_range current_date =>
       match holidays_jp self current_date with
       | Some name => dict_set current_date name holidays_in_range
       | None => holidays_in_range
       end)
    (dates_between start_date end_date) [].

Definition get_non_working_days_in_range (self : JapaneseCalendar)
    (start_date end_date : date) : list (date * string) :=
  fold_left
    (fun non_working current_date =>
       if is_weekend current_date
       then dict_set current_date (strftime_A current_date) non_working
       else
         match holidays_jp self current_date with
         | Some name => dict_set current_date name non_working
         | None => non_working
         end)
    (dates_between start_date end_date) [].

Lemma In_dates_between (a b x : date) :
  In x (dates_between a b) <-> a <= x <= b.
Proof.
  unfold dates_between. rewrite in_map_iff. split.
  - intros [k [Hk Hin]]. apply in_seq in Hin. lia.
  - intros H. exists (Z.to_nat (x - a)). split; [lia |]. apply in_seq. lia.
Qed.

Lemma NoDup_dates_between (a b : date) : NoDup (dates_between a b).
Proof.
  unfold dates_between.
  generalize (seq_NoDup (Z.to_nat (b - a + 1)) 0).
  generalize (seq 0 (Z.to_nat (b - a + 1))).
  induction l as [| k rest IH]; cbn; intros Hnd; [constructor |].
  inversion Hnd as [| ? ? Hnot Hrest]; subst.
  constructor; [| now apply IH].
  intros Hin. apply in_map_iff in Hin. destruct Hin as [k' [Heq Hk']].
  assert (k' = k) by lia. subst. contradiction.
Qed.

Lemma dict_set_fresh (k : date) (v : string) (d : list (date * string)) :
  ~ In k (map fst d) -> dict_set k v d = d ++ [(k, v)].
Proof.
  intros Hfresh. unfold dict_set.
  destruct (existsb (fun kv => fst kv =? k) d) eqn:Hex; [| reflexivity].
  apply existsb_exists in Hex. destruct Hex as [kv [Hin Heq]].
  apply Z.eqb_eq in Heq. exfalso. apply Hfresh. rewrite <- Heq.
  now apply in_map.
Qed.

(** A loop that stores at most one entry per visited date, over dates
    visited once, builds the entries in visiting order. *)
Lemma dict_fill (entry : date -> option string) (days : list date) :
  NoDup days ->
  forall acc,
    (forall d, In d days -> ~ In d (map fst acc)) ->
    fold_left
      (fun acc d => match entry d with
                    | Some v => dict_set d v acc
                    | None => acc
                    end) days acc
    = acc ++ flat_map (fun d => match entry d with
                                | Some v => [(d, v)]
                                | None => []
                                end) days.
Proof.
  induction days as [| d rest IH]; cbn; intros Hnd acc Hfresh.
  - now rewrite app_nil_r.
  - inversion Hnd as [| ? ? Hd Hrest]; subst.
    destruct (entry d) as [v |].
    + rewrite dict_set_fresh by (apply Hfresh; now left).
      rewrite IH; [now rewrite <- app_assoc | exact Hrest |].
      intros d' Hd' Hin. rewrite map_app in Hin. apply in_app_or in Hin.
      destruct Hin as [Hin | [<- | []]]; [| contradiction].
      apply (Hfresh d'); [now right | exact Hin].
    + apply IH; [exact Hrest |]. intros d' Hd'. apply Hfresh. now right.
Qed.

Lemma fold_left_pointwise {A B : Type} (f g : A -> B -> A) (l : list B) :
  (forall a x, f a x = g a x) ->
  forall a, fold_left f l a = fold_left g l a.
Proof.
  intros Hfg. induction l as [| x rest IH]; cbn; intros a; [reflexivity |].
  now rewrite Hfg, IH.
Qed.

Lemma In_flat_map_entry (entry : date -> option string) (days : list date)
    (d : date) (v : string) :
  In (d, v) (flat_map (fun d => match entry d with
                                | Some v => [(d, v)]
                                | None => []
                                end) days)
  <-> In d days /\ entry d = Some v.
Proof.
  rewrite in_flat_map. split.
  - intros [x [Hx Hin]]. destruct (entry x) as [w |] eqn:He; [| contradiction].
    destruct Hin as [Heq | []]. injection Heq as <- <-. now split.
  - intros [Hin He]. exists d. split; [exact Hin |]. rewrite He. now left.
Qed.

Lemma NoDup_keys_flat_map_entry (entry : date -> option string)
    (days : list date) :
  NoDup days ->
  NoDup (map fst (flat_map (fun d => match entry d with
                                     | Some v => [(d, v)]
                                     | None => []
                                     end) days)).
Proof.
  induction days as [| d rest IH]; cbn; intros Hnd; [constructor |].
  inversion Hnd as [| ? ? Hd Hrest]; subst.
  destruct (entry d) as [v |]; cbn; [| now apply IH].
  constructor; [| now apply IH].
  intros Hin. apply in_map_iff in Hin. destruct Hin as [[d' v'] [Heq Hin]].
  cbn in Heq. subst d'. apply In_flat_map_entry in Hin. now destruct Hin.
Qed.

(** X1. [get_holidays_in_range] returns exactly the public holidays dated
    in [start_date, end_date], each once, with its name; an inverted range
    gives the empty dict. *)
Theorem holidays_in_range_are_the_holidays_of_the_range
    (self : JapaneseCalendar) (start_date end_date : date) :
  (forall d name,
      In (d, name) (get_holidays_in_range self start_date end_date)
      <-> start_date <= d <= end_date /\ holidays_jp self d = Some name)
  /\ NoDup (map fst (get_holidays_in_range self start_date end_date))
  /\ (end_date < start_date ->
      get_holidays_in_range self start_date end_date = []).
Proof.
  unfold get_holidays_in_range.
  rewrite (dict_fill (holidays_jp self) _ (NoDup_dates_between _ _) [])
    by (intros d _ []).
  cbn [app]. split; [| split].
  - intros d name. rewrite In_flat_map_entry, In_dates_between. reflexivity.
  - apply NoDup_keys_flat_map_entry, NoDup_dates_between.
  - intros Hinv. unfold dates_between.
    replace (Z.to_nat (end_date - start_date + 1)) with 0%nat by lia.
    reflexivity.
Qed.

(** The label of a non-working day: the weekday name on a weekend, else
    the holiday name. *)
Definition non_working_label (self : JapaneseCalendar) (d : date)
  : option string :=
  if is_weekend d then Some (strftime_A d) else holidays_jp self d.

(** X2. [get_non_working_days_in_range] lists exactly the dates of the
    range that are a Saturday, a Sunday or a public holiday, each once; a
    holiday that falls on a weekend is listed under its weekday name, not
    under the holiday's name. *)
Theorem non_working_days_prefer_the_weekday_name
    (self : JapaneseCalendar) (start_date end_date : date) :
  (forall d label,
      In (d, label) (get_non_working_days_in_range self start_date end_date)
      <-> start_date <= d <= end_date
          /\ ((is_weekend d = true /\ label = strftime_A d)
              \/ (is_weekend d = false /\ holidays_jp self d = Some label)))
  /\ NoDup (map fst (get_non_working_days_in_range self start_date end_date))
  /\ (forall d, start_date <= d <= end_date ->
                (In d (map fst (get_non_working_days_in_range self start_date
                                  end_date))
                 <-> is_weekend_or_holiday self d = true)).
Proof.
  assert (Hfill :
    get_non_working_days_in_range self start_date end_date
    = flat_map (fun d => match non_working_label self d with
                         | Some v => [(d, v)]
                         | None => []
                         end) (dates_between start_date end_date)).
  { unfold get_non_working_days_in_range.
    rewrite <- (app_nil_l (flat_map _ _)).
    rewrite <- (dict_fill (non_working_label self) _
                  (NoDup_dates_between _ _) []) by (intros d _ []).
    apply fold_left_pointwise. intros acc d. unfold non_working_label.
    destruct (is_weekend d); reflexivity. }
  rewrite Hfill. split; [| split].
  - intros d label. rewrite In_flat_map_entry, In_dates_between.
    unfold non_working_label. destruct (is_weekend d).
    + split.
      * intros [Hr Heq]. injection Heq as <-. split; [exact Hr |]. now left.
      * intros [Hr [[_ ->] | [Hf _]]]; [now split | discriminate].
    + split.
      * intros [Hr Heq]. split; [exact Hr |]. now right.
      * intros [Hr [[Hf _] | [_ Heq]]]; [discriminate | now split].
  - apply NoDup_keys_flat_map_entry, NoDup_dates_between.
  - intros d Hr. rewrite in_map_iff. unfold is_weekend_or_holiday, is_holiday.
    split.
    + intros [[d' label] [Heq Hin]]. cbn in Heq. subst d'.
      apply In_flat_map_entry in Hin. destruct Hin as [_ Hl].
      unfold non_working_label in Hl. destruct (is_weekend d); [reflexivity |].
      now rewrite Hl.
    + intros Hnw.
      destruct (non_working_label self d) as [label |] eqn:Hl.
      * exists (d, label). split; [reflexivity |].
        apply In_flat_map_entry. split; [now apply In_dates_between | exact Hl].
      * unfold non_working_label in Hl.
        destruct (is_weekend d); [discriminate |]. rewrite Hl in Hnw.
        discriminate.
Qed.

Lemma fold_count (p : date -> bool) (days : list date) :
  forall c,
    fold_left (fun c d => if p d then c + 1 else c) days c
    = c + count_rows p days.
Proof.
  unfold count_rows.
  induction days as [| d rest IH]; cbn; intros c; [lia |].
  rewrite IH. destruct (p d); cbn [List.length]; lia.
Qed.

Lemma count_rows_nonneg {A : Type} (p : A -> bool) (rows : list A) :
  0 <= count_rows p rows.
Proof. unfold count_rows. lia. Qed.

Lemma count_rows_zero {A : Type} (p : A -> bool) (rows : list A) :
  count_rows p rows = 0 <-> forall r, In r rows -> p r = false.
Proof.
  unfold count_rows. split.
  - intros H r Hin. destruct (p r) eqn:Hp; [| reflexivity].
    assert (Hf : In r (filter p rows)) by (apply filter_In; now split).
    destruct (filter p rows); [contradiction | cbn in H; lia].
  - intros H. destruct (filter p rows) as [| r rest] eqn:Hf; [reflexivity |].
    assert (Hin : In r (filter p rows)) by (rewrite Hf; now left).
    apply filter_In in Hin. destruct Hin as [Hin Hp].
    rewrite (H r Hin) in Hp. discriminate.
Qed.

(** X3. Whatever day [week_start] is, the week's requirement is 4 or 5,
    and it is 5 exactly when none of the seven days from [week_start] is a
    public holiday on a Monday-to-Friday: two or more weekday holidays
    still leave 4 shifts required. *)
Theorem required_shifts_stay_between_4_and_5 (self : JapaneseCalendar)
    (week_start : date) :
  4 <= get_shifts_required_for_week self week_start <= 5
  /\ (get_shifts_required_for_week self week_start = 5
      <-> forall d, week_start <= d <= week_start + 6 ->
                    weekday d < 5 -> is_holiday self d = false).
Proof.
  unfold get_shifts_required_for_week.
  rewrite (fold_count (fun d => (weekday d <? 5) && is_holiday self d)).
  set (h := count_rows _ _).
  pose proof (count_rows_nonneg
                (fun d => (weekday d <? 5) && is_holiday self d)
                (dates_between week_start (week_start + 6))) as Hh.
  fold h in Hh. split; [lia |].
  assert (Hzero : h = 0 <-> forall d, week_start <= d <= week_start + 6 ->
                                      weekday d < 5 ->
                                      is_holiday self d = false).
  { subst h. rewrite count_rows_zero. split.
    - intros H d Hr Hw. specialize (H d (proj2 (In_dates_between _ _ _) Hr)).
      apply Z.ltb_lt in Hw. rewrite Hw in H. exact H.
    - intros H d Hin. apply In_dates_between in Hin.
      destruct (Z.ltb_spec (weekday d) 5); [| reflexivity].
      cbn. now apply H. }
  rewrite <- Hzero. lia.
Qed.

(** X4. The week summary agrees with the quota function: for every
    [week_start], [get_week_info]'s [required_shifts] equals
    [get_shifts_required_for_week], and its [weekday_holiday_count] is the
    number of public holidays on the week's Monday-to-Friday days. *)
Theorem week_info_agrees_with_required_shifts (self : JapaneseCalendar)
    (week_start : date) :
  wi_required_shifts (get_week_info self week_start)
  = get_shifts_required_for_week self week_start
  /\ wi_weekday_holiday_count (get_week_info self week_start)
     = count_rows (fun d => (weekday d <? 5) && is_holiday self d)
         (dates_between week_start (week_start + 6)).
Proof.
  unfold get_week_info, get_shifts_required_for_week. cbn.
  rewrite (fold_count (fun d => (weekday d <? 5) && is_holiday self d)).
  rewrite (fold_count (fun d => is_holiday self d && negb (is_weekend d))).
  assert (Heq : count_rows (fun d => is_holiday self d && negb (is_weekend d))
                  (dates_between week_start (week_start + 6))
                = count_rows (fun d => (weekday d <? 5) && is_holiday self d)
                    (dates_between week_start (week_start + 6))).
  { apply count_rows_ext. intros d _. unfold is_weekend.
    rewrite Z.leb_antisym, negb_involutive. apply andb_comm. }
  rewrite Heq. split; reflexivity.
Qed.

(** * More on the consecutive-shifts validator *)

(** The run search reports only runs that are there: every day of the
    current run and of the best run so far has been seen. *)
Lemma longest_run_from_found (rest : list date) :
  forall prev current_consecutive max_consecutive_found seen,
    1 <= current_consecutive ->
    (forall k, 0 <= k < current_consecutive -> In (prev - k) seen) ->
    (exists d0, forall k, 0 <= k < max_consecutive_found -> In (d0 + k) seen) ->
    exists d0,
      forall k,
        0 <= k < longest_run_from prev rest current_consecutive
                   max_consecutive_found ->
        In (d0 + k) (seen ++ rest).
Proof.
  induction rest as [| d rest IH]; cbn;
    intros prev cur best seen Hcur Hrun [d0 Hbest].
  - exists d0. intros k Hk. rewrite app_nil_r. now apply Hbest.
  - replace (seen ++ d :: rest) with ((seen ++ [d]) ++ rest)
      by (now rewrite <- app_assoc).
    destruct (Z.eqb_spec (d - prev) 1) as [Hstep | Hgap].
    + apply IH; [lia | |].
      * intros k Hk. apply in_or_app.
        destruct (Z.eq_dec k 0) as [-> | Hk0].
        -- right. left. lia.
        -- left. replace (d - k) with (prev - (k - 1)) by lia.
           apply Hrun. lia.
      * destruct (Z_le_gt_dec (cur + 1) best) as [Hle | Hgt].
        -- exists d0. intros k Hk. apply in_or_app. left. apply Hbest. lia.
        -- exists (d - cur). intros k Hk. apply in_or_app.
           destruct (Z.eq_dec k cur) as [-> | Hkc].
           ++ right. left. lia.
           ++ left. replace (d - cur + k) with (prev - (cur - 1 - k)) by lia.
              apply Hrun. lia.
    + apply IH; [lia | |].
      * intros k Hk. replace k with 0 by lia. apply in_or_app. right.
        left. lia.
      * exists d0. intros k Hk. apply in_or_app. left. now apply Hbest.
Qed.

Lemma longest_run_found (l : list date) :
  l <> [] ->
  exists d0, forall k, 0 <= k < longest_run l -> In (d0 + k) l.
Proof.
  destruct l as [| d rest]; [contradiction |]. intros _. cbn.
  apply (longest_run_from_found rest d 1 1 [d]); [lia | |].
  - intros k Hk. replace k with 0 by lia. left. lia.
  - exists d. intros k Hk. replace k with 0 by lia. left. lia.
Qed.

(** X5. The consecutive-shifts validator never rejects without cause: a
    rejection means there are [max_consecutive + 1] days in a row, each of
    them the target date or the date of a row of that employee in the
    target's week with a counting status (and not the excluded row). *)
Theorem consecutive_rejection_shows_a_real_run (db : Database)
    (employee_id : Z) (target_date : date) (exclude_schedule_id : option Z)
    (max_consecutive : Z) :
  fst (validate_consecutive_shifts_limit db employee_id target_date
         exclude_schedule_id max_consecutive) = false ->
  exists d0,
    forall k, 0 <= k <= max_consecutive ->
      d0 + k = target_date
      \/ exists s,
           In s (schedules db)
           /\ Schedule.employee_id s = employee_id
           /\ Schedule.date s = d0 + k
           /\ monday_of target_date <= Schedule.date s
              <= monday_of target_date + 6
           /\ in_ (Schedule.status s) consecutive_statuses = true
           /\ not_excluded exclude_schedule_id s = true.
Proof.
  unfold validate_consecutive_shifts_limit.
  set (existing := filter _ (schedules db)).
  set (all_dates := fromkeys (sorted (map Schedule.date existing
                                        ++ [target_date]))).
  destruct (Z.ltb_spec max_consecutive (longest_run all_dates)) as [Hlt | ?];
    [| discriminate].
  intros _.
  assert (Hne : all_dates <> []).
  { intros Hnil.
    assert (Hin : In target_date all_dates).
    { apply fromkeys_In, sorted_In, in_or_app. right. now left. }
    rewrite Hnil in Hin. contradiction. }
  destruct (longest_run_found all_dates Hne) as [d0 Hrun].
  exists d0. intros k Hk. specialize (Hrun k ltac:(lia)).
  apply (proj1 (fromkeys_In _ _)) in Hrun.
  apply (proj1 (sorted_In _ _)) in Hrun.
  apply in_app_or in Hrun. destruct Hrun as [Hold | [Ht | []]].
  - right. apply in_map_iff in Hold. destruct Hold as [s [Hd Hs]].
    subst existing. apply filter_In in Hs. destruct Hs as [Hin Hp].
    repeat (apply andb_true_iff in Hp; destruct Hp as [Hp ?]).
    exists s. unfold monday_of. repeat split; try assumption; try lia;
      try (now apply Z.eqb_eq); try (now apply Z.leb_le).
  - left. lia.
Qed.

Lemma consecutive_rejection_witness :
  let db :=
    Example.with_schedules
      [Example.row 11 Example.monday "scheduled";
       Example.row 12 (Example.monday + 1) "leave";
       Example.row 13 (Example.monday + 3) "comp_off_taken"] in
  exists d0,
    forall k, 0 <= k <= 3 ->
      d0 + k = Example.monday + 2
      \/ exists s,
           In s (schedules db)
           /\ Schedule.employee_id s = 7
           /\ Schedule.date s = d0 + k
           /\ monday_of (Example.monday + 2) <= Schedule.date s
              <= monday_of (Example.monday + 2) + 6
           /\ in_ (Schedule.status s) consecutive_statuses = true
           /\ not_excluded None s = true.
Proof.
  exact (consecutive_rejection_shows_a_real_run
           (Example.with_schedules
              [Example.row 11 Example.monday "scheduled";
               Example.row 12 (Example.monday + 1) "leave";
               Example.row 13 (Example.monday + 3) "comp_off_taken"])
           7 (Example.monday + 2) None 3 eq_refl).
Defined.

(** The run search never reports more than the span of the dates. *)
Lemma longest_run_from_span (lo hi : Z) (rest : list date) :
  forall prev current_consecutive max_consecutive_found,
    StronglySorted Z.lt (prev :: rest) ->
    Forall (fun d => d <= hi) (prev :: rest) ->
    lo <= prev ->
    current_consecutive <= prev - lo + 1 ->
    max_consecutive_found <= hi - lo + 1 ->
    longest_run_from prev rest current_consecutive max_consecutive_found
    <= hi - lo + 1.
Proof.
  induction rest as [| d rest IH]; cbn;
    intros prev cur best Hs Hhi Hlo Hcur Hbest; [exact Hbest |].
  apply StronglySorted_inv in Hs. destruct Hs as [Hs Hprev].
  pose proof (Forall_inv Hprev) as Hpd. cbn in Hpd.
  apply Forall_inv_tail in Hhi. pose proof (Forall_inv Hhi) as Hdhi.
  cbn in Hdhi.
  destruct (Z.eqb_spec (d - prev) 1); apply IH; try assumption; lia.
Qed.

(** X6. A week has seven days: with [max_consecutive] 7 or more the
    validator accepts every target, whatever the table holds. *)
Theorem consecutive_validator_accepts_from_7 (db : Database)
    (employee_id : Z) (target_date : date) (exclude_schedule_id : option Z)
    (max_consecutive : Z) :
  7 <= max_consecutive ->
  validate_consecutive_shifts_limit db employee_id target_date
    exclude_schedule_id max_consecutive = (true, None).
Proof.
  intros Hmax. unfold validate_consecutive_shifts_limit.
  set (week_start := target_date - weekday target_date).
  set (existing := filter _ (schedules db)).
  set (all_dates := fromkeys (sorted (map Schedule.date existing
                                        ++ [target_date]))).
  assert (Hsorted : StronglySorted Z.lt all_dates)
    by apply fromkeys_strictly_ordered, sorted_ordered.
  assert (Hrange : Forall (fun d => week_start <= d <= week_start + 6)
                     all_dates).
  { apply Forall_forall. intros d Hd.
    apply (proj1 (fromkeys_In _ _)) in Hd.
    apply (proj1 (sorted_In _ _)) in Hd.
    apply in_app_or in Hd. destruct Hd as [Hold | [<- | []]].
    - apply in_map_iff in Hold. destruct Hold as [s [<- Hs]].
      subst existing. apply filter_In in Hs. destruct Hs as [_ Hp].
      repeat (apply andb_true_iff in Hp; destruct Hp as [Hp ?]).
      split; now apply Z.leb_le.
    - pose proof (weekday_range target_date). subst week_start. lia. }
  assert (Hlen : longest_run all_dates <= 7).
  { destruct all_dates as [| d rest]; cbn; [lia |].
    replace 7 with (week_start + 6 - week_start + 1) by lia.
    pose proof (Forall_inv Hrange) as Hd. cbn in Hd.
    apply longest_run_from_span; try assumption; try lia.
    eapply Forall_impl; [| exact Hrange]. cbn. intros; lia. }
  destruct (Z.ltb_spec max_consecutive (longest_run all_dates));
    [lia | reflexivity].
Qed.

Lemma consecutive_validator_accepts_witness :
  validate_consecutive_shifts_limit
    (Example.with_schedules
       [Example.row 11 Example.monday "scheduled";
        Example.row 12 (Example.monday + 1) "scheduled";
        Example.row 13 (Example.monday + 2) "scheduled";
        Example.row 14 (Example.monday + 3) "scheduled";
        Example.row 15 (Example.monday + 4) "scheduled";
        Example.row 16 (Example.monday + 5) "scheduled"])
    7 (Example.monday + 6) None 7 = (true, None).
Proof.
  apply consecutive_validator_accepts_from_7. lia.
Defined.

(** * More on the weekly quota validator *)

Lemma count_rows_app {A : Type} (p : A -> bool) (l1 l2 : list A) :
  count_rows p (l1 ++ l2) = count_rows p l1 + count_rows p l2.
Proof. unfold count_rows. rewrite filter_app, length_app. lia. Qed.

(** X7. Comp-off on a Saturday or Sunday is a bonus: adding a row with
    status [comp_off_taken] or [comp_off_earned] dated on a weekend changes
    neither the verdict nor the counts the validator reports, for any
    employee and target. *)
Theorem weekend_comp_off_does_not_count (jp_calendar : JapaneseCalendar)
    (db : Database) (r : Schedule.t) (employee_id : Z) (target_date : date)
    (exclude_schedule_id : option Z) :
  is_weekend (Schedule.date r) = true ->
  in_ (Schedule.status r) ["comp_off_taken"; "comp_off_earned"]%string = true ->
  validate_5_shifts_per_week jp_calendar
    (set_schedules db (schedules db ++ [r])) employee_id target_date
    exclude_schedule_id
  = validate_5_shifts_per_week jp_calendar db employee_id target_date
      exclude_schedule_id.
Proof.
  intros Hweekend Hstatus. unfold validate_5_shifts_per_week.
  cbn [schedules set_schedules]. rewrite !count_rows_app.
  assert (Hst : Schedule.status r = "comp_off_taken"%string
                \/ Schedule.status r = "comp_off_earned"%string).
  { unfold in_ in Hstatus. cbn in Hstatus.
    apply orb_true_iff in Hstatus. destruct Hstatus as [H | H].
    - left. now apply String.eqb_eq.
    - right. rewrite orb_false_r in H. now apply String.eqb_eq. }
  assert (Hweekday : (weekday (Schedule.date r) <? 5) = false).
  { unfold is_weekend in Hweekend. apply Z.leb_le in Hweekend.
    apply Z.ltb_ge. exact Hweekend. }
  assert (Hregular : in_ (Schedule.status r) weekend_regular_statuses = false)
    by (destruct Hst as [-> | ->]; reflexivity).
  repeat
    match goal with
    | |- context [count_rows ?p [r]] =>
        let H := fresh "Hzero" in
        assert (H : count_rows p [r] = 0)
          by (apply count_rows_zero; intros s [<- | []]; cbv beta;
              rewrite ?pg_dow_weekday, ?Hweekday, ?Hregular, ?andb_false_r;
              reflexivity);
        rewrite H; clear H
    end.
  rewrite !Z.add_0_r. reflexivity.
Qed.

Lemma weekend_comp_off_witness :
  validate_5_shifts_per_week Example.no_holidays
    (set_schedules Example.empty_db
       (schedules Example.empty_db
        ++ [Example.row 11 (Example.monday + 5) "comp_off_earned"]))
    7 (Example.monday + 6) None
  = validate_5_shifts_per_week Example.no_holidays Example.empty_db 7
      (Example.monday + 6) None.
Proof.
  apply weekend_comp_off_does_not_count; reflexivity.
Defined.

Lemma count_rows_single {A : Type} (p : A -> bool) (r : A) :
  0 <= count_rows p [r] <= 1.
Proof. unfold count_rows. cbn. destruct (p r); cbn; lia. Qed.

(** X8. One accepted row keeps the week within its quota.  If the
    validator accepts a weekday target, then after adding any one row the
    employee's Monday-to-Friday coverage of that week is at most the
    week's requirement; if it accepts a weekend target, coverage plus
    regular weekend shifts is at most the requirement. *)
Theorem accepted_row_keeps_week_within_quota (jp_calendar : JapaneseCalendar)
    (db : Database) (employee_id : Z) (target_date : date) (r : Schedule.t) :
  fst (validate_5_shifts_per_week jp_calendar db employee_id target_date None)
  = true ->
  (is_weekend target_date = false ->
   weekday_coverage (schedules db ++ [r]) employee_id target_date None
   <= get_shifts_required_for_week jp_calendar (monday_of target_date))
  /\ (is_weekend target_date = true ->
      weekday_coverage (schedules db ++ [r]) employee_id target_date None
      + weekend_regular_shifts (schedules db ++ [r]) employee_id target_date
          None
      <= get_shifts_required_for_week jp_calendar (monday_of target_date)).
Proof.
  unfold validate_5_shifts_per_week, is_weekend, monday_of.
  set (required := get_shifts_required_for_week jp_calendar _).
  set (cov_code := count_rows _ (schedules db)).
  set (wend_code := count_rows _ (schedules db)).
  assert (Hcov : cov_code
                 = weekday_coverage (schedules db) employee_id target_date None).
  { apply count_rows_ext. intros s _. unfold in_week_of, monday_of.
    rewrite pg_dow_weekday. unfold not_excluded, truthy_id, is_excluded.
    cbn [negb]. unfold weekday_coverage_statuses. rewrite !andb_true_r.
    destruct (Schedule.employee_id s =? employee_id),
             (target_date - weekday target_date <=? Schedule.date s),
             (Schedule.date s <=? target_date - weekday target_date + 6),
             (weekday (Schedule.date s) <? 5),
             (in_ (Schedule.status s) _); reflexivity. }
  assert (Hwend : wend_code
                  = weekend_regular_shifts (schedules db) employee_id
                      target_date None).
  { apply count_rows_ext. intros s _. unfold in_week_of, monday_of.
    rewrite pg_dow_weekend. unfold not_excluded, truthy_id, is_excluded.
    cbn [negb]. unfold weekend_regular_statuses. rewrite !andb_true_r.
    destruct (Schedule.employee_id s =? employee_id),
             (target_date - weekday target_date <=? Schedule.date s),
             (Schedule.date s <=? target_date - weekday target_date + 6),
             (5 <=? weekday (Schedule.date s)),
             (in_ (Schedule.status s) _); reflexivity. }
  rewrite Hcov, Hwend. clear Hcov Hwend cov_code wend_code.
  assert (Hc : weekday_coverage (schedules db ++ [r]) employee_id target_date
                 None
               = weekday_coverage (schedules db) employee_id target_date None
                 + weekday_coverage [r] employee_id target_date None)
    by apply count_rows_app.
  assert (Hw : weekend_regular_shifts (schedules db ++ [r]) employee_id
                 target_date None
               = weekend_regular_shifts (schedules db) employee_id target_date
                   None
                 + weekend_regular_shifts [r] employee_id target_date None)
    by apply count_rows_app.
  rewrite Hc, Hw. clear Hc Hw.
  set (cov := weekday_coverage (schedules db) employee_id target_date None).
  set (wend := weekend_regular_shifts (schedules db) employee_id target_date
                 None).
  set (c1 := weekday_coverage [r] employee_id target_date None).
  set (w1 := weekend_regular_shifts [r] employee_id target_date None).
  assert (Hc1 : 0 <= c1 <= 1) by apply count_rows_single.
  assert (Hw1 : 0 <= w1 <= 1) by apply count_rows_single.
  assert (Hexcl : c1 + w1 <= 1).
  { subst c1 w1. unfold weekday_coverage, weekend_regular_shifts, count_rows.
    cbn [filter].
    destruct (Z.ltb_spec (weekday (Schedule.date r)) 5);
      destruct (Z.leb_spec 5 (weekday (Schedule.date r))); try lia;
      rewrite ?andb_false_r; cbn [andb List.length];
      repeat match goal with
             | |- context [if ?b then _ else _] => destruct b
             end; cbn [List.length]; lia. }
  destruct (Z.leb_spec 5 (weekday target_date)) as [Hwe | Hwd].
  - destruct (Z.leb_spec required cov); [cbn; discriminate |].
    destruct (Z.leb_spec required (cov + wend)); [cbn; discriminate |].
    intros _. split; [discriminate | intros _; lia].
  - destruct (Z.leb_spec required cov); [cbn; discriminate |].
    intros _. split; [intros _; lia | discriminate].
Qed.

Lemma accepted_row_quota_witness :
  weekday_coverage
    (schedules (Example.with_schedules Example.four_days)
     ++ [Example.row 100 (Example.monday + 4) "scheduled"])
    7 (Example.monday + 4) None
  <= get_shifts_required_for_week Example.no_holidays
       (monday_of (Example.monday + 4)).
Proof.
  apply (proj1 (accepted_row_keeps_week_within_quota Example.no_holidays
                  (Example.with_schedules Example.four_days) 7
                  (Example.monday + 4)
                  (Example.row 100 (Example.monday + 4) "scheduled")
                  eq_refl)).
  reflexivity.
Defined.

(** * Approving paid and unpaid leave *)

(** The employee's rows on [d] that are not cancelled. *)
Definition booked (rows : list Schedule.t) (employee_id : Z) (d : date)
  : list Schedule.t :=
  filter (fun s => (Schedule.employee_id s =? employee_id)
                   && (Schedule.date s =? d)
                   && negb (Schedule.status s =? "cancelled")%string) rows.

(** One round of the loop over the days of a paid or unpaid leave. *)
Definition add_leave_day (employee : Employee.t)
    (duration_type : option string) (leave_type : string) (db : Database)
    (current_date : date) : result Database :=
  existing <- scalar_one_or_none
    (booked (schedules db) (Employee.id employee) current_date) ;;
  match existing with
  | Some _ => Ok db
  | None =>
      let '(status, start_time, end_time, notes) :=
        leave_row_of duration_type leave_type in
      '(_, db) <- add_schedule db
          (Employee.department_id employee) (Employee.id employee)
          (Employee.role_id employee) None current_date
          (Some start_time) (Some end_time) status (Some notes) ;;
      Ok db
  end.

Definition leave_statuses : list string :=
  ["leave"; "leave_half_morning"; "leave_half_afternoon"]%string.

Lemma leave_row_status (duration_type : option string) (leave_type : string) :
  In (fst (fst (fst (leave_row_of duration_type leave_type)))) leave_statuses.
Proof.
  unfold leave_row_of, leave_statuses.
  destruct (prefix "half_day" (str_or duration_type ""));
    [destruct (str_or duration_type "" =? "half_day_morning")%string |];
    cbn; tauto.
Qed.

(** What a leave row looks like to the rest of the table. *)
Definition is_leave_row (employee_id : Z) (days : list date)
    (before : list Schedule.t) (r : Schedule.t) : Prop :=
  Schedule.employee_id r = employee_id
  /\ In (Schedule.date r) days
  /\ In (Schedule.status r) leave_statuses
  /\ booked before employee_id (Schedule.date r) = [].

Lemma booked_app (l1 l2 : list Schedule.t) (employee_id : Z) (d : date) :
  booked (l1 ++ l2) employee_id d
  = booked l1 employee_id d ++ booked l2 employee_id d.
Proof. unfold booked. apply filter_app. Qed.

Lemma add_leave_day_rows (employee : Employee.t)
    (duration_type : option string) (leave_type : string) (db db' : Database)
    (current_date : date) :
  add_leave_day employee duration_type leave_type db current_date = Ok db' ->
  (exists new_rows,
      schedules db' = schedules db ++ new_rows
      /\ Forall (fun r => Schedule.employee_id r = Employee.id employee
                          /\ Schedule.date r = current_date
                          /\ In (Schedule.status r) leave_statuses
                          /\ booked (schedules db) (Employee.id employee)
                               (Schedule.date r) = []) new_rows)
  /\ List.length (booked (schedules db') (Employee.id employee) current_date)
     = 1%nat
  /\ forall d,
       List.length (booked (schedules db) (Employee.id employee) d) = 1%nat ->
       List.length (booked (schedules db') (Employee.id employee) d) = 1%nat.
Proof.
  unfold add_leave_day.
  destruct (booked (schedules db) (Employee.id employee) current_date)
    as [| s [| s' rest]] eqn:Hbooked; cbn [scalar_one_or_none bind];
    [| | discriminate].
  - pose proof (leave_row_status duration_type leave_type) as Hstatus.
    destruct (leave_row_of duration_type leave_type)
      as [[[status start_time] end_time] notes].
    cbn in Hstatus. unfold add_schedule.
    destruct (Employee.role_id employee) as [rid |]; [| discriminate].
    cbn [bind]. intros H. injection H as <-. cbn [schedules].
    assert (Hnew : forall d,
               booked [ {| Schedule.id := schedules_id_seq db;
                           Schedule.department_id :=
                             Employee.department_id employee;
                           Schedule.employee_id := Employee.id employee;
                           Schedule.role_id := rid;
                           Schedule.shift_id := None;
                           Schedule.date := current_date;
                           Schedule.start_time := Some start_time;
                           Schedule.end_time := Some end_time;
                           Schedule.status := status;
                           Schedule.notes := Some notes |} ]
                 (Employee.id employee) d
               = if d =? current_date
                 then [ {| Schedule.id := schedules_id_seq db;
                           Schedule.department_id :=
                             Employee.department_id employee;
                           Schedule.employee_id := Employee.id employee;
                           Schedule.role_id := rid;
                           Schedule.shift_id := None;
                           Schedule.date := current_date;
                           Schedule.start_time := Some start_time;
                           Schedule.end_time := Some end_time;
                           Schedule.status := status;
                           Schedule.notes := Some notes |} ]
                 else []).
    { intros d. unfold booked. cbn. rewrite Z.eqb_refl, (Z.eqb_sym current_date).
      assert (Hnc : (status =? "cancelled")%string = false).
      { unfold leave_statuses in Hstatus. cbn in Hstatus.
        destruct Hstatus as [<- | [<- | [<- | []]]]; reflexivity. }
      rewrite Hnc. cbn. destruct (d =? current_date); reflexivity. }
    split; [| split].
    + eexists. split; [reflexivity |]. constructor; [| constructor].
      cbn. repeat split; assumption.
    + rewrite booked_app, Hbooked, Hnew, Z.eqb_refl. reflexivity.
    + intros d Hd. rewrite booked_app, Hnew.
      destruct (Z.eqb_spec d current_date) as [-> | _].
      * rewrite Hbooked in Hd. discriminate.
      * now rewrite app_nil_r.
  - intros H. injection H as <-. split; [| split].
    + exists []. split; [now rewrite app_nil_r | constructor].
    + now rewrite Hbooked.
    + tauto.
Qed.

Lemma booked_prefix_empty (l1 l2 : list Schedule.t) (employee_id : Z)
    (d : date) :
  booked (l1 ++ l2) employee_id d = [] -> booked l1 employee_id d = [].
Proof.
  rewrite booked_app. intros H. now apply app_eq_nil in H.
Qed.

Lemma add_leave_days_rows (employee : Employee.t)
    (duration_type : option string) (leave_type : string) (days : list date) :
  forall db db',
    foldM (add_leave_day employee duration_type leave_type) db days = Ok db' ->
    exists new_rows,
      schedules db' = schedules db ++ new_rows
      /\ Forall (is_leave_row (Employee.id employee) days (schedules db))
           new_rows
      /\ (forall d, In d days ->
                    List.length (booked (schedules db') (Employee.id employee) d)
                    = 1%nat)
      /\ (forall d,
            List.length (booked (schedules db) (Employee.id employee) d)
            = 1%nat ->
            List.length (booked (schedules db') (Employee.id employee) d)
            = 1%nat).
Proof.
  induction days as [| d rest IH]; cbn [foldM]; intros db db' H.
  - injection H as <-. exists []. rewrite app_nil_r.
    repeat split; [constructor | intros d [] | tauto].
  - destruct (add_leave_day employee duration_type leave_type db d)
      as [db1 |] eqn:Hstep; cbn [bind] in H; [| discriminate].
    apply add_leave_day_rows in Hstep.
    destruct Hstep as [[new1 [Hrows1 Hall1]] [Hone Hkeep1]].
    apply IH in H. destruct H as [new2 [Hrows2 [Hall2 [Hdays Hkeep2]]]].
    exists (new1 ++ new2). split; [| split; [| split]].
    + rewrite Hrows2, Hrows1, app_assoc. reflexivity.
    + apply Forall_app. split.
      * eapply Forall_impl; [| exact Hall1]. cbn.
        intros r [He [Hd [Hs Hb]]]. repeat split; try assumption.
        left. now symmetry.
      * eapply Forall_impl; [| exact Hall2]. cbn.
        intros r [He [Hd [Hs Hb]]]. repeat split; try assumption.
        -- now right.
        -- rewrite Hrows1 in Hb. eapply booked_prefix_empty. exact Hb.
    + intros d' [<- | Hin]; [apply Hkeep2, Hone | now apply Hdays].
    + intros d' Hd'. apply Hkeep2, Hkeep1, Hd'.
Qed.

(** X9. A successful approval of a paid or unpaid leave request keeps
    every Schedule row that was there and adds leave rows only for days of
    the request on which the employee had no row that is not cancelled;
    afterwards the employee has exactly one such row on every day of the
    request. *)
Theorem approve_paid_leave_books_each_day_once
    (db : Database) (utcnow : datetime) (leave_id : Z)
    (review_notes : option string) (current_user : User.t)
    (leave_request : LeaveRequest.t) (employee : Employee.t)
    (message : string) (db' : Database) :
  scalar_one_or_none
    (filter (fun l => LeaveRequest.id l =? leave_id) (leave_requests db))
  = Ok (Some leave_request) ->
  in_ (LeaveRequest.leave_type leave_request) ["paid"; "unpaid"]%string = true ->
  scalar_one_or_none
    (filter (fun e => Employee.id e =? LeaveRequest.employee_id leave_request)
       (employees db)) = Ok (Some employee) ->
  approve_leave db utcnow leave_id review_notes current_user
  = (Ok message, db') ->
  exists new_rows,
    schedules db' = schedules db ++ new_rows
    /\ Forall (is_leave_row (Employee.id employee)
                 (dates_between (LeaveRequest.start_date leave_request)
                    (LeaveRequest.end_date leave_request)) (schedules db))
         new_rows
    /\ forall d,
         LeaveRequest.start_date leave_request <= d
         <= LeaveRequest.end_date leave_request ->
         List.length (booked (schedules db') (Employee.id employee) d) = 1%nat.
Proof.
  intros Hreq Htype Hemp Hrun.
  assert (Hnot : (LeaveRequest.leave_type leave_request =? "comp_off")%string
                 = false).
  { unfold in_ in Htype. cbn in Htype.
    apply orb_true_iff in Htype. destruct Htype as [H | H].
    - apply String.eqb_eq in H. now rewrite H.
    - rewrite orb_false_r in H. apply String.eqb_eq in H. now rewrite H. }
  unfold approve_leave, approve_leave_body in Hrun.
  rewrite Hreq in Hrun. cbn [bind] in Hrun.
  destruct (scalar_one_or_none
              (filter (fun m => Manager.user_id m =? User.id current_user)
                 (managers db))) as [[manager |] | e];
    cbn [bind transaction] in Hrun; try discriminate.
  cbn [LeaveRequest.employee_id LeaveRequest.leave_type
       LeaveRequest.start_date LeaveRequest.end_date LeaveRequest.reason
       LeaveRequest.duration_type employees set_leave_requests] in Hrun.
  rewrite Hemp in Hrun. cbn [bind] in Hrun.
  rewrite Htype, Hnot in Hrun.
  match type of Hrun with
  | context [foldM ?f ?s ?l] =>
      change (foldM f s l)
        with (foldM (add_leave_day employee
                       (LeaveRequest.duration_type leave_request)
                       (LeaveRequest.leave_type leave_request)) s l) in Hrun
  end.
  destruct (foldM _ _ _) as [db1 |] eqn:Hloop; cbn [bind] in Hrun;
    [| discriminate].
  injection Hrun as _ <-.
  apply add_leave_days_rows in Hloop.
  destruct Hloop as [new_rows [Hrows [Hall [Hdays _]]]].
  cbn [schedules set_leave_requests] in Hrows, Hall.
  exists new_rows. split; [exact Hrows |]. split; [exact Hall |].
  intros d Hd. apply Hdays. now apply In_dates_between.
Qed.

(** More rows of the example department. *)
Module Scenario.

(** Employee 7 asks for paid leave from the Tuesday to the Thursday; the
    Wednesday already holds a shift. *)
Definition paid_leave : LeaveRequest.t :=
  {| LeaveRequest.id := 2; LeaveRequest.employee_id := 7;
     LeaveRequest.start_date := Example.monday + 1;
     LeaveRequest.end_date := Example.monday + 3;
     LeaveRequest.leave_type := "paid";
     LeaveRequest.duration_type := Some "full_day"%string;
     LeaveRequest.reason := None; LeaveRequest.status := PENDING;
     LeaveRequest.manager_id := None; LeaveRequest.reviewed_at := None;
     LeaveRequest.review_notes := None |}.

Definition before_paid_leave : Database :=
  set_leave_requests
    (Example.with_schedules [Example.row 11 (Example.monday + 2) "scheduled"])
    [paid_leave].

(** A comp-off leave for a day of October 2025, decided in November. *)
Definition october_comp_off_leave : LeaveRequest.t :=
  {| LeaveRequest.id := 3; LeaveRequest.employee_id := 7;
     LeaveRequest.start_date := Example.monday - 10;
     LeaveRequest.end_date := Example.monday - 10;
     LeaveRequest.leave_type := "comp_off";
     LeaveRequest.duration_type := Some "full_day"%string;
     LeaveRequest.reason := None; LeaveRequest.status := PENDING;
     LeaveRequest.manager_id := None; LeaveRequest.reviewed_at := None;
     LeaveRequest.review_notes := None |}.

Definition before_october_leave : Database :=
  set_leave_requests Example.empty_db [october_comp_off_leave].

(** Employee 8 has no role: eligible for every shift of the department. *)
Definition flexible_employee : Employee.t :=
  {| Employee.id := 8; Employee.first_name := "Ken";
     Employee.last_name := "Mori"; Employee.department_id := 1;
     Employee.role_id := None; Employee.user_id := Some 80;
     Employee.weekly_hours := 40 # 1; Employee.daily_max_hours := 8 # 1;
     Employee.is_active := true |}.

Definition flexible_request : CompOffRequest.t :=
  {| CompOffRequest.id := 4; CompOffRequest.employee_id := 8;
     CompOffRequest.comp_off_date := Example.monday + 5;
     CompOffRequest.reason := None; CompOffRequest.status := PENDING;
     CompOffRequest.manager_id := None; CompOffRequest.reviewed_at := None;
     CompOffRequest.review_notes := None; CompOffRequest.schedule_id := None |}.

Definition with_flexible_employee : Database :=
  {| managers := [Example.manager];
     employees := [Example.employee; flexible_employee];
     roles := [Example.role]; shifts := [Example.shift]; schedules := [];
     leave_requests := []; check_ins := []; attendance := [];
     overtime_tracking := []; overtime_requests := [];
     comp_off_requests := [flexible_request]; comp_off_tracking := [];
     comp_off_details := [];
     schedules_id_seq := 100; attendance_id_seq := 1;
     overtime_tracking_id_seq := 1; comp_off_tracking_id_seq := 1;
     comp_off_details_id_seq := 1 |}.

End Scenario.

Lemma approve_paid_leave_witness :
  exists new_rows,
    schedules (snd (approve_leave Scenario.before_paid_leave
                      Example.monday_noon 2 None Example.manager_user))
    = schedules Scenario.before_paid_leave ++ new_rows
    /\ List.length
         (booked
            (schedules (snd (approve_leave Scenario.before_paid_leave
                               Example.monday_noon 2 None
                               Example.manager_user)))
            7 (Example.monday + 2)) = 1%nat.
Proof.
  destruct (approve_paid_leave_books_each_day_once
              Scenario.before_paid_leave Example.monday_noon 2 None
              Example.manager_user Scenario.paid_leave Example.employee
              "Leave approved successfully"
              (snd (approve_leave Scenario.before_paid_leave
                      Example.monday_noon 2 None Example.manager_user))
              eq_refl eq_refl eq_refl eq_refl)
    as [new_rows [Hrows [_ Hone]]].
  exists new_rows. split; [exact Hrows |].
  apply (Hone (Example.monday + 2)). cbn. lia.
Defined.

(** * Refused approvals *)

Lemma foldM_check_raises (f : unit -> date -> result unit) (days : list date)
    (d : date) :
  (forall x, f tt x = Ok tt \/ exists detail, f tt x = Raise (HTTPException 400 detail)) ->
  In d days ->
  (exists detail, f tt d = Raise (HTTPException 400 detail)) ->
  exists detail, foldM f tt days = Raise (HTTPException 400 detail).
Proof.
  intros Hf. induction days as [| x rest IH]; cbn [foldM]; intros Hin Hd;
    [contradiction |].
  destruct (Hf x) as [Hok | [detail Hraise]].
  - rewrite Hok. cbn [bind]. destruct Hin as [-> | Hin].
    + destruct Hd as [detail Hd]. rewrite Hd in Hok. discriminate.
    + now apply IH.
  - rewrite Hraise. cbn [bind]. now exists detail.
Qed.

(** X10. Comp-off expires with its month: approving a comp-off leave that
    covers a day of a month before the current one is refused with status
    400, and nothing is committed: the request is not marked approved and
    no Schedule row is created or deleted. *)
Theorem expired_comp_off_leave_is_refused
    (db : Database) (utcnow : datetime) (leave_id : Z)
    (review_notes : option string) (current_user : User.t)
    (leave_request : LeaveRequest.t) (manager : Manager.t)
    (employee : Employee.t) (d : date) :
  scalar_one_or_none
    (filter (fun l => LeaveRequest.id l =? leave_id) (leave_requests db))
  = Ok (Some leave_request) ->
  scalar_one_or_none
    (filter (fun m => Manager.user_id m =? User.id current_user)
       (managers db)) = Ok (Some manager) ->
  scalar_one_or_none
    (filter (fun e => Employee.id e =? LeaveRequest.employee_id leave_request)
       (employees db)) = Ok (Some employee) ->
  LeaveRequest.leave_type leave_request = "comp_off"%string ->
  LeaveRequest.start_date leave_request <= d
  <= LeaveRequest.end_date leave_request ->
  String.ltb (strftime_Ym d) (strftime_Ym (date_of utcnow)) = true ->
  exists detail,
    approve_leave db utcnow leave_id review_notes current_user
    = (Raise (HTTPException 400 detail), db).
Proof.
  intros Hreq Hman Hemp Htype Hrange Hpast.
  unfold approve_leave, approve_leave_body.
  rewrite Hreq. cbn [bind]. rewrite Hman. cbn [bind].
  cbn [LeaveRequest.employee_id LeaveRequest.leave_type
       LeaveRequest.start_date LeaveRequest.end_date LeaveRequest.reason
       LeaveRequest.duration_type employees set_leave_requests].
  rewrite Hemp. cbn [bind]. rewrite Htype.
  change (in_ "comp_off" ["paid"; "unpaid"]%string) with false.
  change ("comp_off" =? "comp_off")%string with true.
  cbn [bind].
  match goal with
  | |- context [foldM ?f tt ?l] =>
      destruct (foldM_check_raises f l d) as [detail Hraise]
  end.
  - intros x. cbv beta zeta.
    destruct (String.ltb (strftime_Ym x) (strftime_Ym (date_of utcnow)));
      [right; eexists; reflexivity | now left].
  - now apply In_dates_between.
  - cbv beta zeta. rewrite Hpast. eexists. reflexivity.
  - rewrite Hraise. cbn [bind transaction]. now exists detail.
Qed.

Lemma expired_comp_off_leave_witness :
  exists detail,
    approve_leave Scenario.before_october_leave Example.monday_noon 3 None
      Example.manager_user
    = (Raise (HTTPException 400 detail), Scenario.before_october_leave).
Proof.
  apply (expired_comp_off_leave_is_refused Scenario.before_october_leave
           Example.monday_noon 3 None Example.manager_user
           Scenario.october_comp_off_leave Example.manager Example.employee
           (Example.monday - 10) eq_refl eq_refl eq_refl eq_refl).
  - cbn. lia.
  - reflexivity.
Defined.

(** X11. A Schedule row needs a role and the approval copies the
    employee's: approving the comp-off request of an employee who has no
    role fails at the insert, and nothing is committed: the request stays
    as it was and no earned day is recorded. *)
Theorem approve_comp_off_needs_a_role
    (db : Database) (utcnow : datetime) (comp_off_id : Z)
    (review_notes : option string) (current_user : User.t)
    (comp_off : CompOffRequest.t) (manager : Manager.t)
    (employee : Employee.t) :
  scalar_one_or_none
    (filter (fun c => CompOffRequest.id c =? comp_off_id)
       (comp_off_requests db)) = Ok (Some comp_off) ->
  scalar_one_or_none
    (filter (fun m => Manager.user_id m =? User.id current_user)
       (managers db)) = Ok (Some manager) ->
  scalar_one_or_none
    (filter (fun e => Employee.id e =? CompOffRequest.employee_id comp_off)
       (employees db)) = Ok (Some employee) ->
  Employee.role_id employee = None ->
  approve_comp_off db utcnow comp_off_id review_notes current_user
  = (Raise (IntegrityError "schedules.role_id"), db).
Proof.
  intros Hreq Hman Hemp Hrole. unfold approve_comp_off, approve_comp_off_body.
  rewrite Hreq. cbn [bind]. rewrite Hman. cbn [bind]. rewrite Hemp.
  cbn [bind]. unfold add_schedule. rewrite Hrole. reflexivity.
Qed.

Lemma approve_comp_off_needs_a_role_witness :
  approve_comp_off Scenario.with_flexible_employee Example.monday_noon 4 None
    Example.manager_user
  = (Raise (IntegrityError "schedules.role_id"),
     Scenario.with_flexible_employee).
Proof.
  apply (approve_comp_off_needs_a_role Scenario.with_flexible_employee
           Example.monday_noon 4 None Example.manager_user
           Scenario.flexible_request Example.manager
           Scenario.flexible_employee eq_refl eq_refl eq_refl eq_refl).
Defined.

(** * Hours at check-out *)

Lemma round2_nonneg (x : Q) : (0 <= x)%Q -> (0 <= round2 x)%Q.
Proof.
  intros Hx. unfold round2.
  assert (Hn : 0 <= Qfloor (x * (100 # 1))).
  { change 0 with (Qfloor 0). apply Qfloor_resp_le.
    apply Qmult_le_0_compat; [exact Hx | discriminate]. }
  set (n := Qfloor (x * (100 # 1))) in *.
  destruct (match _ ?= _ with Lt => false | Gt => true | Eq => _ end)%Q;
    unfold Qle; cbn [Qnum Qden]; lia.
Qed.

Lemma round2_monotone (x y : Q) : (x <= y)%Q -> (round2 x <= round2 y)%Q.
Proof.
  intros Hxy. unfold round2.
  assert (Hy : (x * (100 # 1) <= y * (100 # 1))%Q)
    by (apply Qmult_le_compat_r; [exact Hxy | discriminate]).
  set (a := (x * (100 # 1))%Q) in *. set (b := (y * (100 # 1))%Q) in *.
  pose proof (Qfloor_resp_le _ _ Hy) as Hfloor.
  destruct (Z.eq_dec (Qfloor a) (Qfloor b)) as [Heq | Hne].
  - rewrite <- Heq. set (n := Qfloor a) in *.
    assert (Hfrac : (a - (n # 1) <= b - (n # 1))%Q).
    { unfold Qminus. apply Qplus_le_compat; [exact Hy | apply Qle_refl]. }
    destruct (Qcompare_spec (a - (n # 1)) (1 # 2)) as [Ha | Ha | Ha];
      destruct (Qcompare_spec (b - (n # 1)) (1 # 2)) as [Hb | Hb | Hb];
      try (destruct (Z.odd n)); try (unfold Qle; cbn [Qnum Qden]; lia);
      exfalso.
    all: apply (Qlt_irrefl (1 # 2)).
    all: first
      [ rewrite Ha in Hfrac; eapply Qle_lt_trans; eassumption
      | rewrite Hb in Hfrac; eapply Qlt_le_trans; eassumption
      | eapply Qlt_trans; [exact Ha |]; eapply Qle_lt_trans; eassumption ].
  - assert (Hlt : Qfloor a + 1 <= Qfloor b) by lia.
    set (n := Qfloor a) in *. set (m := Qfloor b) in *.
    destruct (match (a - _ ?= _)%Q with Lt => false | Gt => true | Eq => _ end);
      destruct (match (b - _ ?= _)%Q with Lt => false | Gt => true | Eq => _ end);
      unfold Qle; cbn [Qnum Qden]; lia.
Qed.

Lemma Qmin_le_r (a b : Q) : (Qmin a b <= b)%Q.
Proof.
  unfold Qmin. destruct (Qle_bool a b) eqn:H;
    [now apply Qle_bool_iff | apply Qle_refl].
Qed.

Lemma Qmin_nonneg (a b : Q) : (0 <= a)%Q -> (0 <= b)%Q -> (0 <= Qmin a b)%Q.
Proof. intros Ha Hb. unfold Qmin. now destruct (Qle_bool a b). Qed.

Lemma Qlt_bool_lt (a b : Q) : Qlt_bool a b = true -> (a < b)%Q.
Proof.
  unfold Qlt_bool. intros H. apply negb_true_iff in H.
  apply Qnot_le_lt. intros Hle. apply Qle_bool_iff in Hle. congruence.
Qed.

Lemma overtime_over_cap_bounds (worked_hours daily_max_hours request_hours : Q) :
  (0 <= request_hours)%Q ->
  (0 <= overtime_over_cap worked_hours daily_max_hours request_hours)%Q
  /\ (overtime_over_cap worked_hours daily_max_hours request_hours
      <= round2 request_hours)%Q.
Proof.
  intros Hreq. unfold overtime_over_cap.
  destruct (Qlt_bool 0 (worked_hours - daily_max_hours)) eqn:Hover.
  - apply Qlt_bool_lt in Hover. split.
    + apply round2_nonneg, Qmin_nonneg; [now apply Qlt_le_weak | exact Hreq].
    + apply round2_monotone, Qmin_le_r.
  - split; [apply Qle_refl | now apply round2_nonneg].
Qed.

Lemma overtime_in_window_bounds (today : date) (check_out_time : datetime)
    (shift_end_str : option string) (overtime_request : OvertimeRequest.t)
    (worked_hours daily_max_hours h : Q) :
  (0 <= OvertimeRequest.request_hours overtime_request)%Q ->
  overtime_in_window today check_out_time shift_end_str overtime_request
    worked_hours daily_max_hours = Some h ->
  (0 <= h)%Q /\ (h <= round2 (OvertimeRequest.request_hours overtime_request))%Q.
Proof.
  intros Hreq. unfold overtime_in_window.
  destruct shift_end_str as [shift_end_str |]; [| discriminate].
  destruct (time_on today shift_end_str) as [shift_end_time |]; [| discriminate].
  destruct (truthy_str (OvertimeRequest.from_time overtime_request))
    as [ot_start_str |];
    destruct (truthy_str (OvertimeRequest.to_time overtime_request))
      as [ot_end_str |];
    try (intros H; injection H as <-; now apply overtime_over_cap_bounds).
  destruct (time_on today ot_start_str) as [ot_window_start |];
    [| discriminate].
  destruct (time_on today ot_end_str) as [ot_window_end |]; [| discriminate].
  cbv zeta.
  destruct (Z.ltb_spec (Z.max shift_end_time ot_window_start)
              (Z.min check_out_time ot_window_end)) as [Hlt | Hge];
    intros H; injection H as <-.
  - split.
    + apply round2_nonneg, Qmin_nonneg; [| exact Hreq].
      unfold minutes_between, Qdiv, Qmult, Qinv, Qle. cbn. lia.
    + apply round2_monotone, Qmin_le_r.
  - split; [apply Qle_refl | now apply round2_nonneg].
Qed.

(** X12. The hours written at check-out are never negative, whatever the
    clock times are (a check-out before the check-in gives 0 worked
    hours); and when an approved overtime request and a scheduled shift
    exist, the overtime written never exceeds the approved hours, rounded
    to two decimals. *)
Theorem check_out_hours_are_bounded
    (today : date) (check_in_time check_out_time : datetime)
    (schedule : option Schedule.t) (role : option Role.t)
    (overtime_request : option OvertimeRequest.t) (employee : Employee.t)
    (worked_hours overtime_hours : Q) (break_minutes : Z) :
  (forall r, overtime_request = Some r ->
             (0 <= OvertimeRequest.request_hours r)%Q) ->
  calculate_hours today check_in_time check_out_time schedule role
    overtime_request employee
  = (worked_hours, break_minutes, overtime_hours) ->
  (0 <= worked_hours)%Q
  /\ (0 <= overtime_hours)%Q
  /\ (forall r s, overtime_request = Some r -> schedule = Some s ->
        (overtime_hours <= round2 (OvertimeRequest.request_hours r))%Q).
Proof.
  intros Hreq Hcalc. unfold calculate_hours in Hcalc.
  injection Hcalc as Hw _ Ho.
  assert (Hworked : (0 <= worked_hours)%Q).
  { rewrite <- Hw. apply round2_nonneg.
    unfold Qdiv. apply Qmult_le_0_compat; [| discriminate].
    unfold Qmax. destruct (Qle_bool 0 _) eqn:Hle;
      [now apply Qle_bool_iff | apply Qle_refl]. }
  split; [exact Hworked |].
  rewrite Hw in Ho. clear Hw.
  destruct overtime_request as [r |], schedule as [s |].
  - specialize (Hreq r eq_refl).
    assert (Hboth : (0 <= overtime_hours)%Q
                    /\ (overtime_hours
                        <= round2 (OvertimeRequest.request_hours r))%Q).
    { rewrite <- Ho.
      destruct (overtime_in_window today check_out_time (Schedule.end_time s)
                  r worked_hours (Employee.daily_max_hours employee))
        as [h |] eqn:Hwin.
      - eapply overtime_in_window_bounds; eassumption.
      - now apply overtime_over_cap_bounds. }
    destruct Hboth as [Hlow Hhigh]. split; [exact Hlow |].
    intros r' s' Hr' _. injection Hr' as <-. exact Hhigh.
  - split; [| intros ? ? _ ?; discriminate].
    rewrite <- Ho.
    destruct (Qlt_bool (Employee.daily_max_hours employee) worked_hours)
      eqn:Hover; [| apply Qle_refl].
    apply Qlt_bool_lt in Hover. apply round2_nonneg.
    unfold Qminus. rewrite <- Qle_minus_iff. now apply Qlt_le_weak.
  - split; [| intros ? ? ?; discriminate].
    rewrite <- Ho.
    destruct (Qlt_bool (Employee.daily_max_hours employee) worked_hours)
      eqn:Hover; [| apply Qle_refl].
    apply Qlt_bool_lt in Hover. apply round2_nonneg.
    unfold Qminus. rewrite <- Qle_minus_iff. now apply Qlt_le_weak.
  - split; [| intros ? ? ?; discriminate].
    rewrite <- Ho.
    destruct (Qlt_bool (Employee.daily_max_hours employee) worked_hours)
      eqn:Hover; [| apply Qle_refl].
    apply Qlt_bool_lt in Hover. apply round2_nonneg.
    unfold Qminus. rewrite <- Qle_minus_iff. now apply Qlt_le_weak.
Qed.

Lemma check_out_hours_witness :
  (0 <= 833 # 100)%Q /\ (33 # 100 <= round2 (2 # 1))%Q.
Proof.
  destruct (check_out_hours_are_bounded
              Example.monday (combine Example.monday 9 0)
              (combine Example.monday 18 20)
              (Some (Example.row 11 Example.monday "scheduled"))
              (Some Example.role) (Some (Example.overtime_request (2 # 1)))
              Example.employee (833 # 100)%Q (33 # 100)%Q 60
              ltac:(intros r H; injection H as <-; discriminate) eq_refl)
    as [Hworked [_ Hcap]].
  split; [exact Hworked | exact (Hcap _ _ eq_refl eq_refl)].
Defined.

(** * Checking out twice *)

Lemma record_attendance_keeps_check_ins (db db' : Database) (today : date)
    (employee : Employee.t) (check_in : CheckInOut.t) :
  record_attendance_on_check_out db today employee check_in = Ok db' ->
  check_ins db' = check_ins db /\ employees db' = employees db.
Proof.
  unfold record_attendance_on_check_out.
  destruct (scalar_one_or_none (filter _ (attendance db))) as [a |];
    cbn [bind]; [| discriminate].
  destruct a as [a |];
    (destruct (CheckInOut.check_in_time check_in);
     [destruct (CheckInOut.check_out_time check_in);
      [destruct (scalar_one_or_none (filter _ (overtime_requests db)));
       cbn [bind]; [| discriminate] |] |]);
    cbn [bind];
    repeat match goal with
           | |- context [let '(_, _) := ?x in _] => destruct x
           end;
    intros H; injection H as <-; split; reflexivity.
Qed.

Lemma filter_update_row {A : Type} (key : A -> Z) (p : A -> bool) (row : A)
    (rows : list A) :
  p row = false ->
  filter p (update_row key row rows)
  = filter (fun r => negb (key r =? key row) && p r) rows.
Proof.
  intros Hrow. unfold update_row.
  induction rows as [| r rest IH]; cbn; [reflexivity |].
  destruct (key r =? key row); cbn.
  - now rewrite Hrow.
  - now rewrite IH.
Qed.

Lemma filter_and {A : Type} (p q : A -> bool) (rows : list A) :
  filter (fun r => q r && p r) rows = filter q (filter p rows).
Proof.
  induction rows as [| r rest IH]; cbn; [reflexivity |].
  destruct (p r); cbn; rewrite ?andb_true_r, ?andb_false_r;
    [destruct (q r) |]; now rewrite IH.
Qed.

(** X13. A check-out closes the check-in it finds: after a successful
    check-out the returned row carries the check-out time and is stored,
    and any further check-out of the same user for the same day is refused
    with status 400 and leaves the database as it is. *)
Theorem second_check_out_is_refused (db db' : Database) (today : date)
    (now : datetime) (notes : option string) (current_user : User.t)
    (check_in : CheckInOut.t) :
  check_out db today now notes current_user = (Ok check_in, db') ->
  CheckInOut.check_out_time check_in = Some now
  /\ In check_in (check_ins db')
  /\ forall (now' : datetime) (notes' : option string),
       check_out db' today now' notes' current_user
       = (Raise (HTTPException 400 "No active check-in found"), db').
Proof.
  unfold check_out.
  destruct (scalar_one_or_none (filter _ (employees db)))
    as [[employee |] | e] eqn:Hemp; cbn [bind];
    [| discriminate | destruct e; discriminate].
  destruct (scalar_one_or_none (filter _ (check_ins db)))
    as [[found |] | e] eqn:Hfound; cbn [bind];
    [| discriminate | destruct e; discriminate].
  apply scalar_one_or_none_In in Hfound.
  set (closed := {| CheckInOut.id := CheckInOut.id found;
                    CheckInOut.check_out_time := Some now;
                    CheckInOut.notes := notes |}).
  set (db1 := set_check_ins db _).
  assert (Hstored : check_ins db'
                    = update_row CheckInOut.id closed (check_ins db)
                    /\ employees db' = employees db
                    /\ check_in = closed ->
          CheckInOut.check_out_time check_in = Some now
          /\ In check_in (check_ins db')
          /\ forall (now' : datetime) (notes' : option string),
               check_out db' today now' notes' current_user
               = (Raise (HTTPException 400 "No active check-in found"), db')).
  { intros [Hrows [Hemps ->]]. split; [reflexivity |]. split.
    - rewrite Hrows. apply (update_row_In CheckInOut.id found);
        [| reflexivity].
      assert (Hin : In found [found]) by now left.
      rewrite <- Hfound in Hin. apply filter_In in Hin. tauto.
    - intros now' notes'. unfold check_out. rewrite Hemps, Hemp. cbn [bind].
      rewrite Hrows, filter_update_row by (cbn; apply andb_false_r).
      rewrite filter_and, Hfound. cbn [filter CheckInOut.id closed].
      rewrite Z.eqb_refl. reflexivity. }
  destruct (record_attendance_on_check_out db1 today employee closed)
    as [db2 |] eqn:Hatt; intros H; injection H as <- <-; apply Hstored.
  - apply record_attendance_keeps_check_ins in Hatt.
    destruct Hatt as [-> ->]. repeat split.
  - repeat split.
Qed.

Lemma second_check_out_witness :
  check_out
    (snd (check_out (Example.checked_in (2 # 1)) Example.monday
            (combine Example.monday 18 20) None Example.employee_user))
    Example.monday (combine Example.monday 19 0) None Example.employee_user
  = (Raise (HTTPException 400 "No active check-in found"),
     snd (check_out (Example.checked_in (2 # 1)) Example.monday
            (combine Example.monday 18 20) None Example.employee_user)).
Proof.
  apply (second_check_out_is_refused (Example.checked_in (2 # 1)) _
           Example.monday (combine Example.monday 18 20) None
           Example.employee_user
           {| CheckInOut.id := 1; CheckInOut.employee_id := 7;
              CheckInOut.schedule_id := Some 11;
              CheckInOut.date := Example.monday;
              CheckInOut.check_in_time := Some (combine Example.monday 9 0);
              CheckInOut.check_out_time := Some (combine Example.monday 18 20);
              CheckInOut.check_in_status := Some "onTime"%string;
              CheckInOut.notes := None |}).
  vm_compute. reflexivity.
Defined.

(** * Which days a shift runs *)

(** The flag the generator reads for a day: enabled only when the entry
    exists and carries a true ['enabled']. *)
Definition day_enabled (day : string) (config : list (string * option bool))
  : bool :=
  match config_get day config with
  | Some (Some enabled) => enabled
  | _ => false
  end.

Lemma config_get_app_fresh (day x : string) (v : option bool)
    (config : list (string * option bool)) :
  config_get x config = None \/ x <> day ->
  config_get x (config ++ [(day, v)])
  = if String.eqb day x
    then match config_get x config with Some o => Some o | None => Some v end
    else config_get x config.
Proof.
  unfold config_get. intros Hx.
  induction config as [| [k o] rest IH]; cbn.
  - destruct (String.eqb day x); reflexivity.
  - destruct (String.eqb k x) eqn:Hk; cbn.
    + destruct (String.eqb day x); reflexivity.
    + apply IH. destruct Hx as [Hnone | Hne]; [| now right].
      left. cbn in Hnone. now rewrite Hk in Hnone.
Qed.

Lemma config_get_replace_other (day x : string) (v : option bool)
    (config : list (string * option bool)) :
  x <> day ->
  config_get x
    (map (fun kv => if String.eqb (fst kv) day then (day, v) else kv) config)
  = config_get x config.
Proof.
  intros Hx. unfold config_get.
  induction config as [| [k o] rest IH]; cbn; [reflexivity |].
  destruct (String.eqb_spec k day) as [-> | Hk]; cbn.
  - destruct (String.eqb_spec day x) as [<- | _]; [contradiction | exact IH].
  - destruct (String.eqb k x); [reflexivity | exact IH].
Qed.

Lemma config_get_replace_same (day : string) (v o : option bool)
    (config : list (string * option bool)) :
  config_get day config = Some o ->
  config_get day
    (map (fun kv => if String.eqb (fst kv) day then (day, v) else kv) config)
  = Some v.
Proof.
  unfold config_get.
  induction config as [| [k o'] rest IH]; cbn; [discriminate |].
  destruct (String.eqb_spec k day) as [-> | Hk]; cbn.
  - now rewrite String.eqb_refl.
  - destruct (String.eqb_spec k day); [contradiction | exact IH].
Qed.

Lemma day_enabled_config_set (day x : string)
    (config : list (string * option bool)) :
  day_enabled day config = false ->
  day_enabled x (config_set day (Some false) config) = day_enabled x config.
Proof.
  unfold day_enabled, config_set. intros Hday.
  destruct (config_get day config) as [o |] eqn:Hget.
  - destruct (String.eqb_spec x day) as [-> | Hx].
    + rewrite (config_get_replace_same _ _ _ _ Hget), Hget.
      destruct o as [[|] |]; congruence.
    + now rewrite config_get_replace_other.
  - rewrite config_get_app_fresh.
    + destruct (String.eqb_spec day x) as [<- | Hx]; [| reflexivity].
      now rewrite Hget.
    + destruct (String.eqb_spec x day) as [-> | Hx]; [now left | now right].
Qed.

Lemma config_set_not_nil (day : string) (v : option bool)
    (config : list (string * option bool)) :
  config_set day v config <> [].
Proof.
  unfold config_set. destruct (config_get day config) eqn:Hget.
  - destruct config; [discriminate | cbn; discriminate].
  - destruct config; discriminate.
Qed.

Lemma fill_missing_days (days : list string) :
  forall config, config <> [] ->
    let filled :=
      fold_left
        (fun config day =>
           match config_get day config with
           | Some (Some _) => config
           | _ => config_set day (Some false) config
           end) days config in
    filled <> []
    /\ forall x, day_enabled x filled = day_enabled x config.
Proof.
  induction days as [| day rest IH]; cbn; intros config Hne;
    [split; [exact Hne | reflexivity] |].
  destruct (config_get day config) as [[b |] |] eqn:Hget.
  - now apply IH.
  - destruct (IH (config_set day (Some false) config)
                (config_set_not_nil _ _ _)) as [Hfilled Hsame].
    split; [exact Hfilled |]. intros x. rewrite Hsame.
    apply day_enabled_config_set. unfold day_enabled. now rewrite Hget.
  - destruct (IH (config_set day (Some false) config)
                (config_set_not_nil _ _ _)) as [Hfilled Hsame].
    split; [exact Hfilled |]. intros x. rewrite Hsame.
    apply day_enabled_config_set. unfold day_enabled. now rewrite Hget.
Qed.

Lemma strftime_A_is_a_weekday_name (d : date) : In (strftime_A d) weekday_names.
Proof.
  unfold strftime_A. pose proof (weekday_range d) as Hd.
  assert (Hcases : weekday d = 0 \/ weekday d = 1 \/ weekday d = 2
                   \/ weekday d = 3 \/ weekday d = 4 \/ weekday d = 5
                   \/ weekday d = 6) by lia.
  destruct Hcases as [-> | [-> | [-> | [-> | [-> | [-> | ->]]]]]]; cbn; tauto.
Qed.

(** X14. After the generator has completed its configuration, a shift
    stored without any [schedule_config] runs on every day of the week,
    and a shift with one runs exactly on the days its own configuration
    marks as enabled: a day that is missing, or whose entry has no
    ['enabled'] flag, is skipped. *)
Theorem completed_config_runs_the_enabled_days (shift : Shift.t) (d : date) :
  should_skip (ensure_schedule_config shift) (strftime_A d)
  = match Shift.schedule_config shift with
    | None | Some [] => false
    | Some config => negb (day_enabled (strftime_A d) config)
    end.
Proof.
  unfold should_skip, ensure_schedule_config. cbn [Shift.schedule_config].
  assert (Hall : match config_get (strftime_A d) all_days_enabled with
                 | Some (Some is_day_enabled) => negb is_day_enabled
                 | _ => true
                 end = false).
  { pose proof (strftime_A_is_a_weekday_name d) as Hin.
    unfold weekday_names in Hin. cbn [In] in Hin.
    destruct Hin as [<- | [<- | [<- | [<- | [<- | [<- | [<- | []]]]]]]];
      reflexivity. }
  destruct (Shift.schedule_config shift) as [[| entry config] |].
  - exact Hall.
  - destruct (fill_missing_days weekday_names (entry :: config))
      as [Hfilled Hsame]; [discriminate |].
    cbv zeta in Hfilled, Hsame.
    specialize (Hsame (strftime_A d)). unfold day_enabled in Hsame at 1.
    destruct (fold_left _ weekday_names (entry :: config)) as [| e rest];
      [contradiction |].
    rewrite <- Hsame. destruct (config_get _ (e :: rest)) as [[b |] |];
      reflexivity.
  - exact Hall.
Qed.

(** * What the generator writes *)

(** The key on which the generator refuses a second row. *)
Definition booking (r : Schedule.t) : Z * date :=
  (Schedule.employee_id r, Schedule.date r).

(** Whether an approved leave request covers the day, or an approved
    comp-off request names it. *)
Definition on_approved_leave (leaves : list LeaveRequest.t)
    (comp_offs : list CompOffRequest.t) (emp_id : Z) (current_date : date)
  : bool :=
  existsb (fun l => (LeaveRequest.employee_id l =? emp_id)
                    && (LeaveRequest.start_date l <=? current_date)
                    && (current_date <=? LeaveRequest.end_date l)
                    && LeaveStatus_eqb (LeaveRequest.status l) APPROVED)
    leaves
  || existsb (fun c => (CompOffRequest.employee_id c =? emp_id)
                       && (CompOffRequest.comp_off_date c =? current_date)
                       && LeaveStatus_eqb (CompOffRequest.status c) APPROVED)
       comp_offs.

(** A row as the generator writes it for [emp] on [current_date] while
    filling [shift]: a leave row when the employee is on approved leave, a
    scheduled row with the shift's times otherwise. *)
Definition assigned_row (department_id : Z) (current_date : date)
    (shift : Shift.t) (emp : Employee.t) (on_leave : bool) (row : Schedule.t)
  : Prop :=
  Schedule.department_id row = department_id
  /\ Schedule.employee_id row = Employee.id emp
  /\ Schedule.date row = current_date
  /\ Schedule.role_id row = Shift.role_id shift
  /\ Schedule.shift_id row = Some (Shift.id shift)
  /\ if on_leave
     then String.eqb (Schedule.status row) "scheduled" = false
     else Schedule.status row = "scheduled"%string
          /\ Schedule.start_time row = Some (Shift.start_time shift)
          /\ Schedule.end_time row = Some (Shift.end_time shift).

Lemma existsb_first {A : Type} (p : A -> bool) (l : list A) :
  existsb p l = match first (filter p l) with Some _ => true | None => false end.
Proof.
  induction l as [| a rest IH]; cbn; [reflexivity |].
  destruct (p a); cbn; [reflexivity | exact IH].
Qed.

Lemma on_approved_leave_first (leaves : list LeaveRequest.t)
    (comp_offs : list CompOffRequest.t) (emp_id : Z) (current_date : date) :
  on_approved_leave leaves comp_offs emp_id current_date
  = match
      first (filter (fun l => (LeaveRequest.employee_id l =? emp_id)
                              && (LeaveRequest.start_date l <=? current_date)
                              && (current_date <=? LeaveRequest.end_date l)
                              && LeaveStatus_eqb (LeaveRequest.status l) APPROVED)
               leaves),
      first (filter (fun c => (CompOffRequest.employee_id c =? emp_id)
                              && (CompOffRequest.comp_off_date c =? current_date)
                              && LeaveStatus_eqb (CompOffRequest.status c) APPROVED)
               comp_offs)
    with
    | None, None => false
    | _, _ => true
    end.
Proof.
  unfold on_approved_leave. rewrite !existsb_first.
  destruct (first _); destruct (first _); reflexivity.
Qed.

Lemma first_filter_none {A : Type} (p : A -> bool) (l : list A) :
  first (filter p l) = None -> forall x, In x l -> p x = false.
Proof.
  induction l as [| a rest IH]; cbn; intros Hnone x Hx; [contradiction |].
  destruct (p a) eqn:Hp; [discriminate |].
  destruct Hx as [<- | Hx]; [exact Hp | now apply IH].
Qed.

Lemma leave_schedule_of_status (db : Database) (emp_id : Z)
    (current_date : date) (leave_request : option LeaveRequest.t)
    (comp_off_request : option CompOffRequest.t) (status : string)
    (start_time end_time : option string) (notes : string) :
  leave_schedule_of db emp_id current_date leave_request comp_off_request
  = (status, start_time, end_time, notes) ->
  String.eqb status "scheduled" = false.
Proof.
  unfold leave_schedule_of.
  destruct comp_off_request as [c |].
  - destruct (comp_off_earned_times db emp_id current_date).
    intros H. injection H as <- _ _ _. reflexivity.
  - destruct leave_request as [l |];
      repeat match goal with
             | |- (if ?x then _ else _) = _ -> _ => destruct x
             end;
      intros H; injection H as <- _ _ _; reflexivity.
Qed.

Lemma assign_employee_step (jp_calendar : JapaneseCalendar)
    (department_id : Z) (current_date : date) (shift : Shift.t)
    (role : option Role.t) (g g' : generation) (n n' : Z)
    (stopped stopped' : bool) (emp : Employee.t) :
  assign_employee jp_calendar department_id current_date shift role
    (g, n, stopped) emp = Ok (g', n', stopped') ->
  leave_requests (g_db g') = leave_requests (g_db g)
  /\ comp_off_requests (g_db g') = comp_off_requests (g_db g)
  /\ ((schedules (g_db g') = schedules (g_db g)
       /\ g_schedules_created g' = g_schedules_created g
       /\ n' = n /\ stopped' = stopped)
      \/ (stopped = false
          /\ exists row,
               schedules (g_db g') = schedules (g_db g) ++ [row]
               /\ g_schedules_created g' = g_schedules_created g + 1
               /\ assigned_row department_id current_date shift emp
                    (on_approved_leave (leave_requests (g_db g))
                       (comp_off_requests (g_db g)) (Employee.id emp)
                       current_date) row
               /\ (forall s, In s (schedules (g_db g)) ->
                             booking s <> booking row)
               /\ n' = n + (if String.eqb (Schedule.status row) "scheduled"
                            then 1 else 0)
               /\ stopped' = (if String.eqb (Schedule.status row) "scheduled"
                              then Shift.max_emp shift <=? n' else false))).
Proof.
  unfold assign_employee. rewrite on_approved_leave_first.
  destruct stopped.
  { intros H. injection H as <- <- <-. repeat split. left. repeat split. }
  destruct (first (filter _ (schedules (g_db g)))) as [today |] eqn:Htoday.
  - repeat
      match goal with
      | |- (match ?x with _ => _ end) = _ -> _ => destruct x eqn:?
      | |- (if ?x then _ else _) = _ -> _ => destruct x eqn:?
      end;
      intros H; try discriminate; injection H as <- <- <-;
      repeat split; left; repeat split.
  - pose proof (first_filter_none _ _ Htoday) as Hfree. cbv beta in Hfree.
    assert (Hnew : forall row,
               Schedule.employee_id row = Employee.id emp ->
               Schedule.date row = current_date ->
               forall s, In s (schedules (g_db g)) -> booking s <> booking row).
    { intros row Hemp Hdate s Hs Heq. specialize (Hfree s Hs).
      unfold booking in Heq. injection Heq as He Hd.
      rewrite He, Hd, Hemp, Hdate, !Z.eqb_refl in Hfree. discriminate. }
    clear Hfree Htoday.
    repeat
      match goal with
      | |- context [add_schedule ?a ?b ?c ?d ?e ?f ?g ?h ?i ?j] =>
          let Hadd := fresh "Hadd" in
          destruct (add_schedule a b c d e f g h i j) as [[? ?] | ?] eqn:Hadd;
          cbn [bind]
      | |- (match ?x with _ => _ end) = _ -> _ => destruct x eqn:?
      | |- (if ?x then _ else _) = _ -> _ => destruct x eqn:?
      | |- (let '(_, _) := ?x in _) = _ -> _ => destruct x eqn:?
      end;
      intros H; try discriminate; injection H as <- <- <-;
      try match goal with
          | Hadd : add_schedule _ _ _ _ _ _ _ _ _ _ = Ok _ |- _ =>
              unfold add_schedule in Hadd; injection Hadd as <- <-
          end;
      cbn [g_db g_schedules_created leave_requests comp_off_requests
           schedules];
      (split; [reflexivity |]); (split; [reflexivity |]);
      try (left; repeat split; fail);
      right; (split; [reflexivity |]); eexists;
      (split; [reflexivity |]); (split; [reflexivity |]);
      (split; [| split; [apply Hnew; reflexivity |]]).
    all: cbn [Schedule.status Schedule.department_id Schedule.employee_id
              Schedule.date Schedule.role_id Schedule.shift_id
              Schedule.start_time Schedule.end_time].
    all: try match goal with
             | Hleave : leave_schedule_of _ _ _ _ _ = _ |- _ =>
                 apply leave_schedule_of_status in Hleave
             end.
    + unfold assigned_row.
      cbn [Schedule.status Schedule.department_id Schedule.employee_id
           Schedule.date Schedule.role_id Schedule.shift_id].
      repeat split. assumption.
    + match goal with Hs : String.eqb _ _ = false |- _ => rewrite Hs end.
      split; [lia | reflexivity].
    + unfold assigned_row.
      cbn [Schedule.status Schedule.department_id Schedule.employee_id
           Schedule.date Schedule.role_id Schedule.shift_id
           Schedule.start_time Schedule.end_time].
      repeat split.
    + split; reflexivity.
Qed.

Fixpoint total {A : Type} (w : A -> Z) (l : list A) : Z :=
  match l with
  | [] => 0
  | x :: rest => w x + total w rest
  end.

Lemma total_app {A : Type} (w : A -> Z) (l1 l2 : list A) :
  total w (l1 ++ l2) = total w l1 + total w l2.
Proof. induction l1 as [| x rest IH]; cbn; [reflexivity | lia]. Qed.

Lemma total_nonneg {A : Type} (w : A -> Z) (l : list A) :
  (forall x, 0 <= w x) -> 0 <= total w l.
Proof.
  intros Hw. induction l as [| x rest IH]; cbn; [lia |].
  specialize (Hw x). lia.
Qed.

Definition is_scheduled (row : Schedule.t) : Z :=
  if String.eqb (Schedule.status row) "scheduled" then 1 else 0.

(** 1 for a scheduled row of shift [shift_id] on [d], 0 for any other. *)
Definition fills (d : date) (shift_id : Z) (row : Schedule.t) : Z :=
  if (Schedule.date row =? d)
     && match Schedule.shift_id row with
        | Some i => i =? shift_id
        | None => false
        end
  then is_scheduled row else 0.

(** Seats of shift [shift_id] among [shifts]: the generator stops a shift
    after the assignment that reaches [max_emp], so a shift with
    [max_emp] below 1 still takes one employee. *)
Definition seats (shift_id : Z) (shift : Shift.t) : Z :=
  if Shift.id shift =? shift_id then Z.max 1 (Shift.max_emp shift) else 0.

Lemma seats_nonneg (shift_id : Z) (shift : Shift.t) : 0 <= seats shift_id shift.
Proof. unfold seats. destruct (_ =? _); lia. Qed.

(** The invariant of the loop over the eligible employees of one shift. *)
Definition below_cap (max_emp n : Z) (stopped : bool) : Prop :=
  n <= Z.max 1 max_emp /\ (stopped = false -> n = 0 \/ n < max_emp).

Lemma assign_employees_trace (jp_calendar : JapaneseCalendar)
    (department_id : Z) (current_date : date) (shift : Shift.t)
    (role : option Role.t) (emps : list Employee.t) :
  forall (g g' : generation) (n n' : Z) (stopped stopped' : bool),
    foldM (assign_employee jp_calendar department_id current_date shift role)
      (g, n, stopped) emps = Ok (g', n', stopped') ->
    leave_requests (g_db g') = leave_requests (g_db g)
    /\ comp_off_requests (g_db g') = comp_off_requests (g_db g)
    /\ (below_cap (Shift.max_emp shift) n stopped ->
        below_cap (Shift.max_emp shift) n' stopped')
    /\ exists new_rows,
         schedules (g_db g') = schedules (g_db g) ++ new_rows
         /\ g_schedules_created g'
            = g_schedules_created g + Z.of_nat (List.length new_rows)
         /\ Forall
              (fun row =>
                 exists emp,
                   In emp emps
                   /\ assigned_row department_id current_date shift emp
                        (on_approved_leave (leave_requests (g_db g))
                           (comp_off_requests (g_db g)) (Employee.id emp)
                           current_date) row) new_rows
         /\ NoDup (map booking new_rows)
         /\ (forall r s, In r new_rows -> In s (schedules (g_db g)) ->
                         booking s <> booking r)
         /\ n' = n + total is_scheduled new_rows.
Proof.
  induction emps as [| emp rest IH]; cbn [foldM];
    intros g g' n n' stopped stopped' Hrun.
  - injection Hrun as <- <- <-.
    split; [reflexivity |]. split; [reflexivity |]. split; [tauto |].
    exists []. rewrite app_nil_r. cbn.
    repeat split; try constructor; try lia; try (intros r s []).
  - destruct (assign_employee jp_calendar department_id current_date shift
                role (g, n, stopped) emp) as [[[g1 n1] stopped1] |] eqn:Hstep;
      cbn [bind] in Hrun; [| discriminate].
    apply assign_employee_step in Hstep.
    destruct Hstep as [Hleave [Hcomp Hstep]].
    apply IH in Hrun.
    destruct Hrun as [Hleave' [Hcomp' [Hcap [new_rows Hnew]]]].
    destruct Hnew as [Hrows [Hcreated [Hall [Hnodup [Hfresh Hcount]]]]].
    rewrite Hleave, Hcomp in *.
    split; [exact Hleave' |]. split; [exact Hcomp' |].
    destruct Hstep as [[Hsame [Hcr [-> ->]]] | [-> [row Hrow]]].
    + split; [exact Hcap |]. exists new_rows.
      rewrite Hsame, Hcr in *. repeat split; try assumption.
      eapply Forall_impl; [| exact Hall]. cbv beta.
      intros r [e [He Hr]]. exists e. split; [now right | exact Hr].
    + destruct Hrow as [Hsched [Hcr [Hrow [Hfree [-> ->]]]]].
      split.
      { intros Hinv. apply Hcap. clear - Hinv. unfold below_cap in *.
        destruct Hinv as [Hle Hopen]. specialize (Hopen eq_refl).
        destruct (String.eqb (Schedule.status row) "scheduled").
        - split; [lia |]. intros Hst. apply Z.leb_gt in Hst. lia.
        - rewrite Z.add_0_r. split; [lia | intros _; exact Hopen]. }
      exists (row :: new_rows). rewrite Hsched in *.
      repeat split.
      * rewrite Hrows, <- app_assoc. reflexivity.
      * rewrite Hcreated, Hcr. cbn [List.length]. lia.
      * constructor.
        -- exists emp. split; [now left | exact Hrow].
        -- eapply Forall_impl; [| exact Hall]. cbv beta.
           intros r [e [He Hr]]. exists e. split; [now right | exact Hr].
      * cbn [map]. constructor; [| exact Hnodup].
        intros Hin. apply in_map_iff in Hin. destruct Hin as [r [Heq Hin]].
        apply (Hfresh r row Hin); [apply in_or_app; right; now left |].
        now symmetry.
      * intros r s [<- | Hin] Hs; [now apply Hfree |].
        apply (Hfresh r s Hin). apply in_or_app. now left.
      * cbn [total]. unfold is_scheduled at 1. lia.
Qed.

Section Generation.

Variable jp_calendar : JapaneseCalendar.
Variable department_id : Z.
Variables start_date end_date : date.
Variable shifts : list Shift.t.
Variable employees : list Employee.t.
Variable leaves : list LeaveRequest.t.
Variable comp_offs : list CompOffRequest.t.

(** The day and the shift whose seats are counted. *)
Variable seat_date : date.
Variable seat_shift : Z.

(** What holds of every row the generator adds. *)
Definition generated_row (row : Schedule.t) : Prop :=
  exists shift emp,
    In shift shifts /\ In emp employees
    /\ start_date <= Schedule.date row <= end_date
    /\ is_holiday jp_calendar (Schedule.date row) = false
    /\ should_skip shift (strftime_A (Schedule.date row)) = false
    /\ (Employee.role_id emp = None
        \/ Employee.role_id emp = Some (Shift.role_id shift))
    /\ assigned_row department_id (Schedule.date row) shift emp
         (on_approved_leave leaves comp_offs (Employee.id emp)
            (Schedule.date row)) row.

(** From [g] to [g'] the generator has appended generated rows only, each
    for a free (employee, date), and counted them. *)
Definition grows (bound : Z) (g g' : generation) : Prop :=
  leave_requests (g_db g') = leave_requests (g_db g)
  /\ comp_off_requests (g_db g') = comp_off_requests (g_db g)
  /\ exists new_rows,
       schedules (g_db g') = schedules (g_db g) ++ new_rows
       /\ g_schedules_created g'
          = g_schedules_created g + Z.of_nat (List.length new_rows)
       /\ Forall generated_row new_rows
       /\ NoDup (map booking new_rows)
       /\ (forall r s, In r new_rows -> In s (schedules (g_db g)) ->
                       booking s <> booking r)
       /\ total (fills seat_date seat_shift) new_rows <= bound.

Lemma grows_refl (bound : Z) (g : generation) : 0 <= bound -> grows bound g g.
Proof.
  intros Hb. split; [reflexivity |]. split; [reflexivity |].
  exists []. rewrite app_nil_r. cbn.
  repeat split; try constructor; try lia; try (intros r s []).
Qed.

Lemma grows_trans (b1 b2 : Z) (g1 g2 g3 : generation) :
  grows b1 g1 g2 -> grows b2 g2 g3 -> grows (b1 + b2) g1 g3.
Proof.
  intros [L1 [C1 [n1 [R1 [K1 [Q1 [D1 [F1 B1]]]]]]]]
         [L2 [C2 [n2 [R2 [K2 [Q2 [D2 [F2 B2]]]]]]]].
  split; [congruence |]. split; [congruence |].
  exists (n1 ++ n2). repeat split.
  - rewrite R2, R1, app_assoc. reflexivity.
  - rewrite K2, K1, length_app. lia.
  - apply Forall_app. now split.
  - rewrite map_app. apply NoDup_app; try assumption.
    intros k Hk1 Hk2. apply in_map_iff in Hk1, Hk2.
    destruct Hk1 as [r1 [<- Hr1]]. destruct Hk2 as [r2 [Heq Hr2]].
    apply (F2 r2 r1 Hr2); [| now symmetry].
    rewrite R1. apply in_or_app. now right.
  - intros r s Hr Hs. apply in_app_or in Hr. destruct Hr as [Hr | Hr].
    + now apply F1.
    + apply F2; [exact Hr |]. rewrite R1. apply in_or_app. now left.
  - rewrite total_app. lia.
Qed.

Lemma foldM_grows {A S : Type} (view : S -> generation) (bound : A -> Z)
    (f : S -> A -> result S) (l : list A) :
  (forall x, 0 <= bound x) ->
  (forall s x s', In x l -> f s x = Ok s' ->
                  leave_requests (g_db (view s)) = leaves ->
                  comp_off_requests (g_db (view s)) = comp_offs ->
                  grows (bound x) (view s) (view s')) ->
  forall s s',
    leave_requests (g_db (view s)) = leaves ->
    comp_off_requests (g_db (view s)) = comp_offs ->
    foldM f s l = Ok s' -> grows (total bound l) (view s) (view s').
Proof.
  intros Hbound. induction l as [| x rest IH]; cbn [foldM total];
    intros Hstep s s' Hl Hc Hrun.
  - injection Hrun as <-. apply grows_refl. lia.
  - destruct (f s x) as [s1 |] eqn:Hf; cbn [bind] in Hrun; [| discriminate].
    pose proof (Hstep s x s1 (or_introl eq_refl) Hf Hl Hc) as Hfirst.
    eapply grows_trans; [exact Hfirst |].
    destruct Hfirst as [L1 [C1 _]].
    apply IH; try congruence.
    intros s2 y s3 Hy. apply Hstep. now right.
Qed.

Lemma assign_shift_grows (current_date : date) (active_roles : list Role.t)
    (g g' : generation) (shift : Shift.t) :
  In shift shifts ->
  start_date <= current_date <= end_date ->
  is_holiday jp_calendar current_date = false ->
  assign_shift jp_calendar department_id current_date active_roles employees
    g shift = Ok g' ->
  leave_requests (g_db g) = leaves ->
  comp_off_requests (g_db g) = comp_offs ->
  grows (if current_date =? seat_date then seats seat_shift shift else 0)
    g g'.
Proof.
  intros Hshift Hrange Hholiday Hrun Hl Hc. unfold assign_shift in Hrun.
  assert (Hbound : 0 <= (if current_date =? seat_date
                         then seats seat_shift shift else 0)).
  { pose proof (seats_nonneg seat_shift shift). destruct (_ =? _); lia. }
  destruct (should_skip shift (strftime_A current_date)) eqn:Hskip.
  { injection Hrun as <-. now apply grows_refl. }
  destruct (foldM _ _ _) as [[[g1 n1] stopped1] |] eqn:Hloop;
    cbn [bind] in Hrun; [| discriminate].
  apply assign_employees_trace in Hloop.
  destruct Hloop as [Hleave [Hcomp [Hcap [new_rows Hnew]]]].
  destruct Hnew as [Hrows [Hcreated [Hall [Hnodup [Hfresh Hcount]]]]].
  assert (Hg1 : grows (if current_date =? seat_date
                       then seats seat_shift shift else 0) g g1).
  { split; [exact Hleave |]. split; [exact Hcomp |].
    exists new_rows. repeat split; try assumption.
    - rewrite Forall_forall in *. intros row Hrow.
      destruct (Hall row Hrow) as [emp [Hemp Hassigned]].
      apply filter_In in Hemp. destruct Hemp as [Hemp Heligible].
      pose proof Hassigned as [_ [_ [Hdate _]]].
      exists shift, emp. rewrite Hdate, <- Hl, <- Hc.
      split; [exact Hshift |]. split; [exact Hemp |].
      split; [exact Hrange |]. split; [exact Hholiday |].
      split; [exact Hskip |]. split; [| exact Hassigned].
      destruct (Employee.role_id emp) as [r |]; [| now left].
      right. apply Z.eqb_eq in Heligible. now subst.
    - assert (Hcapped : total is_scheduled new_rows
                        <= Z.max 1 (Shift.max_emp shift)).
      { destruct Hcap as [Hle _]; [| lia].
        split; [lia | intros _; now left]. }
      assert (Hfills : total (fills seat_date seat_shift) new_rows
                       <= (if (current_date =? seat_date)
                              && (Shift.id shift =? seat_shift)
                           then total is_scheduled new_rows else 0)).
      { clear - Hall. induction new_rows as [| row rest IH]; cbn [total].
        - destruct (_ && _); lia.
        - inversion Hall as [| ? ? [emp [_ Hrow]] Hrest]; subst.
          specialize (IH Hrest).
          destruct Hrow as [_ [_ [Hdate [_ [Hsid _]]]]].
          unfold fills at 1. rewrite Hdate, Hsid.
          destruct ((current_date =? seat_date)
                    && (Shift.id shift =? seat_shift)); [lia |].
          assert (0 <= total is_scheduled rest)
            by (apply total_nonneg; intros x; unfold is_scheduled;
                destruct (String.eqb _ _); lia).
          lia. }
      unfold seats. destruct (current_date =? seat_date);
        destruct (Shift.id shift =? seat_shift); cbn [andb] in Hfills; lia. }
  destruct (n1 <? Shift.min_emp shift); injection Hrun as <-; exact Hg1.
Qed.

Lemma assign_day_grows (active_roles : list Role.t) (g g' : generation)
    (current_date : date) :
  start_date <= current_date <= end_date ->
  assign_day jp_calendar department_id active_roles shifts employees g
    current_date = Ok g' ->
  leave_requests (g_db g) = leaves ->
  comp_off_requests (g_db g) = comp_offs ->
  grows (if current_date =? seat_date then total (seats seat_shift) shifts
         else 0) g g'.
Proof.
  intros Hrange Hrun Hl Hc. unfold assign_day in Hrun.
  destruct (is_holiday jp_calendar current_date) eqn:Hholiday.
  - injection Hrun as <-. apply grows_refl.
    pose proof (total_nonneg (seats seat_shift) shifts (seats_nonneg _)).
    destruct (_ =? _); lia.
  - apply (foldM_grows (fun g => g)
             (fun shift => if current_date =? seat_date
                           then seats seat_shift shift else 0))
      in Hrun; try assumption.
    + replace (if current_date =? seat_date
               then total (seats seat_shift) shifts else 0)
        with (total (fun shift => if current_date =? seat_date
                                  then seats seat_shift shift else 0) shifts);
        [exact Hrun |].
      clear. induction shifts as [| s rest IH]; cbn [total];
        [now destruct (_ =? _) |].
      rewrite IH. destruct (_ =? _); lia.
    + intros s. pose proof (seats_nonneg seat_shift s).
      destruct (_ =? _); lia.
    + intros g1 shift g2 Hshift Hstep Hl1 Hc1.
      now apply (assign_shift_grows current_date active_roles).
Qed.

Lemma total_at_one_date (days : list date) (c : Z) :
  0 <= c -> NoDup days ->
  total (fun d => if d =? seat_date then c else 0) days <= c.
Proof.
  intros Hc. induction days as [| d rest IH]; cbn [total]; intros Hnd;
    [lia |].
  inversion Hnd as [| ? ? Hd Hrest]; subst. specialize (IH Hrest).
  destruct (Z.eqb_spec d seat_date) as [-> | Hne]; [| lia].
  assert (Hzero : total (fun d => if d =? seat_date then c else 0) rest = 0).
  { clear - Hd. induction rest as [| x rest IH]; cbn [total]; [reflexivity |].
    destruct (Z.eqb_spec x seat_date) as [-> | _];
      [exfalso; apply Hd; now left |].
    rewrite IH; [reflexivity |]. intros Hin. apply Hd. now right. }
  lia.
Qed.

Lemma assign_days_grow (active_roles : list Role.t) (g g' : generation) :
  foldM (assign_day jp_calendar department_id active_roles shifts employees)
    g (dates_between start_date end_date) = Ok g' ->
  leave_requests (g_db g) = leaves ->
  comp_off_requests (g_db g) = comp_offs ->
  grows (total (seats seat_shift) shifts) g g'.
Proof.
  intros Hrun Hl Hc.
  pose proof (total_nonneg (seats seat_shift) shifts (seats_nonneg _)) as Hs.
  apply (foldM_grows (fun g => g)
           (fun d => if d =? seat_date then total (seats seat_shift) shifts
                     else 0)) in Hrun; try assumption.
  - destruct Hrun as [L [C [new_rows [R [K [Q [D [F B]]]]]]]].
    split; [exact L |]. split; [exact C |]. exists new_rows.
    repeat split; try assumption.
    eapply Z.le_trans; [exact B |].
    apply total_at_one_date; [exact Hs | apply NoDup_dates_between].
  - intros d. destruct (_ =? _); lia.
  - intros g1 d g2 Hd Hstep Hl1 Hc1.
    apply In_dates_between in Hd.
    now apply (assign_day_grows active_roles).
Qed.

End Generation.

(** The rows and tables the loops of the generator run over. *)
Definition active_roles_of (db : Database) (department_id : Z) : list Role.t :=
  filter (fun r => (Role.department_id r =? department_id)
                   && Role.is_active r) (roles db).

Definition shifts_of (db : Database) (department_id : Z) : list Shift.t :=
  map ensure_schedule_config
    (filter (fun s => existsb (Z.eqb (Shift.role_id s))
                        (map Role.id (active_roles_of db department_id))
                      && Shift.is_active s) (shifts db)).

Definition employees_of (db : Database) (department_id : Z)
  : list Employee.t :=
  filter (fun e => (Employee.department_id e =? department_id)
                   && Employee.is_active e) (employees db).

Definition started (db : Database) (created : Z) : generation :=
  {| g_db := db; g_schedules_created := created; g_feedback := [];
     g_overtime_warnings := [] |}.

Lemma generate_body_grows (jp_calendar : JapaneseCalendar) (db db' : Database)
    (department_id : Z) (start_date end_date seat_date : date)
    (seat_shift : Z) (response : generate_response) :
  generate_body jp_calendar db department_id start_date end_date
  = Ok (response, db') ->
  grows jp_calendar department_id start_date end_date
    (shifts_of db department_id) (employees_of db department_id)
    (leave_requests db) (comp_off_requests db) seat_date seat_shift
    (total (seats seat_shift) (shifts_of db department_id))
    (started db 0) (started db' (schedules_created response)).
Proof.
  unfold generate_body, shifts_of, employees_of, active_roles_of.
  assert (Hidle : forall shifts employees,
             grows jp_calendar department_id start_date end_date shifts
               employees (leave_requests db) (comp_off_requests db)
               seat_date seat_shift (total (seats seat_shift) shifts)
               (started db 0) (started db 0)).
  { intros. apply grows_refl. apply total_nonneg. apply seats_nonneg. }
  destruct (filter _ (roles db)) as [| r0 rs].
  { intros H. injection H as <- <-. apply Hidle. }
  destruct (map ensure_schedule_config _) as [| s0 ss].
  { intros H. injection H as <- <-. apply Hidle. }
  destruct (filter _ (employees db)) as [| e0 es].
  { intros H. injection H as <- <-. apply Hidle. }
  destruct (foldM _ _ _) as [g |] eqn:Hloop; cbn [bind]; [| discriminate].
  intros H. injection H as <- <-. cbn [schedules_created].
  apply (assign_days_grow jp_calendar department_id start_date end_date
           (s0 :: ss) (e0 :: es) (leave_requests db) (comp_off_requests db)
           seat_date seat_shift) in Hloop; try reflexivity.
  exact Hloop.
Qed.

Lemma detached_request_is_the_same_request (ids : list Z)
    (comp_offs : list CompOffRequest.t) (emp_id : Z) (d : date)
    (leaves : list LeaveRequest.t) :
  on_approved_leave leaves (map (detach_comp_off_request ids) comp_offs)
    emp_id d
  = on_approved_leave leaves comp_offs emp_id d.
Proof.
  unfold on_approved_leave. f_equal.
  induction comp_offs as [| c rest IH]; cbn [map existsb]; [reflexivity |].
  rewrite IH. f_equal. unfold detach_comp_off_request.
  destruct (references ids (CompOffRequest.schedule_id c)); reflexivity.
Qed.

(** What a run of the generator that was not held for confirmation leaves
    behind: the rows it kept, then the rows it generated. *)
Lemma generate_schedules_trace (jp_calendar : JapaneseCalendar)
    (db db' : Database) (start_date end_date : date) (regenerate : bool)
    (current_user : User.t) (department_id : Z) (response : generate_response)
    (seat_date : date) (seat_shift : Z) :
  get_manager_department db current_user = Ok (Some department_id) ->
  generate_schedules jp_calendar db start_date end_date regenerate current_user
  = (Ok response, db') ->
  requires_confirmation response = false ->
  exists new_rows,
    schedules db'
    = filter (fun s => negb (regenerated department_id start_date end_date s))
        (schedules db) ++ new_rows
    /\ schedules_created response = Z.of_nat (List.length new_rows)
    /\ Forall
         (generated_row jp_calendar department_id start_date end_date
            (shifts_of db department_id) (employees_of db department_id)
            (leave_requests db) (comp_off_requests db)) new_rows
    /\ NoDup (map booking new_rows)
    /\ (forall r s,
          In r new_rows ->
          In s (filter (fun s => negb (regenerated department_id start_date
                                         end_date s)) (schedules db)) ->
          booking s <> booking r)
    /\ total (fills seat_date seat_shift) new_rows
       <= total (seats seat_shift) (shifts_of db department_id).
Proof.
  intros Hdept Hrun Hconfirmed. unfold generate_schedules in Hrun.
  rewrite Hdept in Hrun. unfold truthy_id in Hrun.
  destruct (department_id =? 0); [discriminate |].
  destruct (filter (in_department_range department_id start_date end_date)
              (schedules db)) as [| s0 rest] eqn:Hexisting.
  - assert (Hkept : filter (fun s => negb (regenerated department_id
                                             start_date end_date s))
                      (schedules db) = schedules db).
    { apply filter_all. intros s Hs.
      now rewrite (regenerated_none _ _ _ _ Hexisting s Hs). }
    rewrite Hkept.
    assert (Hbody : exists response0,
               generate_body jp_calendar db department_id start_date end_date
               = Ok (response0, db') /\ response = response0).
    { destruct regenerate;
        destruct (generate_body jp_calendar db department_id start_date
                    end_date) as [[response0 db0] | e];
        try (destruct e; discriminate);
        injection Hrun as <- <-; now eexists. }
    destruct Hbody as [response0 [Hbody <-]].
    apply (generate_body_grows _ _ _ _ _ _ seat_date seat_shift) in Hbody.
    destruct Hbody as [_ [_ [new_rows Hnew]]]. exists new_rows. exact Hnew.
  - destruct regenerate.
    + set (cleared := clear_generated db department_id start_date end_date)
        in Hrun.
      destruct (generate_body jp_calendar cleared department_id start_date
                  end_date) as [[response0 db0] | e] eqn:Hbody;
        [| destruct e; discriminate].
      injection Hrun as <- <-.
      apply (generate_body_grows _ _ _ _ _ _ seat_date seat_shift) in Hbody.
      destruct Hbody as [_ [_ [new_rows Hnew]]]. exists new_rows.
      destruct Hnew as [R [K [Q [D [F B]]]]].
      split; [exact R |]. split; [exact K |]. split; [| now repeat split].
      eapply Forall_impl; [| exact Q]. intros row [shift [emp Hrow]].
      exists shift, emp.
      cbn [started g_db cleared clear_generated leave_requests
           comp_off_requests] in Hrow.
      rewrite detached_request_is_the_same_request in Hrow. exact Hrow.
    + injection Hrun as <- _. discriminate.
Qed.

Lemma generated_row_unpacked (jp_calendar : JapaneseCalendar) (db : Database)
    (department_id : Z) (start_date end_date : date) (row : Schedule.t) :
  generated_row jp_calendar department_id start_date end_date
    (shifts_of db department_id) (employees_of db department_id)
    (leave_requests db) (comp_off_requests db) row ->
  exists shift role emp,
    (In shift (shifts db) /\ Shift.is_active shift = true
     /\ In role (roles db) /\ Role.id role = Shift.role_id shift
     /\ Role.department_id role = department_id /\ Role.is_active role = true)
    /\ (In emp (employees db) /\ Employee.department_id emp = department_id
        /\ Employee.is_active emp = true
        /\ (Employee.role_id emp = None
            \/ Employee.role_id emp = Some (Shift.role_id shift)))
    /\ start_date <= Schedule.date row <= end_date
    /\ is_holiday jp_calendar (Schedule.date row) = false
    /\ should_skip (ensure_schedule_config shift)
         (strftime_A (Schedule.date row)) = false
    /\ assigned_row department_id (Schedule.date row) shift emp
         (on_approved_leave (leave_requests db) (comp_off_requests db)
            (Employee.id emp) (Schedule.date row)) row.
Proof.
  intros [shift' [emp [Hshift [Hemp [Hrange [Hholiday [Hskip [Hrole Hrow]]]]]]]].
  unfold shifts_of in Hshift. apply in_map_iff in Hshift.
  destruct Hshift as [shift [<- Hshift]].
  apply filter_In in Hshift. destruct Hshift as [Hshift Hselected].
  apply andb_true_iff in Hselected. destruct Hselected as [Hactive_role Hactive].
  apply existsb_exists in Hactive_role.
  destruct Hactive_role as [role_id [Hrole_id Heq]].
  apply Z.eqb_eq in Heq. apply in_map_iff in Hrole_id.
  destruct Hrole_id as [role [Hid Hin_role]]. unfold active_roles_of in Hin_role.
  apply filter_In in Hin_role. destruct Hin_role as [Hin_role Hrole_ok].
  apply andb_true_iff in Hrole_ok. destruct Hrole_ok as [Hrole_dept Hrole_active].
  apply Z.eqb_eq in Hrole_dept.
  unfold employees_of in Hemp. apply filter_In in Hemp.
  destruct Hemp as [Hemp Hemp_ok]. apply andb_true_iff in Hemp_ok.
  destruct Hemp_ok as [Hemp_dept Hemp_active]. apply Z.eqb_eq in Hemp_dept.
  exists shift, role, emp.
  split; [repeat split; try assumption; congruence |].
  split; [repeat split; assumption |].
  split; [exact Hrange |]. split; [exact Hholiday |]. split; [exact Hskip |].
  exact Hrow.
Qed.

(** The rows a run leaves in place: all but the department's [scheduled]
    and [comp_off_taken] rows of the range. *)
Definition kept_rows (db : Database) (department_id : Z)
    (start_date end_date : date) : list Schedule.t :=
  filter (fun s => negb (regenerated department_id start_date end_date s))
    (schedules db).

(** Two days of generation for the department of two employees. *)
Module Run.

Definition outcome : result generate_response * Database :=
  generate_schedules Example.no_holidays Scenario.with_flexible_employee
    Example.monday (Example.monday + 1) false Example.manager_user.

Definition response : generate_response :=
  match fst outcome with
  | Ok response => response
  | Raise _ => empty_response []
  end.

Definition after : Database := snd outcome.

Lemma ran :
  generate_schedules Example.no_holidays Scenario.with_flexible_employee
    Example.monday (Example.monday + 1) false Example.manager_user
  = (Ok response, after).
Proof. vm_compute. reflexivity. Qed.

End Run.

(** X15. The count a generation reports is the number of Schedule rows it
    appended, the leave and comp-off rows it writes for employees on
    approved leave included; what precedes them are the kept rows, in
    their order. *)
Theorem generation_reports_the_rows_it_added (jp_calendar : JapaneseCalendar)
    (db db' : Database) (start_date end_date : date) (regenerate : bool)
    (current_user : User.t) (department_id : Z)
    (response : generate_response) :
  get_manager_department db current_user = Ok (Some department_id) ->
  generate_schedules jp_calendar db start_date end_date regenerate current_user
  = (Ok response, db') ->
  requires_confirmation response = false ->
  exists new_rows,
    schedules db' = kept_rows db department_id start_date end_date ++ new_rows
    /\ schedules_created response = Z.of_nat (List.length new_rows).
Proof.
  intros Hdept Hrun Hconfirmed.
  destruct (generate_schedules_trace _ _ _ _ _ _ _ _ _ 0 0 Hdept Hrun
              Hconfirmed) as [new_rows [Hrows [Hcount _]]].
  exists new_rows. now split.
Qed.

Lemma generation_reports_witness :
  exists new_rows,
    schedules Run.after
    = kept_rows Scenario.with_flexible_employee 1 Example.monday
        (Example.monday + 1) ++ new_rows
    /\ schedules_created Run.response = Z.of_nat (List.length new_rows).
Proof.
  apply (generation_reports_the_rows_it_added Example.no_holidays
           Scenario.with_flexible_employee Run.after Example.monday
           (Example.monday + 1) false Example.manager_user 1 Run.response
           eq_refl Run.ran eq_refl).
Defined.

(** X16. Every row a generation adds lies in the manager's department, on
    a date of the requested range that is not a public holiday, and fills
    an active shift of an active role of the department on a day the
    shift's completed configuration enables; it carries that shift's id
    and role. *)
Theorem generated_rows_fill_enabled_shifts (jp_calendar : JapaneseCalendar)
    (db db' : Database) (start_date end_date : date) (regenerate : bool)
    (current_user : User.t) (department_id : Z)
    (response : generate_response) :
  get_manager_department db current_user = Ok (Some department_id) ->
  generate_schedules jp_calendar db start_date end_date regenerate current_user
  = (Ok response, db') ->
  requires_confirmation response = false ->
  exists new_rows,
    schedules db' = kept_rows db department_id start_date end_date ++ new_rows
    /\ forall row, In row new_rows ->
         Schedule.department_id row = department_id
         /\ start_date <= Schedule.date row <= end_date
         /\ is_holiday jp_calendar (Schedule.date row) = false
         /\ exists shift role,
              In shift (shifts db) /\ Shift.is_active shift = true
              /\ Schedule.shift_id row = Some (Shift.id shift)
              /\ Schedule.role_id row = Shift.role_id shift
              /\ should_skip (ensure_schedule_config shift)
                   (strftime_A (Schedule.date row)) = false
              /\ In role (roles db) /\ Role.id role = Shift.role_id shift
              /\ Role.department_id role = department_id
              /\ Role.is_active role = true.
Proof.
  intros Hdept Hrun Hconfirmed.
  destruct (generate_schedules_trace _ _ _ _ _ _ _ _ _ 0 0 Hdept Hrun
              Hconfirmed) as [new_rows [Hrows [_ [Hall _]]]].
  exists new_rows. split; [exact Hrows |]. intros row Hrow.
  rewrite Forall_forall in Hall.
  destruct (generated_row_unpacked _ _ _ _ _ _ (Hall row Hrow))
    as [shift [role [emp [Hs [_ [Hrange [Hholiday [Hskip Hassigned]]]]]]]].
  destruct Hs as [Hshift [Hactive [Hrole [Hid [Hrole_dept Hrole_active]]]]].
  destruct Hassigned as [Hd [_ [_ [Hrole_id [Hshift_id _]]]]].
  split; [exact Hd |]. split; [exact Hrange |]. split; [exact Hholiday |].
  exists shift, role. cbn [Shift.id Shift.role_id ensure_schedule_config]
    in Hshift_id, Hrole_id.
  repeat split; assumption.
Qed.

Lemma generated_rows_fill_witness :
  exists new_rows,
    schedules Run.after
    = kept_rows Scenario.with_flexible_employee 1 Example.monday
        (Example.monday + 1) ++ new_rows
    /\ forall row, In row new_rows ->
         Schedule.department_id row = 1
         /\ Example.monday <= Schedule.date row <= Example.monday + 1
         /\ is_holiday Example.no_holidays (Schedule.date row) = false
         /\ exists shift role,
              In shift (shifts Scenario.with_flexible_employee)
              /\ Shift.is_active shift = true
              /\ Schedule.shift_id row = Some (Shift.id shift)
              /\ Schedule.role_id row = Shift.role_id shift
              /\ should_skip (ensure_schedule_config shift)
                   (strftime_A (Schedule.date row)) = false
              /\ In role (roles Scenario.with_flexible_employee)
              /\ Role.id role = Shift.role_id shift
              /\ Role.department_id role = 1
              /\ Role.is_active role = true.
Proof.
  apply (generated_rows_fill_enabled_shifts Example.no_holidays
           Scenario.with_flexible_employee Run.after Example.monday
           (Example.monday + 1) false Example.manager_user 1 Run.response
           eq_refl Run.ran eq_refl).
Defined.

(** X17. Every row a generation adds belongs to an active employee of the
    manager's department whose role is the role of the shift the row
    fills, or who has no role at all. *)
Theorem generated_rows_go_to_eligible_employees
    (jp_calendar : JapaneseCalendar)
    (db db' : Database) (start_date end_date : date) (regenerate : bool)
    (current_user : User.t) (department_id : Z)
    (response : generate_response) :
  get_manager_department db current_user = Ok (Some department_id) ->
  generate_schedules jp_calendar db start_date end_date regenerate current_user
  = (Ok response, db') ->
  requires_confirmation response = false ->
  exists new_rows,
    schedules db' = kept_rows db department_id start_date end_date ++ new_rows
    /\ forall row, In row new_rows ->
         exists emp,
           In emp (employees db)
           /\ Schedule.employee_id row = Employee.id emp
           /\ Employee.department_id emp = department_id
           /\ Employee.is_active emp = true
           /\ (Employee.role_id emp = None
               \/ Employee.role_id emp = Some (Schedule.role_id row)).
Proof.
  intros Hdept Hrun Hconfirmed.
  destruct (generate_schedules_trace _ _ _ _ _ _ _ _ _ 0 0 Hdept Hrun
              Hconfirmed) as [new_rows [Hrows [_ [Hall _]]]].
  exists new_rows. split; [exact Hrows |]. intros row Hrow.
  rewrite Forall_forall in Hall.
  destruct (generated_row_unpacked _ _ _ _ _ _ (Hall row Hrow))
    as [shift [role [emp [_ [He [_ [_ [_ Hassigned]]]]]]]].
  destruct He as [Hemp [Hemp_dept [Hemp_active Heligible]]].
  destruct Hassigned as [_ [Hemp_id [_ [Hrole_id _]]]].
  cbn [Shift.role_id ensure_schedule_config] in Hrole_id.
  exists emp. rewrite Hrole_id. repeat split; assumption.
Qed.

Lemma generated_rows_eligible_witness :
  exists new_rows,
    schedules Run.after
    = kept_rows Scenario.with_flexible_employee 1 Example.monday
        (Example.monday + 1) ++ new_rows
    /\ forall row, In row new_rows ->
         exists emp,
           In emp (employees Scenario.with_flexible_employee)
           /\ Schedule.employee_id row = Employee.id emp
           /\ Employee.department_id emp = 1
           /\ Employee.is_active emp = true
           /\ (Employee.role_id emp = None
               \/ Employee.role_id emp = Some (Schedule.role_id row)).
Proof.
  apply (generated_rows_go_to_eligible_employees Example.no_holidays
           Scenario.with_flexible_employee Run.after Example.monday
           (Example.monday + 1) false Example.manager_user 1 Run.response
           eq_refl Run.ran eq_refl).
Defined.

(** X18. The generator never plans work on approved leave: a row it adds
    has status [scheduled] exactly when its employee has, on that date,
    no approved leave request covering it and no approved comp-off request
    naming it; otherwise the row is a leave or comp-off row. *)
Theorem generated_work_avoids_approved_leave (jp_calendar : JapaneseCalendar)
    (db db' : Database) (start_date end_date : date) (regenerate : bool)
    (current_user : User.t) (department_id : Z)
    (response : generate_response) :
  get_manager_department db current_user = Ok (Some department_id) ->
  generate_schedules jp_calendar db start_date end_date regenerate current_user
  = (Ok response, db') ->
  requires_confirmation response = false ->
  exists new_rows,
    schedules db' = kept_rows db department_id start_date end_date ++ new_rows
    /\ forall row, In row new_rows ->
         String.eqb (Schedule.status row) "scheduled"
         = negb (on_approved_leave (leave_requests db) (comp_off_requests db)
                   (Schedule.employee_id row) (Schedule.date row)).
Proof.
  intros Hdept Hrun Hconfirmed.
  destruct (generate_schedules_trace _ _ _ _ _ _ _ _ _ 0 0 Hdept Hrun
              Hconfirmed) as [new_rows [Hrows [_ [Hall _]]]].
  exists new_rows. split; [exact Hrows |]. intros row Hrow.
  rewrite Forall_forall in Hall.
  destruct (generated_row_unpacked _ _ _ _ _ _ (Hall row Hrow))
    as [shift [role [emp [_ [_ [_ [_ [_ Hassigned]]]]]]]].
  destruct Hassigned as [_ [Hemp_id [_ [_ [_ Hstatus]]]]].
  rewrite Hemp_id.
  destruct (on_approved_leave _ _ _ _); cbn [negb]; [exact Hstatus |].
  destruct Hstatus as [-> _]. reflexivity.
Qed.

Lemma generated_work_witness :
  exists new_rows,
    schedules Run.after
    = kept_rows Scenario.with_flexible_employee 1 Example.monday
        (Example.monday + 1) ++ new_rows
    /\ forall row, In row new_rows ->
         String.eqb (Schedule.status row) "scheduled"
         = negb (on_approved_leave
                   (leave_requests Scenario.with_flexible_employee)
                   (comp_off_requests Scenario.with_flexible_employee)
                   (Schedule.employee_id row) (Schedule.date row)).
Proof.
  apply (generated_work_avoids_approved_leave Example.no_holidays
           Scenario.with_flexible_employee Run.after Example.monday
           (Example.monday + 1) false Example.manager_user 1 Run.response
           eq_refl Run.ran eq_refl).
Defined.

(** Dropping rows cannot create a double booking. *)
Lemma kept_bookings_stay_distinct (keep : Schedule.t -> bool)
    (rows : list Schedule.t) :
  NoDup (map booking rows) -> NoDup (map booking (filter keep rows)).
Proof.
  induction rows as [| row rest IH]; cbn [filter map]; intros Hdistinct;
    [constructor |].
  apply NoDup_cons_iff in Hdistinct. destruct Hdistinct as [Hfresh Hrest].
  destruct (keep row); cbn [map]; [| now apply IH].
  apply NoDup_cons; [| now apply IH].
  intros Hin. apply Hfresh. apply in_map_iff in Hin.
  destruct Hin as [other [Hsame Hother]]. apply filter_In in Hother.
  apply in_map_iff. exists other. tauto.
Qed.

(** X19. The generator never double-books: the rows it adds are for
    pairwise different (employee, date) pairs, none of which has a kept
    row.  So a schedule table with at most one row per employee and date
    still has at most one after any generation. *)
Theorem generator_never_double_books (jp_calendar : JapaneseCalendar)
    (db db' : Database) (start_date end_date : date) (regenerate : bool)
    (current_user : User.t) (department_id : Z)
    (response : generate_response) :
  get_manager_department db current_user = Ok (Some department_id) ->
  generate_schedules jp_calendar db start_date end_date regenerate current_user
  = (Ok response, db') ->
  requires_confirmation response = false ->
  (exists new_rows,
     schedules db' = kept_rows db department_id start_date end_date ++ new_rows
     /\ NoDup (map booking new_rows)
     /\ forall r s,
          In r new_rows ->
          In s (kept_rows db department_id start_date end_date) ->
          booking s <> booking r)
  /\ (NoDup (map booking (schedules db)) ->
      NoDup (map booking (schedules db'))).
Proof.
  intros Hdept Hrun Hconfirmed.
  destruct (generate_schedules_trace _ _ _ _ _ _ _ _ _ 0 0 Hdept Hrun
              Hconfirmed) as [new_rows [Hrows [_ [_ [Hnodup [Hfresh _]]]]]].
  split.
  - exists new_rows. repeat split; assumption.
  - intros Hold. rewrite Hrows, map_app. apply NoDup_app.
    + now apply kept_bookings_stay_distinct.
    + exact Hnodup.
    + intros k Hk1 Hk2. apply in_map_iff in Hk1, Hk2.
      destruct Hk1 as [s [<- Hs]]. destruct Hk2 as [r [Heq Hr]].
      apply (Hfresh r s Hr Hs). now symmetry.
Qed.

Lemma generator_never_double_books_witness :
  NoDup (map booking (schedules Run.after)).
Proof.
  apply (generator_never_double_books Example.no_holidays
           Scenario.with_flexible_employee Run.after Example.monday
           (Example.monday + 1) false Example.manager_user 1 Run.response
           eq_refl Run.ran eq_refl).
  constructor.
Defined.

Lemma seats_of_other_shifts (shift_id : Z) (p : Shift.t -> bool)
    (l : list Shift.t) :
  ~ In shift_id (map Shift.id l) ->
  total (seats shift_id) (map ensure_schedule_config (filter p l)) = 0.
Proof.
  induction l as [| s rest IH]; cbn; intros Hnotin; [reflexivity |].
  destruct (p s); cbn [map total]; [| apply IH; tauto].
  rewrite IH by tauto. unfold seats. cbn [ensure_schedule_config Shift.id].
  destruct (Z.eqb_spec (Shift.id s) shift_id); [| reflexivity].
  exfalso. apply Hnotin. now left.
Qed.

Lemma seats_of_one_shift (shift : Shift.t) (p : Shift.t -> bool)
    (l : list Shift.t) :
  NoDup (map Shift.id l) -> In shift l ->
  total (seats (Shift.id shift)) (map ensure_schedule_config (filter p l))
  <= Z.max 1 (Shift.max_emp shift).
Proof.
  induction l as [| s rest IH]; cbn [map In filter]; intros Hnd Hin;
    [contradiction |].
  inversion Hnd as [| ? ? Hnotin Hrest]; subst.
  destruct Hin as [-> | Hin].
  - destruct (p shift); cbn [map total];
      rewrite (seats_of_other_shifts _ _ _ Hnotin); [| lia].
    unfold seats. cbn [ensure_schedule_config Shift.id Shift.max_emp].
    rewrite Z.eqb_refl. lia.
  - specialize (IH Hrest Hin).
    destruct (p s); cbn [map total]; [| exact IH].
    unfold seats at 1. cbn [ensure_schedule_config Shift.id].
    destruct (Z.eqb_spec (Shift.id s) (Shift.id shift)) as [Heq | _]; [| lia].
    exfalso. apply Hnotin. rewrite Heq. now apply in_map.
Qed.

Lemma total_fills_length (d : date) (shift_id : Z) (rows : list Schedule.t) :
  Z.of_nat
    (List.length
       (filter (fun row => (Schedule.date row =? d)
                           && match Schedule.shift_id row with
                              | Some i => i =? shift_id
                              | None => false
                              end
                           && String.eqb (Schedule.status row) "scheduled")
          rows))
  = total (fills d shift_id) rows.
Proof.
  induction rows as [| row rest IH]; cbn [filter total]; [reflexivity |].
  unfold fills at 1, is_scheduled.
  destruct ((Schedule.date row =? d)
            && match Schedule.shift_id row with
               | Some i => i =? shift_id
               | None => false
               end); cbn [andb];
    [destruct (String.eqb (Schedule.status row) "scheduled") |];
    cbn [List.length]; lia.
Qed.

(** X20. Staffing stays within the shift's limit: when shift ids are
    unique, the [scheduled] rows a generation adds for one shift on one
    date number at most [max_emp], and at most one when [max_emp] is
    below 1, because the limit is tested only after an assignment. *)
Theorem generator_fills_at_most_max_emp (jp_calendar : JapaneseCalendar)
    (db db' : Database) (start_date end_date : date) (regenerate : bool)
    (current_user : User.t) (department_id : Z)
    (response : generate_response) (shift : Shift.t) (d : date) :
  get_manager_department db current_user = Ok (Some department_id) ->
  generate_schedules jp_calendar db start_date end_date regenerate current_user
  = (Ok response, db') ->
  requires_confirmation response = false ->
  NoDup (map Shift.id (shifts db)) ->
  In shift (shifts db) ->
  exists new_rows,
    schedules db' = kept_rows db department_id start_date end_date ++ new_rows
    /\ Z.of_nat
         (List.length
            (filter (fun row => (Schedule.date row =? d)
                                && match Schedule.shift_id row with
                                   | Some i => i =? Shift.id shift
                                   | None => false
                                   end
                                && String.eqb (Schedule.status row) "scheduled")
               new_rows))
       <= Z.max 1 (Shift.max_emp shift).
Proof.
  intros Hdept Hrun Hconfirmed Hids Hshift.
  destruct (generate_schedules_trace _ _ _ _ _ _ _ _ _ d (Shift.id shift)
              Hdept Hrun Hconfirmed)
    as [new_rows [Hrows [_ [_ [_ [_ Hseats]]]]]].
  exists new_rows. split; [exact Hrows |].
  rewrite total_fills_length.
  eapply Z.le_trans; [exact Hseats |].
  now apply seats_of_one_shift.
Qed.

Lemma generator_fills_witness :
  exists new_rows,
    schedules Run.after
    = kept_rows Scenario.with_flexible_employee 1 Example.monday
        (Example.monday + 1) ++ new_rows
    /\ Z.of_nat
         (List.length
            (filter (fun row => (Schedule.date row =? Example.monday)
                                && match Schedule.shift_id row with
                                   | Some i => i =? Shift.id Example.shift
                                   | None => false
                                   end
                                && String.eqb (Schedule.status row) "scheduled")
               new_rows))
       <= Z.max 1 (Shift.max_emp Example.shift).
Proof.
  apply (generator_fills_at_most_max_emp Example.no_holidays
           Scenario.with_flexible_employee Run.after Example.monday
           (Example.monday + 1) false Example.manager_user 1 Run.response
           Example.shift Example.monday eq_refl Run.ran eq_refl).
  - repeat constructor. intros [].
  - now left.
Defined.


